(** * Saga orchestration lambdas: a shallow embedding and its properties

    The Python handlers under [lambdas/] are embedded as functions of a small
    state-and-exception monad.  Python dictionaries are finite maps with
    string keys, dynamically typed payload values are the inductive [value],
    exceptions are first-class results, and every collaborator the handlers
    call (boto3 clients, [requests], the system clock, [uuid]) is an oracle
    of the class [Collaborators] that may answer differently at each point of
    the call history. *)

From stdpp Require Import gmap strings list fin_maps.
From Stdlib Require Import ZArith.

#[local] Set Warnings "-register-all".
#[local] Open Scope string_scope.
#[local] Open Scope Z_scope.

(** ** Python values *)

(** JSON-shaped Python data: what event payloads, boto3 answers and stored
    items are made of. *)
Inductive value : Type :=
  | VNone
  | VBool (b : bool)
  | VInt (z : Z)
  | VStr (s : string)
  | VList (l : list value)
  | VDict (d : gmap string value).

Abbreviation dict := (gmap string value).

(** Python truth value testing ([if x:], [not x]). *)
Definition truthy (v : value) : bool :=
  match v with
  | VNone => false
  | VBool b => b
  | VInt z => negb (z =? 0)
  | VStr s => negb (String.eqb s "")
  | VList l => match l with [] => false | _ => true end
  | VDict d => negb (Nat.eqb (size d) 0)
  end.

(** [d.get(k)] and [d.get(k, default)] on a dict. *)
Definition dict_get (d : dict) (k : string) : value := default VNone (d !! k).
Definition dict_get_or (d : dict) (k : string) (dflt : value) : value :=
  default dflt (d !! k).

(** ** Exceptions *)

(** The classes of [common/errors.py]; [MigrationError] is the base class. *)
Inductive mig_class : Type :=
  | MigrationErrorC | ValidationErrorC | PrerequisiteErrorC
  | SourcePreparationErrorC | MigrationExecutionErrorC | VerificationErrorC
  | CutoverErrorC | RollbackErrorC.

(** Library exception classes the handlers discriminate on; anything else is
    [ExceptionC]. *)
Inductive py_class : Type :=
  | ExceptionC | KeyErrorC | TypeErrorC | AttributeErrorC | IndexErrorC
  | RequestExceptionC | JsonSchemaErrorC | ResourceNotFoundC | ClientErrorC.

Inductive exn : Type :=
  | MigErr (c : mig_class) (message error_code : string) (details : dict)
  | PyErr (c : py_class) (msg : string).

(** [str(e)]: [MigrationError.__init__] passes [message] to [Exception]. *)
Definition exn_str (e : exn) : string :=
  match e with
  | MigErr _ m _ _ => m
  | PyErr _ m => m
  end.

Definition is_class (c : mig_class) (e : exn) : bool :=
  match e with
  | MigErr c' _ _ _ =>
      match c, c' with
      | MigrationErrorC, _ => true
      | ValidationErrorC, ValidationErrorC => true
      | PrerequisiteErrorC, PrerequisiteErrorC => true
      | SourcePreparationErrorC, SourcePreparationErrorC => true
      | MigrationExecutionErrorC, MigrationExecutionErrorC => true
      | VerificationErrorC, VerificationErrorC => true
      | CutoverErrorC, CutoverErrorC => true
      | RollbackErrorC, RollbackErrorC => true
      | _, _ => false
      end
  | PyErr _ _ => false
  end.

Definition is_request_exception (e : exn) : bool :=
  match e with PyErr RequestExceptionC _ => true | _ => false end.

Module Errors.
(** [details or {}] *)
Definition details_or_empty (details : option dict) : dict := default ∅ details.

Definition MigrationError (message error_code : string) (details : option dict) : exn :=
  MigErr MigrationErrorC message error_code (details_or_empty details).
Definition ValidationError (message : string) (details : option dict) : exn :=
  MigErr ValidationErrorC message "VALIDATION_ERROR" (details_or_empty details).
Definition PrerequisiteError (message : string) (details : option dict) : exn :=
  MigErr PrerequisiteErrorC message "PREREQUISITE_ERROR" (details_or_empty details).
Definition SourcePreparationError (message : string) (details : option dict) : exn :=
  MigErr SourcePreparationErrorC message "SOURCE_PREPARATION_ERROR" (details_or_empty details).
Definition MigrationExecutionError (message : string) (details : option dict) : exn :=
  MigErr MigrationExecutionErrorC message "MIGRATION_EXECUTION_ERROR" (details_or_empty details).
Definition VerificationError (message : string) (details : option dict) : exn :=
  MigErr VerificationErrorC message "VERIFICATION_ERROR" (details_or_empty details).
Definition CutoverError (message : string) (details : option dict) : exn :=
  MigErr CutoverErrorC message "CUTOVER_ERROR" (details_or_empty details).
Definition RollbackError (message : string) (details : option dict) : exn :=
  MigErr RollbackErrorC message "ROLLBACK_ERROR" (details_or_empty details).

(** [e.error_code] and [e.message] of a caught [MigrationError]. *)
Definition error_code (e : exn) : value :=
  match e with MigErr _ _ c _ => VStr c | PyErr _ _ => VNone end.
Definition message (e : exn) : value :=
  match e with MigErr _ m _ _ => VStr m | PyErr _ _ => VNone end.

(** [MigrationError.to_dict]; on any other exception the attribute lookup
    fails, which the callers never reach. *)
Definition to_dict (e : exn) : dict :=
  match e with
  | MigErr _ m c d =>
      <["error_code" := VStr c]> (<["message" := VStr m]> (<["details" := VDict d]> ∅))
  | PyErr _ _ => ∅
  end.
End Errors.

(** ** The world the handlers run in *)

(** A call issued to a collaborator: the client, the operation and its
    arguments. *)
Record call : Type := Call { service : string; operation : string; args : list value }.

Inductive res (A : Type) : Type :=
  | Ok (a : A)
  | Raise (e : exn).
Arguments Ok {A} a.
Arguments Raise {A} e.

(** What lies outside the repository.  Each oracle sees the calls issued so
    far, so a collaborator may fail now and succeed later. *)
Class Collaborators : Type := {
  (** a boto3 client operation or [requests.post]: the returned object as a
      value, or the exception raised *)
  respond : list call → call → res value;
  (** [datetime.utcnow().isoformat()] *)
  utcnow_isoformat : list call → string;
  (** [uuid.uuid4().hex[:8]] *)
  uuid4_hex8 : list call → string;
  (** [int(time.time())] *)
  time_time : list call → Z;
  (** [int(datetime.utcnow().timestamp() * 1000)] *)
  utcnow_millis : list call → Z;
  (** [os.environ] *)
  environ : gmap string string;
  (** [json.loads] and [json.dumps] *)
  json_loads : string → res value;
  json_dumps : value → string;
  (** [jsonschema.validate] against the schema file loaded at import, which
      is not part of the sources: [None] when the instance conforms, else the
      violating path and the message *)
  schema_validate : value → option (string * string);
  (** [str(x)] inside an f-string, for values that are not strings *)
  py_repr : value → string;
}.

Record world : Type := World {
  (** the DynamoDB table, keyed by [migrationId] *)
  table : gmap string dict;
  (** log lines, oldest first: level and message *)
  logged : list (string * string);
  (** collaborator calls, oldest first *)
  calls : list call;
}.

Definition set_table (t : gmap string dict) (w : world) : world :=
  World t (logged w) (calls w).
Definition add_log (l : string * string) (w : world) : world :=
  World (table w) (logged w ++ [l]) (calls w).
Definition add_call (c : call) (w : world) : world :=
  World (table w) (logged w) (calls w ++ [c]).

(** Computations: a result or a raised exception, and the world after. *)
Definition M (A : Type) : Type := world → res A * world.

Definition ret {A} (a : A) : M A := λ w, (Ok a, w).
Definition raise {A} (e : exn) : M A := λ w, (Raise e, w).
Definition bind {A B} (m : M A) (k : A → M B) : M B :=
  λ w, match m w with
       | (Ok a, w') => k a w'
       | (Raise e, w') => (Raise e, w')
       end.
(** [try: m except Exception as e: h e]; narrower [except] clauses are
    dispatched inside [h]. *)
Definition try_except {A} (m : M A) (h : exn → M A) : M A :=
  λ w, match m w with
       | (Ok a, w') => (Ok a, w')
       | (Raise e, w') => h e w'
       end.

Arguments ret {A} a w /.
Arguments raise {A} e w /.
Arguments bind {A B} m k w /.
Arguments try_except {A} m h w /.

(** A [try] block that first binds locals its [except] clauses use: the
    handler gets them when the exception came after the binding. *)
Definition try_binding {L A} (prefix : M L) (body : L → M A)
    (h : option L → exn → M A) : M A :=
  λ w, match prefix w with
       | (Ok l, w1) =>
           match body l w1 with
           | (Ok a, w2) => (Ok a, w2)
           | (Raise e, w2) => h (Some l) e w2
           end
       | (Raise e, w1) => h None e w1
       end.

Arguments try_binding {L A} prefix body h w /.

Declare Scope py_scope.
Delimit Scope py_scope with py.
Notation "x <~ m ;; k" := (bind m (λ x, k))
  (at level 100, m at next level, k at level 200, right associativity) : py_scope.
Notation "m ;;; k" := (bind m (λ _, k))
  (at level 100, k at level 200, right associativity) : py_scope.
#[local] Open Scope py_scope.

Section Primitives.
Context `{C : Collaborators}.

Definition log (level msg : string) : M unit := λ w, (Ok tt, add_log (level, msg) w).
Definition log_info (msg : string) : M unit := log "INFO" msg.
Definition log_warning (msg : string) : M unit := log "WARNING" msg.
Definition log_error (msg : string) : M unit := log "ERROR" msg.

(** [logger.error(msg, exc_info=True)]: [CorrelatedLogger.error] takes a
    message and [extra] only, so the call raises before anything is
    logged. *)
Definition log_error_exc_info (msg : string) : M unit :=
  raise (PyErr TypeErrorC
           "CorrelatedLogger.error() got an unexpected keyword argument 'exc_info'").

(** A call to a boto3 client or to [requests]. *)
Definition ext (svc op : string) (a : list value) : M value :=
  λ w, let c := Call svc op a in (respond (calls w) c, add_call c w).

Definition utcnow : M value :=
  λ w, (Ok (VStr (utcnow_isoformat (calls w))), add_call (Call "datetime" "utcnow" []) w).
Definition uuid4 : M string :=
  λ w, (Ok (uuid4_hex8 (calls w)), add_call (Call "uuid" "uuid4" []) w).
Definition now_seconds : M value :=
  λ w, (Ok (VInt (time_time (calls w))), add_call (Call "time" "time" []) w).
Definition now_millis : M value :=
  λ w, (Ok (VInt (utcnow_millis (calls w))), add_call (Call "datetime" "utcnow" []) w).

(** [time.sleep(n)] *)
Definition sleep (n : Z) : M unit :=
  λ w, (Ok tt, add_call (Call "time" "sleep" [VInt n]) w).

(** [str(x)] *)
Definition py_str (v : value) : string :=
  match v with
  | VStr s => s
  | VNone => "None"
  | VBool true => "True"
  | VBool false => "False"
  | _ => py_repr v
  end.

(** [x.get(k)]: [x] must be a dict. *)
Definition get (x : value) (k : string) : M value :=
  match x with
  | VDict d => ret (dict_get d k)
  | _ => raise (PyErr AttributeErrorC "object has no attribute 'get'")
  end.
Definition get_or (x : value) (k : string) (dflt : value) : M value :=
  match x with
  | VDict d => ret (dict_get_or d k dflt)
  | _ => raise (PyErr AttributeErrorC "object has no attribute 'get'")
  end.

(** [x[k]] with a string key. *)
Definition subscript (x : value) (k : string) : M value :=
  match x with
  | VDict d =>
      match d !! k with
      | Some v => ret v
      | None => raise (PyErr KeyErrorC ("'" +:+ k +:+ "'"))
      end
  | _ => raise (PyErr TypeErrorC "indices must be integers")
  end.

(** [k in x] for a string [k]: key membership on a dict, element
    membership on a list of strings, substring on a string. *)
Definition contains (x : value) (k : string) : M bool :=
  match x with
  | VDict d => ret (bool_decide (is_Some (d !! k)))
  | VList l => ret (existsb (λ v, match v with VStr s => String.eqb s k | _ => false end) l)
  | VStr s => ret (match String.index 0%nat k s with Some _ => true | None => false end)
  | _ => raise (PyErr TypeErrorC "argument is not iterable")
  end.

(** [x > n] against an integer literal. *)
Definition gt (x : value) (n : Z) : M bool :=
  match x with
  | VInt z => ret (n <? z)
  | VBool b => ret (n <? Z.b2z b)
  | _ => raise (PyErr TypeErrorC "'>' not supported between instances")
  end.

(** [len(x)] *)
Definition len (x : value) : M value :=
  match x with
  | VList l => ret (VInt (Z.of_nat (length l)))
  | VDict d => ret (VInt (Z.of_nat (size d)))
  | VStr s => ret (VInt (Z.of_nat (String.length s)))
  | _ => raise (PyErr TypeErrorC "object has no len()")
  end.

(** [x[0]] *)
Definition first (x : value) : M value :=
  match x with
  | VList (v :: _) => ret v
  | VList [] => raise (PyErr IndexErrorC "list index out of range")
  | VStr (String a _) => ret (VStr (String a EmptyString))
  | VStr EmptyString => raise (PyErr IndexErrorC "string index out of range")
  | VDict _ => raise (PyErr KeyErrorC "0")
  | _ => raise (PyErr TypeErrorC "object is not subscriptable")
  end.

(** [x == "literal"] *)
Definition eq_str (x : value) (s : string) : bool :=
  match x with
  | VStr s' => String.eqb s' s
  | _ => false
  end.

(** The elements a [for] loop visits.  A dict yields its keys; their order
    is the insertion order, which the finite map does not keep. *)
Definition iterate (x : value) : M (list value) :=
  match x with
  | VList l => ret l
  | VDict d => ret (VStr <$> (map_to_list d).*1)
  | VStr s => ret ((λ a, VStr (String a EmptyString)) <$> String.list_ascii_of_string s)
  | _ => raise (PyErr TypeErrorC "object is not iterable")
  end.

(** [json.loads(x)] *)
Definition loads (x : value) : M value :=
  match x with
  | VStr s => λ w, (json_loads s, w)
  | _ => raise (PyErr TypeErrorC "the JSON object must be str, bytes or bytearray")
  end.

(** [os.environ.get(k)] *)
Definition environ_get (k : string) : value :=
  match environ !! k with
  | Some s => VStr s
  | None => VNone
  end.

(** *** The DynamoDB table

    The table's key attribute is the string [migrationId]; a key of another
    type, or the empty string, is rejected by the service. *)
Definition table_key (k : value) : M string :=
  match k with
  | VStr s => if String.eqb s "" then raise (PyErr ClientErrorC "ValidationException") else ret s
  | _ => raise (PyErr ClientErrorC "ValidationException")
  end.

(** [table.put_item(Item=item)]: the item replaces any stored one. *)
Definition put_item (item : dict) : M unit :=
  k <~ table_key (dict_get item "migrationId");;
  λ w, (Ok tt, set_table (<[k := item]> (table w)) w).

(** [table.get_item(Key={"migrationId": k})]: the response, with ["Item"]
    only when the key is stored. *)
Definition get_item (key : value) : M dict :=
  k <~ table_key key;;
  λ w, (Ok match table w !! k with
           | Some item => {[ "Item" := VDict item ]}
           | None => ∅
           end, w).

(** [table.update_item] with an update expression made of [SET] actions
    only: each action assigns one attribute, the others are kept, and an
    absent item is created from its key. *)
Definition apply_set (item : dict) (sets : list (string * value)) : dict :=
  foldl (λ it kv, <[kv.1 := kv.2]> it) item sets.

Definition update_item (key : value) (sets : list (string * value)) : M unit :=
  k <~ table_key key;;
  λ w, let item := default {[ "migrationId" := VStr k ]} (table w !! k) in
       (Ok tt, set_table (<[k := apply_set item sets]> (table w)) w).
End Primitives.

Arguments log level msg w /.
Arguments log_info msg w /.
Arguments log_warning msg w /.
Arguments log_error msg w /.
Arguments ext {C} svc op a w /.
Arguments utcnow {C} w /.
Arguments uuid4 {C} w /.
Arguments now_seconds {C} w /.
Arguments now_millis {C} w /.
Arguments sleep n w /.

(** ** [common/dynamodb_helper.py] *)
Module DynamodbHelper.
Section Defs.
Context `{C : Collaborators}.

Definition save_migration_state (migration_id : value) (state : dict) : M unit :=
  now <~ utcnow;;
  let item : dict :=
    <["migrationId" := migration_id]> (
    <["status" := dict_get_or state "status" (VStr "PENDING")]> (
    <["wave" := dict_get state "wave"]> (
    <["appName" := dict_get state "appName"]> (
    <["source" := dict_get state "source"]> (
    <["target" := dict_get state "target"]> (
    <["environment" := dict_get state "environment"]> (
    <["updatedAt" := now]> (
    <["executionDetails" := dict_get_or state "executionDetails" (VDict ∅)]> (
    <["correlationId" := dict_get state "correlationId"]> ∅))))))))) in
  put_item item.

Definition get_migration_state (migration_id : value) : M value :=
  response <~ get_item migration_id;;
  ret (dict_get response "Item").

Definition update_migration_status (migration_id status execution_details : value) : M unit :=
  now <~ utcnow;;
  let expression_values := [("status", status); ("updatedAt", now)] in
  let expression_values :=
    if truthy execution_details
    then (expression_values ++ [("executionDetails", execution_details)])%list
    else expression_values in
  update_item migration_id expression_values.
End Defs.
End DynamodbHelper.

Arguments DynamodbHelper.save_migration_state : simpl never.
Arguments DynamodbHelper.get_migration_state : simpl never.
Arguments DynamodbHelper.update_migration_status : simpl never.

(** ** [common/correlation.py] *)
Module Correlation.
Section Defs.
Context `{C : Collaborators}.

(** [x[k] = v]: item assignment needs a dict when the key is a string. *)
Definition setitem (x : value) (k : string) (v : value) : M value :=
  match x with
  | VDict d => ret (VDict (<[k := v]> d))
  | _ => raise (PyErr TypeErrorC "object does not support item assignment")
  end.

Definition generate_correlation_id : M value :=
  h <~ uuid4;;
  ret (VStr ("mig-" +:+ h)).

Definition extract_correlation_id (event : value) : M value :=
  at_top <~ contains event "correlation_id";;
  if at_top then subscript event "correlation_id"
  else
    has_detail <~ contains event "detail";;
    in_detail <~ (if has_detail
                  then (d <~ get_or event "detail" (VDict ∅);;
                        contains d "correlation_id")
                  else ret false);;
    if in_detail then
      d <~ subscript event "detail";;
      subscript d "correlation_id"
    else
      has_headers <~ contains event "headers";;
      from_headers <~ (if has_headers
                       then (h <~ subscript event "headers";;
                             get h "X-Correlation-ID")
                       else ret VNone);;
      if has_headers && truthy from_headers then ret from_headers
      else generate_correlation_id.

(** The event is mutated in place and returned; here the updated event is
    the result. *)
Definition inject_correlation_id (event correlation_id : value) : M value :=
  has_detail <~ contains event "detail";;
  event <~ (if negb has_detail then setitem event "detail" (VDict ∅) else ret event);;
  d <~ subscript event "detail";;
  d <~ setitem d "correlation_id" correlation_id;;
  setitem event "detail" d.
End Defs.
End Correlation.

Arguments Correlation.generate_correlation_id : simpl never.
Arguments Correlation.extract_correlation_id : simpl never.
Arguments Correlation.inject_correlation_id : simpl never.

(** ** [common/eventbridge_helper.py] *)
Module EventbridgeHelper.
Section Defs.
Context `{C : Collaborators}.

(** [self.bus_name], read from the environment when the module loads. *)
Definition bus_name : value := environ_get "EVENTBRIDGE_BUS_NAME".

Definition publish_event (detail_type : string) (detail : value) (source : string) : M value :=
  response <~ ext "events" "put_events"
    [VList [VDict (<["EventBusName" := bus_name]> (
                   <["Source" := VStr source]> (
                   <["DetailType" := VStr detail_type]> (
                   <["Detail" := VStr (json_dumps detail)]> (
                   <["Resources" := VList []]> ∅)))))]];;
  failed_count <~ get_or response "FailedEntryCount" (VInt 0);;
  any_failed <~ gt failed_count 0;;
  if any_failed then
    entries <~ get_or response "Entries" (VList []);;
    raise (PyErr ExceptionC ("Failed to publish event: " +:+ py_str entries))
  else
    entries <~ subscript response "Entries";;
    entry <~ first entries;;
    subscript entry "EventId".

Definition default_source : string := "migration.orchestration".

(** [if details: event_detail.update(details)] *)
Definition with_details (event_detail : dict) (details : option dict) : dict :=
  match details with
  | Some d => if truthy (VDict d) then d ∪ event_detail else event_detail
  | None => event_detail
  end.

Definition publish_success_event (migration_id correlation_id : value)
    (details : option dict) : M value :=
  now <~ utcnow;;
  let event_detail : dict :=
    <["migrationId" := migration_id]> (
    <["correlationId" := correlation_id]> (
    <["status" := VStr "SUCCESS"]> (
    <["timestamp" := now]> ∅))) in
  publish_event "MigrationSucceeded" (VDict (with_details event_detail details)) default_source.

Definition publish_failure_event (migration_id correlation_id error_code error_message : value)
    (details : option dict) : M value :=
  now <~ utcnow;;
  let event_detail : dict :=
    <["migrationId" := migration_id]> (
    <["correlationId" := correlation_id]> (
    <["status" := VStr "FAILED"]> (
    <["errorCode" := error_code]> (
    <["errorMessage" := error_message]> (
    <["timestamp" := now]> ∅))))) in
  publish_event "MigrationFailed" (VDict (with_details event_detail details)) default_source.

Definition publish_status_event (migration_id correlation_id : value)
    (current_step status : string) (details : option dict) : M value :=
  now <~ utcnow;;
  let event_detail : dict :=
    <["migrationId" := migration_id]> (
    <["correlationId" := correlation_id]> (
    <["currentStep" := VStr current_step]> (
    <["status" := VStr status]> (
    <["timestamp" := now]> ∅)))) in
  publish_event "MigrationStatusUpdated" (VDict (with_details event_detail details)) default_source.
End Defs.
End EventbridgeHelper.

Arguments EventbridgeHelper.publish_event : simpl never.
Arguments EventbridgeHelper.publish_success_event : simpl never.
Arguments EventbridgeHelper.publish_failure_event : simpl never.
Arguments EventbridgeHelper.publish_status_event : simpl never.

(** The response dict of a handler. *)
Definition response (status_code : Z) (body : value) : value :=
  VDict (<["statusCode" := VInt status_code]> (<["body" := body]> ∅)).

(** ** [prepare_source.py] *)
Module PrepareSource.
Import Errors Correlation DynamodbHelper EventbridgeHelper.
Section Defs.
Context `{C : Collaborators}.

Definition prepare_azure_source (payload : value) : M dict :=
  log_info "Preparing Azure source VM";;;
  source_vm_id <~ get payload "sourceVmId";;
  if negb (truthy source_vm_id) then
    raise (SourcePreparationError "Source VM ID not provided for Azure source" None)
  else
    now <~ utcnow;;
    let preparation_result : dict :=
      <["vmId" := source_vm_id]> (
      <["agentInstalled" := VBool true]> (
      <["snapshotCreated" := VBool true]> (
      <["readinessValidated" := VBool true]> (
      <["preparedAt" := now]> ∅)))) in
    log_info "Azure source prepared";;;
    ret preparation_result.

Definition prepare_source_with_mgn (payload : value) : M dict :=
  log_info "Integrating with MGN for source preparation";;;
  try_except
    (response <~ ext "mgn" "describe_source_servers" [];;
     source_servers <~ get_or response "items" (VList []);;
     count <~ len source_servers;;
     log_info "MGN source servers retrieved";;;
     now <~ utcnow;;
     ret (<["mgn_integrated" := VBool true]> (
          <["source_servers_found" := count]> (
          <["preparedAt" := now]> ∅))))
    (λ e, raise (SourcePreparationError ("MGN integration failed: " +:+ exn_str e)
                   (Some {[ "service" := VStr "mgn" ]}))).

(** The loop over the required fields. *)
Fixpoint check_required (payload : value) (fields : list string) : M bool :=
  match fields with
  | [] =>
      log_info "Source readiness validation passed";;;
      ret true
  | field :: rest =>
      present <~ contains payload field;;
      filled <~ (if present then (v <~ subscript payload field;; ret (truthy v))
                 else ret false);;
      if negb filled then
        log_warning ("Missing field: " +:+ field);;;
        ret false
      else check_required payload rest
  end.

Definition validate_source_readiness (payload : value) : M bool :=
  log_info "Validating source readiness";;;
  check_required payload ["sourceVmId"; "source"].

Definition on_preparation_error (detail : value) (correlation_id : option value)
    (e : exn) : M value :=
  log_error "Source preparation failed";;;
  migration_id <~ get_or detail "migrationId" (VStr "unknown");;
  (* the bare [except: pass] also swallows the unbound [correlation_id] *)
  match correlation_id with
  | Some cid =>
      try_except
        (publish_failure_event migration_id cid
           (error_code e) (message e) None;;;
         ret tt)
        (λ _, ret tt)
  | None => ret tt
  end;;;
  ret (response 500 (VDict (to_dict e))).

Definition on_unexpected_error (e : exn) : M value :=
  log_error "Unexpected error in source preparation";;;
  ret (response 500 (VDict {[ "error" := VStr "Source preparation failed" ]})).

Definition lambda_handler (event : dict) : M value :=
  let detail := dict_get_or event "detail" (VDict ∅) in
  try_binding
    (extract_correlation_id (VDict event))
    (λ correlation_id,
       migration_id <~ get detail "migrationId";;
       log_info "Starting source preparation";;;
       ready <~ validate_source_readiness detail;;
       (if negb ready
        then raise (SourcePreparationError "Source VM is not ready for migration" None)
        else ret tt);;;
       source_type <~ get detail "source";;
       preparation_result <~ (if eq_str source_type "azure"
                              then prepare_azure_source detail
                              else prepare_source_with_mgn detail);;
       update_migration_status migration_id (VStr "SOURCE_PREPARED")
         (VDict {[ "sourcePreparation" := VDict preparation_result ]});;;
       log_info "Source preparation completed";;;
       publish_status_event migration_id correlation_id "prepare_source" "SUCCESS"
         (Some preparation_result);;;
       ret (response 200 (VDict (<["migrationId" := migration_id]> (
                                 <["status" := VStr "SOURCE_PREPARED"]> (
                                 <["details" := VDict preparation_result]> ∅))))))
    (λ correlation_id e,
       if is_class SourcePreparationErrorC e
       then on_preparation_error detail correlation_id e
       else on_unexpected_error e).
End Defs.
End PrepareSource.

Arguments PrepareSource.prepare_azure_source : simpl never.
Arguments PrepareSource.prepare_source_with_mgn : simpl never.
Arguments PrepareSource.validate_source_readiness : simpl never.
Arguments PrepareSource.on_preparation_error : simpl never.
Arguments PrepareSource.on_unexpected_error : simpl never.
Arguments PrepareSource.lambda_handler : simpl never.

(** ** [verify_migration.py] *)
Module VerifyMigration.
Import Errors Correlation DynamodbHelper EventbridgeHelper.
Section Defs.
Context `{C : Collaborators}.

Definition check_mgn_replication_status (source_vm_id : value) : M dict :=
  log_info "Checking MGN replication status";;;
  try_except
    (response <~ ext "mgn" "describe_source_servers"
                   [VDict {[ "sourceServerIDs" := VList [source_vm_id] ]}];;
     items <~ get response "items";;
     (if negb (truthy items)
      then raise (VerificationError "Source server not found in MGN" None)
      else ret tt);;;
     items <~ subscript response "items";;
     server <~ first items;;
     replication_info <~ get_or server "replicationStatus" (VDict ∅);;
     status <~ get replication_info "status";;
     lag <~ get_or replication_info "replicationLagSec" (VInt 0);;
     last_seen <~ get_or replication_info "lastSeenByService" (VStr "");;
     let status_info : dict :=
       <["replicationStatus" := status]> (
       <["replicationLag" := lag]> (
       <["lastSeenByService" := last_seen]> ∅)) in
     log_info "MGN replication status retrieved";;;
     ret status_info)
    (λ e, raise (VerificationError
                   ("Failed to check MGN replication status: " +:+ exn_str e)
                   (Some {[ "service" := VStr "mgn" ]}))).

Definition default_threshold : Z := 300.

Definition validate_replication_lag (replication_lag : value) (threshold : Z) : M bool :=
  log_info "Validating replication lag";;;
  exceeds <~ gt replication_lag threshold;;
  if exceeds then
    log_warning "Replication lag exceeds threshold";;;
    ret false
  else ret true.

Definition check_application_health (payload : value) : M dict :=
  log_info "Checking application health";;;
  app_name <~ get payload "appName";;
  now <~ utcnow;;
  let health_status : dict :=
    <["appName" := app_name]> (
    <["healthStatus" := VStr "HEALTHY"]> (
    <["checkedAt" := now]> (
    <["checks" := VDict (<["connectivity" := VBool true]> (
                         <["diskSpace" := VBool true]> (
                         <["memory" := VBool true]> (
                         <["cpu" := VBool true]> ∅))))]> ∅))) in
  log_info "Application health check completed";;;
  ret health_status.

Definition on_verification_error (detail : value) (correlation_id : option value)
    (e : exn) : M value :=
  log_error "Migration verification failed";;;
  migration_id <~ get_or detail "migrationId" (VStr "unknown");;
  (* the bare [except: pass] also swallows the unbound [correlation_id] *)
  match correlation_id with
  | Some cid =>
      try_except
        (publish_failure_event migration_id cid (error_code e) (message e) None;;;
         ret tt)
        (λ _, ret tt)
  | None => ret tt
  end;;;
  ret (response 500 (VDict (to_dict e))).

Definition on_unexpected_error (e : exn) : M value :=
  log_error "Unexpected error in migration verification";;;
  ret (response 500 (VDict {[ "error" := VStr "Migration verification failed" ]})).

Definition lambda_handler (event : dict) : M value :=
  let detail := dict_get_or event "detail" (VDict ∅) in
  try_binding
    (extract_correlation_id (VDict event))
    (λ correlation_id,
       migration_id <~ get detail "migrationId";;
       log_info "Starting migration verification";;;
       source_vm_id <~ get_or detail "sourceVmId" (VStr "");;
       replication_status <~ check_mgn_replication_status source_vm_id;;
       let replication_lag := dict_get_or replication_status "replicationLag" (VInt 0) in
       is_replication_acceptable <~ validate_replication_lag replication_lag default_threshold;;
       (if negb is_replication_acceptable
        then raise (VerificationError "Replication lag exceeds acceptable threshold"
                      (Some {[ "lag" := replication_lag ]}))
        else ret tt);;;
       health_status <~ check_application_health detail;;
       let details : dict :=
         <["replication" := VDict replication_status]> (
         <["health" := VDict health_status]> ∅) in
       update_migration_status migration_id (VStr "VERIFIED") (VDict details);;;
       log_info "Migration verification completed";;;
       publish_status_event migration_id correlation_id "verify_migration" "SUCCESS"
         (Some details);;;
       ret (response 200 (VDict (<["migrationId" := migration_id]> (
                                 <["status" := VStr "VERIFIED"]> (
                                 <["replication" := VDict replication_status]> (
                                 <["health" := VDict health_status]> ∅)))))))
    (λ correlation_id e,
       if is_class VerificationErrorC e
       then on_verification_error detail correlation_id e
       else on_unexpected_error e).
End Defs.
End VerifyMigration.

Arguments VerifyMigration.check_mgn_replication_status : simpl never.
Arguments VerifyMigration.validate_replication_lag : simpl never.
Arguments VerifyMigration.check_application_health : simpl never.
Arguments VerifyMigration.on_verification_error : simpl never.
Arguments VerifyMigration.on_unexpected_error : simpl never.
Arguments VerifyMigration.lambda_handler : simpl never.

(** ** [rollback_handler.py] *)
Module RollbackHandler.
Import Errors Correlation DynamodbHelper EventbridgeHelper.
Section Defs.
Context `{C : Collaborators}.

Definition stop_mgn_replication (source_vm_id : value) : M dict :=
  log_info "Stopping MGN replication";;;
  try_except
    (ext "mgn" "discontinue_from_launch" [VList [source_vm_id]];;;
     log_info "MGN replication stopped";;;
     ret (<["status" := VStr "REPLICATION_STOPPED"]> (
          <["sourceVmId" := source_vm_id]> ∅)))
    (λ e, raise (RollbackError ("Failed to stop MGN replication: " +:+ exn_str e)
                   (Some {[ "service" := VStr "mgn" ]}))).

Definition terminate_target_instance (payload : value) : M dict :=
  log_info "Terminating target instance";;;
  instance_id <~ get payload "targetInstanceId";;
  if negb (truthy instance_id) then
    log_warning "No target instance ID found for termination";;;
    ret (<["status" := VStr "SKIPPED"]> (
         <["reason" := VStr "No target instance ID"]> ∅))
  else
    try_except
      (ext "ec2" "terminate_instances" [VList [instance_id]];;;
       log_info "Target instance termination initiated";;;
       ret (<["status" := VStr "INSTANCE_TERMINATED"]> (
            <["instanceId" := instance_id]> ∅)))
      (λ e, raise (RollbackError ("Failed to terminate target instance: " +:+ exn_str e)
                     (Some {[ "instanceId" := instance_id ]}))).

Definition restore_source_state (payload : value) : M dict :=
  log_info "Restoring source VM state";;;
  source_vm_id <~ get payload "sourceVmId";;
  if negb (truthy source_vm_id) then
    raise (RollbackError "Source VM ID not provided for state restoration" None)
  else
    now <~ utcnow;;
    let restore_result : dict :=
      <["sourceVmId" := source_vm_id]> (
      <["status" := VStr "STATE_RESTORED"]> (
      <["restoredAt" := now]> ∅)) in
    log_info "Source VM state restored";;;
    ret restore_result.

Definition notify_stakeholders (migration_id : value) (error_details : dict) : M dict :=
  log_info "Notifying stakeholders of rollback";;;
  now <~ utcnow;;
  let notification : dict :=
    <["migrationId" := migration_id]> (
    <["notificationType" := VStr "ROLLBACK_NOTIFICATION"]> (
    <["status" := VStr "SENT"]> (
    <["sentAt" := now]> (
    <["errorDetails" := VDict error_details]> ∅)))) in
  log_info "Stakeholders notified";;;
  ret notification.

(** [{"status": "FAILED", "error": str(e)}] *)
Definition failed (e : exn) : value :=
  VDict (<["status" := VStr "FAILED"]> (<["error" := VStr (exn_str e)]> ∅)).

Definition lambda_handler (event : dict) : M value :=
  let detail := dict_get_or event "detail" (VDict ∅) in
  try_except
    (correlation_id <~ extract_correlation_id (VDict event);;
     migration_id <~ get detail "migrationId";;
     error_code <~ get detail "errorCode";;
     log_info "Starting rollback process";;;
     let rollback_results : dict := ∅ in
     (* Stop MGN replication *)
     rollback_results <~ try_except
       (source_vm_id <~ get detail "sourceVmId";;
        if truthy source_vm_id then
          r <~ stop_mgn_replication source_vm_id;;
          ret (<["mgnReplication" := VDict r]> rollback_results)
        else ret rollback_results)
       (λ e, log_warning "Failed to stop MGN replication";;;
             ret (<["mgnReplication" := failed e]> rollback_results));;
     (* Terminate target instance *)
     rollback_results <~ try_except
       (r <~ terminate_target_instance detail;;
        ret (<["targetInstance" := VDict r]> rollback_results))
       (λ e, log_warning "Failed to terminate target instance";;;
             ret (<["targetInstance" := failed e]> rollback_results));;
     (* Restore source state *)
     rollback_results <~ try_except
       (r <~ restore_source_state detail;;
        ret (<["sourceState" := VDict r]> rollback_results))
       (λ e, log_warning "Failed to restore source state";;;
             ret (<["sourceState" := failed e]> rollback_results));;
     (* Notify stakeholders *)
     rollback_results <~ try_except
       (error_code <~ get detail "errorCode";;
        error_message <~ get detail "errorMessage";;
        r <~ notify_stakeholders migration_id
               (<["errorCode" := error_code]> (<["errorMessage" := error_message]> ∅));;
        ret (<["notification" := VDict r]> rollback_results))
       (λ e, log_warning "Failed to notify stakeholders";;;
             ret (<["notification" := failed e]> rollback_results));;
     (* Update migration state *)
     update_migration_status migration_id (VStr "ROLLED_BACK") (VDict rollback_results);;;
     log_info "Rollback process completed";;;
     (* Publish rollback event *)
     now <~ utcnow;;
     publish_event "MigrationRolledBack"
       (VDict (<["migrationId" := migration_id]> (
               <["correlationId" := correlation_id]> (
               <["status" := VStr "ROLLED_BACK"]> (
               <["rollbackDetails" := VDict rollback_results]> (
               <["timestamp" := now]> ∅))))))
       default_source;;;
     ret (response 200 (VDict (<["migrationId" := migration_id]> (
                               <["status" := VStr "ROLLED_BACK"]> (
                               <["rollbackDetails" := VDict rollback_results]> ∅))))))
    (λ e,
       if is_class RollbackErrorC e then
         log_error "Critical rollback error";;;
         ret (response 500 (VDict (to_dict e)))
       else
         log_error "Unexpected error in rollback handler";;;
         ret (response 500 (VDict {[ "error" := VStr "Rollback process failed" ]}))).
End Defs.
End RollbackHandler.

Arguments RollbackHandler.stop_mgn_replication : simpl never.
Arguments RollbackHandler.terminate_target_instance : simpl never.
Arguments RollbackHandler.restore_source_state : simpl never.
Arguments RollbackHandler.notify_stakeholders : simpl never.
Arguments RollbackHandler.lambda_handler : simpl never.

(** ** Helpers the second handler variants import

    [rollback_handler_new.py] and [callback_handler_new.py] import three
    functions from [common/] that the sources do not define. *)
Module CommonMissing.
Import Correlation.
Section Defs.
Context `{C : Collaborators}.

(** Modelled from the spec: [common.correlation.get_correlation_id] is
    missing.  The correlation context "generates a new one with a
    recognizable prefix" when no identifier is supplied, and this function
    is called without an event. *)
Definition get_correlation_id : M value := generate_correlation_id.

(** Modelled from the spec: [common.correlation.propagate_context] is
    missing.  The identifier is propagated "through every step and every
    published event"; nothing is stored or sent by the call itself. *)
Definition propagate_context (correlation_id : value) : M unit := ret tt.

(** Modelled from the spec: [common.dynamodb_helper.update_migration_state]
    is missing.  [updateStatus] is a "partial update" that "merges
    executionDetailsDelta into existing map (never replaces it wholesale),
    always rewrites status and updatedAt". *)
Definition update_migration_state (migration_id : value) (status : string)
    (details : dict) : M unit :=
  now <~ utcnow;;
  k <~ table_key migration_id;;
  λ w, let item := default {[ "migrationId" := VStr k ]} (table w !! k) in
       let old : dict := match item !! "executionDetails" with
                         | Some (VDict d) => d
                         | _ => ∅
                         end in
       (Ok tt, set_table (<[k := <["status" := VStr status]> (
                                  <["updatedAt" := now]> (
                                  <["executionDetails" := VDict (details ∪ old)]> item))]>
                            (table w)) w).
End Defs.
End CommonMissing.

Arguments CommonMissing.get_correlation_id : simpl never.
Arguments CommonMissing.update_migration_state : simpl never.

(** ** [rollback_handler_new.py] *)
Module RollbackHandlerNew.
Import CommonMissing.
Section Defs.
Context `{C : Collaborators}.

(** [except Exception as e: ...; return False, str(e)] *)
Definition report_error (msg : string) (e : exn) : M (bool * string) :=
  log_error (msg +:+ exn_str e);;;
  ret (false, exn_str e).

Definition revert_target_instance (payload : value) : M (bool * string) :=
  try_except
    (migration_id <~ subscript payload "migrationId";;
     target_instance_id <~ get payload "targetInstanceId";;
     if negb (truthy target_instance_id) then
       log_warning "No target instance ID to revert";;;
       ret (true, "No target instance to revert")
     else
       log_info ("Reverting target instance: " +:+ py_str target_instance_id);;;
       try_except
         (ext "ec2" "terminate_instances" [VList [target_instance_id]];;;
          log_info ("Target instance " +:+ py_str target_instance_id +:+ " terminated");;;
          ret (true, "Instance " +:+ py_str target_instance_id +:+ " terminated"))
         (report_error "Failed to terminate instance: "))
    (report_error "Error reverting target instance: ").

Definition restore_source_vm (payload : value) : M (bool * string) :=
  try_except
    (migration_id <~ subscript payload "migrationId";;
     app_name <~ subscript payload "appName";;
     snapshot_id <~ get payload "snapshotId";;
     log_info ("Restoring source VM " +:+ py_str app_name +:+ " from snapshot");;;
     if negb (truthy snapshot_id) then
       log_warning "No snapshot ID available for restore";;;
       ret (true, "No snapshot to restore from")
     else
       source <~ subscript payload "source";;
       (if eq_str source "azure" then
          log_info ("Azure VM restore initiated from snapshot: " +:+ py_str snapshot_id)
        else if eq_str source "vmware" then
          log_info ("VMware snapshot revert initiated: " +:+ py_str snapshot_id)
        else ret tt);;;
       sleep 5;;;
       log_info ("Source VM " +:+ py_str app_name +:+ " restored successfully");;;
       ret (true, "VM restored from snapshot " +:+ py_str snapshot_id))
    (report_error "Error restoring source VM: ").

Definition cancel_mgn_job (payload : value) : M (bool * string) :=
  try_except
    (migration_id <~ subscript payload "migrationId";;
     job_id <~ get payload "jobId";;
     if negb (truthy job_id) then
       log_info "No active MGN job to cancel";;;
       ret (true, "No job to cancel")
     else
       log_info ("Canceling MGN job: " +:+ py_str job_id);;;
       try_except
         (jobs <~ ext "mgn" "describe_jobs" [VDict {[ "jobIDs" := VList [job_id] ]}];;
          items <~ get jobs "items";;
          (if truthy items then
             items <~ subscript jobs "items";;
             job <~ first items;;
             job_status <~ subscript job "status";;
             if negb (eq_str job_status "COMPLETED" || eq_str job_status "SUCCEEDED"
                      || eq_str job_status "FAILED") then
               log_info ("Job " +:+ py_str job_id +:+ " is still running, attempting cancel");;;
               log_info ("Job " +:+ py_str job_id +:+ " cancellation initiated")
             else
               log_info ("Job " +:+ py_str job_id +:+ " is already in terminal state: "
                         +:+ py_str job_status)
           else ret tt);;;
          ret (true, "Job cancellation processed"))
         (λ e, log_warning ("Could not cancel job: " +:+ exn_str e);;;
               ret (true, "Job cancel attempted")))
    (report_error "Error canceling MGN job: ").

Definition restore_previous_state (migration_id : value) : M bool :=
  try_except
    (log_info ("Restoring previous state for migration: " +:+ py_str migration_id);;;
     response <~ get_item migration_id;;
     match response !! "Item" with
     | Some current_state =>
         has_backup <~ contains current_state "sourceState";;
         if has_backup then
           log_info ("Restoring state from backup for " +:+ py_str migration_id);;;
           ret true
         else ret true
     | None => ret true
     end)
    (λ e, log_error ("Error restoring state: " +:+ exn_str e);;;
          ret false).

Definition notify_stakeholders (payload : value) (reason : value) : M bool :=
  try_except
    (migration_id <~ subscript payload "migrationId";;
     app_name <~ subscript payload "appName";;
     log_info ("Notifying stakeholders about rollback for " +:+ py_str app_name);;;
     let topic_arn := environ_get "SNS_TOPIC_ARN" in
     if negb (truthy topic_arn) then
       log_warning "SNS topic ARN not configured";;;
       ret false
     else
       now <~ now_seconds;;
       let message : dict :=
         <["migrationId" := migration_id]> (
         <["appName" := app_name]> (
         <["status" := VStr "ROLLBACK_INITIATED"]> (
         <["reason" := reason]> (
         <["timestamp" := now]> (
         <["action" := VStr "A rollback has been initiated for this migration. Please review logs for details."]> ∅))))) in
       try_except
         (response <~ ext "sns" "publish"
            [topic_arn;
             VStr ("Migration Rollback: " +:+ py_str app_name +:+ " ("
                   +:+ py_str migration_id +:+ ")");
             VStr (json_dumps (VDict message))];;
          message_id <~ subscript response "MessageId";;
          log_info ("Notification sent: " +:+ py_str message_id);;;
          ret true)
         (λ e, log_error ("Failed to send notification: " +:+ exn_str e);;;
               ret false))
    (λ e, log_error ("Error notifying stakeholders: " +:+ exn_str e);;;
          ret false).

(** One entry of [rollback_steps]. *)
Definition step_record (step : string) (outcome : bool * string) : value :=
  VDict (<["step" := VStr step]> (
         <["success" := VBool outcome.1]> (
         <["message" := VStr outcome.2]> ∅))).

(** [a or b] where [b] is only evaluated when [a] is falsy. *)
Definition or_else (a : value) (b : M value) : M value :=
  if truthy a then ret a else b.

Definition lambda_handler (event : dict) : M value :=
  correlation_id <~ get_correlation_id;;
  propagate_context correlation_id;;;
  migration_id <~ or_else (dict_get event "migrationId")
                    (get (dict_get_or event "detail" (VDict ∅)) "migrationId");;
  let error := dict_get_or event "error" (VStr "Unknown error") in
  log_info ("Initiating rollback for migration: " +:+ py_str migration_id
            +:+ ", Reason: " +:+ py_str error);;;
  try_except
    (let payload := dict_get_or event "detail" (VDict event) in
     now <~ now_seconds;;
     update_migration_state migration_id "ROLLBACK_IN_PROGRESS"
       (<["step" := VStr "rollback"]> (
        <["error" := error]> (
        <["correlationId" := correlation_id]> (
        <["timestamp" := now]> ∅))));;;
     let rollback_steps : list value := [] in
     (* Cancel any in-progress jobs *)
     outcome <~ cancel_mgn_job payload;;
     let rollback_steps := (rollback_steps ++ [step_record "cancel_mgn_job" outcome])%list in
     (if negb outcome.1
      then log_warning ("Failed to cancel MGN job: " +:+ outcome.2) else ret tt);;;
     (* Revert target instance *)
     outcome <~ revert_target_instance payload;;
     let rollback_steps :=
       (rollback_steps ++ [step_record "revert_target_instance" outcome])%list in
     (if negb outcome.1
      then log_warning ("Failed to revert target: " +:+ outcome.2) else ret tt);;;
     (* Restore source VM *)
     outcome <~ restore_source_vm payload;;
     let rollback_steps :=
       (rollback_steps ++ [step_record "restore_source_vm" outcome])%list in
     (if negb outcome.1
      then log_warning ("Failed to restore source: " +:+ outcome.2) else ret tt);;;
     (* Restore previous state *)
     restore_previous_state migration_id;;;
     (* Notify stakeholders *)
     notify_stakeholders payload error;;;
     (* Update migration state to ROLLED_BACK *)
     now <~ now_seconds;;
     update_migration_state migration_id "ROLLED_BACK"
       (<["step" := VStr "rollback"]> (
        <["rollbackSteps" := VList rollback_steps]> (
        <["error" := error]> (
        <["correlationId" := correlation_id]> (
        <["timestamp" := now]> ∅)))));;;
     log_info ("Rollback completed for " +:+ py_str migration_id);;;
     ret (VDict (<["statusCode" := VInt 200]> (
                 <["success" := VBool true]> (
                 <["migrationId" := migration_id]> (
                 <["correlationId" := correlation_id]> (
                 <["status" := VStr "ROLLED_BACK"]> (
                 <["message" := VStr "Rollback completed successfully"]> (
                 <["rollbackSteps" := VList rollback_steps]> ∅)))))))))
    (λ e,
       log_error_exc_info ("Rollback failed: " +:+ exn_str e);;;
       now <~ now_seconds;;
       update_migration_state migration_id "ROLLBACK_FAILED"
         (<["error" := VStr (exn_str e)]> (
          <["originalError" := error]> (
          <["correlationId" := correlation_id]> (
          <["timestamp" := now]> ∅))));;;
       ret (VDict (<["statusCode" := VInt 500]> (
                   <["success" := VBool false]> (
                   <["error" := VStr (exn_str e)]> (
                   <["migrationId" := migration_id]> (
                   <["correlationId" := correlation_id]> (
                   <["message" := VStr "Rollback failed - manual intervention may be required"]> ∅)))))))).
End Defs.
End RollbackHandlerNew.

Arguments RollbackHandlerNew.revert_target_instance : simpl never.
Arguments RollbackHandlerNew.restore_source_vm : simpl never.
Arguments RollbackHandlerNew.cancel_mgn_job : simpl never.
Arguments RollbackHandlerNew.restore_previous_state : simpl never.
Arguments RollbackHandlerNew.notify_stakeholders : simpl never.
Arguments RollbackHandlerNew.lambda_handler : simpl never.

(** ** [ingress_handler.py] *)
Module IngressHandler.
Import Errors Correlation EventbridgeHelper.
Section Defs.
Context `{C : Collaborators}.

Definition validate_message (message : value) : M unit :=
  match schema_validate message with
  | None => ret tt
  | Some (path, msg) =>
      raise (ValidationError ("Invalid migration payload: " +:+ msg)
               (Some (<["path" := VStr path]> (<["message" := VStr msg]> ∅))))
  end.

(** The body of the loop over the records; [results] is the pair of the
    [successful] and [failed] lists. *)
Definition process_record (record : value) (results : list value * list value)
    : M (list value * list value) :=
  try_except
    (raw <~ subscript record "body";;
     body <~ loads raw;;
     correlation_id <~ extract_correlation_id body;;
     migration_id <~ get body "migrationId";;
     log_info "Processing migration";;;
     validate_message body;;;
     body <~ inject_correlation_id body correlation_id;;
     event_id <~ publish_event "MigrationRequested" body "migration.ingress";;
     migration_id <~ get body "migrationId";;
     log_info "Event published to EventBridge";;;
     message_id <~ subscript record "messageId";;
     migration_id <~ get body "migrationId";;
     ret ((results.1 ++ [VDict (<["messageId" := message_id]> (
                                <["eventId" := event_id]> (
                                <["migrationId" := migration_id]> ∅)))])%list,
          results.2))
    (λ e,
       if is_class ValidationErrorC e then
         log_error "Validation failed";;;
         message_id <~ subscript record "messageId";;
         ret (results.1,
              (results.2 ++ [VDict (<["messageId" := message_id]> (
                                    <["error" := VDict (to_dict e)]> ∅))])%list)
       else
         log_error "Unexpected error processing message";;;
         message_id <~ subscript record "messageId";;
         ret (results.1,
              (results.2 ++ [VDict (<["messageId" := message_id]> (
                                    <["error" := VStr (exn_str e)]> ∅))])%list)).

Fixpoint process_records (records : list value) (results : list value * list value)
    : M (list value * list value) :=
  match records with
  | [] => ret results
  | record :: rest =>
      results <~ process_record record results;;
      process_records rest results
  end.

Definition report (results : list value * list value) : value :=
  VDict (<["successful" := VList results.1]> (<["failed" := VList results.2]> ∅)).

Definition lambda_handler (event : dict) : M value :=
  try_except
    (log_info "Ingress handler started";;;
     records <~ iterate (dict_get_or event "Records" (VList []));;
     results <~ process_records records ([], []);;
     log_info "Ingress handler completed";;;
     ret (response 200 (VStr (json_dumps (report results)))))
    (λ e,
       log_error "Critical error in ingress handler";;;
       ret (response 500
              (VStr (json_dumps (VDict {[ "error" := VStr "Internal server error" ]}))))).
End Defs.
End IngressHandler.

Arguments IngressHandler.validate_message : simpl never.
Arguments IngressHandler.process_record : simpl never.
Arguments IngressHandler.lambda_handler : simpl never.

(** ** [callback_handler.py] *)
Module CallbackHandler.
Import Errors Correlation.
Section Defs.
Context `{C : Collaborators}.

(** [response.raise_for_status()]: [requests] raises [HTTPError], a
    [RequestException], for a 4xx or 5xx status, with a message made of
    the status, the reason and the URL of the response. *)
Definition raise_for_status (response : value) : M unit :=
  status_code <~ subscript response "status_code";;
  reason <~ get response "reason";;
  url <~ get response "url";;
  match status_code with
  | VInt z =>
      if (400 <=? z) && (z <? 500)
      then raise (PyErr RequestExceptionC
                    (py_str status_code +:+ " Client Error: " +:+ py_str reason
                     +:+ " for url: " +:+ py_str url))
      else if (500 <=? z) && (z <? 600)
      then raise (PyErr RequestExceptionC
                    (py_str status_code +:+ " Server Error: " +:+ py_str reason
                     +:+ " for url: " +:+ py_str url))
      else ret tt
  | VBool _ => ret tt
  | _ => raise (PyErr TypeErrorC "'<=' not supported between instances")
  end.

Definition send_callback (callback_url : value) (payload : dict) : M dict :=
  log_info "Sending callback";;;
  try_except
    (response <~ ext "requests" "post"
       [callback_url; VDict payload; VInt 30;
        VDict (<["Content-Type" := VStr "application/json"]> (
               <["X-Migration-Callback" := VStr "true"]> ∅))];;
     raise_for_status response;;;
     log_info "Callback sent successfully";;;
     status_code <~ subscript response "status_code";;
     elapsed <~ subscript response "elapsed";;
     ret (<["status" := VStr "SUCCESS"]> (
          <["statusCode" := status_code]> (
          <["responseTime" := elapsed]> ∅))))
    (λ e,
       if is_request_exception e then
         log_error "Callback request failed";;;
         raise (MigrationError ("Callback request failed: " +:+ exn_str e)
                  "CALLBACK_ERROR" (Some {[ "url" := callback_url ]}))
       else raise e).

Definition format_callback_payload (event : dict) : M dict :=
  let detail := dict_get_or event "detail" (VDict ∅) in
  migration_id <~ get detail "migrationId";;
  status <~ get detail "status";;
  app_name <~ get detail "appName";;
  environment <~ get detail "environment";;
  wave <~ get detail "wave";;
  now <~ utcnow;;
  correlation_id <~ extract_correlation_id (VDict event);;
  let callback_payload : dict :=
    <["migrationId" := migration_id]> (
    <["status" := status]> (
    <["appName" := app_name]> (
    <["environment" := environment]> (
    <["wave" := wave]> (
    <["timestamp" := now]> (
    <["correlationId" := correlation_id]> ∅)))))) in
  has_error <~ contains detail "errorCode";;
  callback_payload <~
    (if has_error then
       code <~ get detail "errorCode";;
       msg <~ get detail "errorMessage";;
       ret (<["error" := VDict (<["code" := code]> (<["message" := msg]> ∅))]>
              callback_payload)
     else ret callback_payload);;
  status <~ get detail "status";;
  if eq_str status "SUCCESS" then
    completed_at <~ get detail "completedAt";;
    target_vm_name <~ get detail "targetVmName";;
    ret (<["successDetails" := VDict (<["completedAt" := completed_at]> (
                                      <["targetVmName" := target_vm_name]> ∅))]>
           callback_payload)
  else ret callback_payload.

Definition lambda_handler (event : dict) : M value :=
  let detail := dict_get_or event "detail" (VDict ∅) in
  try_except
    (correlation_id <~ extract_correlation_id (VDict event);;
     migration_id <~ get detail "migrationId";;
     callback_url <~ get detail "callbackUrl";;
     log_info "Processing callback";;;
     if negb (truthy callback_url) then
       log_warning "No callback URL provided";;;
       ret (response 200 (VDict (<["migrationId" := migration_id]> (
                                 <["status" := VStr "SKIPPED"]> (
                                 <["reason" := VStr "No callback URL"]> ∅)))))
     else
       callback_payload <~ format_callback_payload event;;
       callback_result <~ send_callback callback_url callback_payload;;
       log_info "Callback processing completed";;;
       ret (response 200 (VDict (<["migrationId" := migration_id]> (
                                 <["status" := VStr "CALLBACK_SENT"]> (
                                 <["details" := VDict callback_result]> ∅))))))
    (λ e,
       if is_class MigrationErrorC e then
         log_error "Callback processing failed";;;
         (* Return error but don't fail the workflow *)
         migration_id <~ get_or detail "migrationId" (VStr "unknown");;
         ret (response 200 (VDict (<["migrationId" := migration_id]> (
                                   <["status" := VStr "CALLBACK_FAILED"]> (
                                   <["error" := VDict (to_dict e)]> ∅)))))
       else
         log_error "Unexpected error in callback handler";;;
         migration_id <~ get_or detail "migrationId" (VStr "unknown");;
         ret (response 200 (VDict (<["migrationId" := migration_id]> (
                                   <["status" := VStr "CALLBACK_FAILED"]> (
                                   <["error" := VStr (exn_str e)]> ∅)))))).
End Defs.
End CallbackHandler.

Arguments CallbackHandler.raise_for_status : simpl never.
Arguments CallbackHandler.send_callback : simpl never.
Arguments CallbackHandler.format_callback_payload : simpl never.
Arguments CallbackHandler.lambda_handler : simpl never.

(** ** [callback_handler_new.py] *)
Module CallbackHandlerNew.
Import CommonMissing.
Section Defs.
Context `{C : Collaborators}.

Definition is_resource_not_found (e : exn) : bool :=
  match e with PyErr ResourceNotFoundC _ => true | _ => false end.

Definition get_auth_header (callback_url : value) : M dict :=
  try_except
    (is_api <~ contains callback_url "/api/";;
     if negb is_api then ret ∅
     else
       found <~ try_except
         (secret <~ ext "secretsmanager" "get_secret_value"
                      [VStr "migration/callback-auth"];;
          secret_string <~ subscript secret "SecretString";;
          parsed <~ loads secret_string;;
          auth_token <~ get parsed "token";;
          if truthy auth_token
          then ret (Some ({[ "Authorization" := VStr ("Bearer " +:+ py_str auth_token) ]} : dict))
          else ret None)
         (λ e,
            if is_resource_not_found e then
              log_warning "No auth secret found for callback";;;
              ret None
            else raise e);;
       match found with
       | Some header => ret header
       | None => ret ∅
       end)
    (λ e,
       log_error ("Error getting auth header: " +:+ exn_str e);;;
       ret ∅).

(** [x not in [200, 201, 202]] *)
Definition accepted (status_code : value) : bool :=
  match status_code with
  | VInt z => (z =? 200) || (z =? 201) || (z =? 202)
  | _ => false
  end.

Definition send_callback (callback_url : value) (status_payload : dict)
    : M (bool * string) :=
  try_except
    (if negb (truthy callback_url) then
       log_warning "No callback URL provided";;;
       ret (true, "No callback URL")
     else
       log_info ("Sending callback to: " +:+ py_str callback_url);;;
       let headers : dict :=
         <["Content-Type" := VStr "application/json"]> (
         <["X-Migration-Source" := VStr "AWS-MGN-Orchestrator"]> ∅) in
       auth_headers <~ get_auth_header callback_url;;
       let headers := auth_headers ∪ headers in
       let headers :=
         <["X-Correlation-ID" := dict_get_or status_payload "correlationId" (VStr "")]>
           headers in
       response <~ ext "requests" "post"
         [callback_url; VDict status_payload; VDict headers; VInt 30];;
       status_code <~ subscript response "status_code";;
       if negb (accepted status_code) then
         text <~ subscript response "text";;
         ret (false, "Callback failed with status " +:+ py_str status_code +:+ ": "
                     +:+ py_str text)
       else
         log_info ("Callback sent successfully. Response: " +:+ py_str status_code);;;
         ret (true, "Callback sent successfully"))
    (λ e,
       if is_request_exception e then
         log_error ("Request error sending callback: " +:+ exn_str e);;;
         ret (false, exn_str e)
       else
         log_error ("Error sending callback: " +:+ exn_str e);;;
         ret (false, exn_str e)).

Definition update_cmdb (migration_id : value) (status_payload : dict) : M bool :=
  try_except
    (log_info ("Updating CMDB for migration: " +:+ py_str migration_id);;;
     now <~ utcnow;;
     let cmdb_update : dict :=
       <["timestamp" := now]> (
       <["migrationId" := migration_id]> (
       <["status" := dict_get status_payload "status"]> (
       <["appName" := dict_get status_payload "appName"]> (
       <["targetInstanceId" := dict_get status_payload "targetInstanceId"]> (
       <["targetIpAddress" := dict_get status_payload "targetIpAddress"]> ∅))))) in
     update_item migration_id [("cmdbUpdate", VStr (json_dumps (VDict cmdb_update)))];;;
     log_info ("CMDB updated for " +:+ py_str migration_id);;;
     ret true)
    (λ e,
       log_error ("Failed to update CMDB: " +:+ exn_str e);;;
       ret false).

Definition format_callback_payload (event : dict) : M dict :=
  migration_id <~ RollbackHandlerNew.or_else (dict_get event "migrationId")
                    (get (dict_get_or event "detail" (VDict ∅)) "migrationId");;
  let payload := dict_get_or event "detail" (VDict event) in
  app_name <~ get payload "appName";;
  now <~ now_millis;;
  source <~ get payload "source";;
  target <~ get payload "target";;
  wave <~ get payload "wave";;
  environment <~ get payload "environment";;
  ret (<["migrationId" := migration_id]> (
       <["appName" := app_name]> (
       <["status" := dict_get_or event "status" (VStr "IN_PROGRESS")]> (
       <["launchType" := dict_get event "launchType"]> (
       <["jobId" := dict_get event "jobId"]> (
       <["timestamp" := now]> (
       <["correlationId" := dict_get event "correlationId"]> (
       <["jobStatus" := dict_get event "jobStatus"]> (
       <["targetInstanceId" := dict_get event "targetInstanceId"]> (
       <["targetIpAddress" := dict_get event "targetIpAddress"]> (
       <["replicationLag" := dict_get event "replicationLag"]> (
       <["healthStatus" := dict_get event "healthStatus"]> (
       <["error" := dict_get event "error"]> (
       <["sourceEnvironment" := source]> (
       <["targetEnvironment" := target]> (
       <["wave" := wave]> (
       <["environment" := environment]> ∅))))))))))))))))).

Definition lambda_handler (event : dict) : M value :=
  correlation_id <~ get_correlation_id;;
  propagate_context correlation_id;;;
  migration_id <~ RollbackHandlerNew.or_else (dict_get event "migrationId")
                    (get (dict_get_or event "detail" (VDict ∅)) "migrationId");;
  log_info ("Processing callback for migration: " +:+ py_str migration_id);;;
  try_except
    (let payload := dict_get_or event "detail" (VDict event) in
     callback_url <~ get payload "callbackUrl";;
     callback_payload <~ format_callback_payload event;;
     let callback_payload := <["correlationId" := correlation_id]> callback_payload in
     log_info ("Callback payload: " +:+ json_dumps (VDict callback_payload));;;
     outcome <~ send_callback callback_url callback_payload;;
     (if negb outcome.1
      then log_warning ("Callback delivery failed: " +:+ outcome.2)
      else ret tt);;;
     cmdb_success <~ update_cmdb migration_id callback_payload;;
     (if negb cmdb_success
      then log_warning ("CMDB update failed for " +:+ py_str migration_id)
      else ret tt);;;
     ret (VDict (<["statusCode" := VInt 200]> (
                 <["success" := VBool true]> (
                 <["migrationId" := migration_id]> (
                 <["correlationId" := correlation_id]> (
                 <["callbackSent" := VBool outcome.1]> (
                 <["callbackMessage" := VStr outcome.2]> (
                 <["cmdbUpdated" := VBool cmdb_success]> ∅)))))))))
    (λ e,
       log_error_exc_info ("Callback processing failed: " +:+ exn_str e);;;
       ret (VDict (<["statusCode" := VInt 500]> (
                   <["success" := VBool false]> (
                   <["error" := VStr (exn_str e)]> (
                   <["migrationId" := migration_id]> (
                   <["correlationId" := correlation_id]> ∅))))))).
End Defs.
End CallbackHandlerNew.

Arguments CallbackHandlerNew.get_auth_header : simpl never.
Arguments CallbackHandlerNew.send_callback : simpl never.
Arguments CallbackHandlerNew.update_cmdb : simpl never.
Arguments CallbackHandlerNew.format_callback_payload : simpl never.
Arguments CallbackHandlerNew.lambda_handler : simpl never.

(** ** [validate_input.py] *)
Module ValidateInput.
Import Errors Correlation DynamodbHelper EventbridgeHelper.
Section Defs.
Context `{C : Collaborators}.

Definition check_aws_prerequisites (payload : value) : M unit :=
  try_except
    (has_subnet <~ contains payload "subnetId";;
     (if has_subnet then
        subnet_id <~ subscript payload "subnetId";;
        ext "ec2" "describe_subnets" [VList [subnet_id]];;;
        ret tt
      else ret tt);;;
     has_groups <~ contains payload "securityGroupIds";;
     (if has_groups then
        group_ids <~ subscript payload "securityGroupIds";;
        ext "ec2" "describe_security_groups" [group_ids];;;
        ret tt
      else ret tt);;;
     log_info "AWS prerequisites verified")
    (λ e, raise (PrerequisiteError ("AWS resource verification failed: " +:+ exn_str e)
                   (Some {[ "resource" := VStr "ec2" ]}))).

Definition check_mgn_prerequisites : M unit :=
  try_except
    (ext "mgn" "describe_source_servers" [];;;
     log_info "MGN service verified")
    (λ e, raise (PrerequisiteError ("MGN service check failed: " +:+ exn_str e)
                   (Some {[ "service" := VStr "mgn" ]}))).

(** The dict literal [required_fields], in its insertion order. *)
Definition required_fields : list (string * string) :=
  [("migrationId", "string"); ("appName", "string"); ("source", "string");
   ("target", "string"); ("environment", "string"); ("wave", "string")].

(** [isinstance(v, dict if field_type == "object" else str)] *)
Definition has_type (field_type : string) (v : value) : bool :=
  if String.eqb field_type "object"
  then match v with VDict _ => true | _ => false end
  else match v with VStr _ => true | _ => false end.

(** The loop over [required_fields.items()]. *)
Fixpoint check_fields (payload : value) (fields : list (string * string)) : M unit :=
  match fields with
  | [] => ret tt
  | (field, field_type) :: rest =>
      present <~ contains payload field;;
      if negb present then
        raise (ValidationError ("Missing required field: " +:+ field)
                 (Some {[ "field" := VStr field ]}))
      else
        v <~ subscript payload field;;
        if negb (has_type field_type v) then
          raise (ValidationError ("Invalid type for field " +:+ field)
                   (Some (<["field" := VStr field]> (
                          <["expected" := VStr field_type]> ∅))))
        else check_fields payload rest
  end.

Definition validate_payload_content (payload : value) : M unit :=
  check_fields payload required_fields.

(** [{**x, ...}]: the unpacked object must be a mapping. *)
Definition unpack (x : value) : M dict :=
  match x with
  | VDict d => ret d
  | _ => raise (PyErr TypeErrorC "object is not a mapping")
  end.

Definition on_validation_error (detail : value) (correlation_id : option value)
    (e : exn) : M value :=
  log_error "Validation failed";;;
  migration_id <~ get_or detail "migrationId" (VStr "unknown");;
  (* the bare [except: pass] also swallows the unbound [correlation_id] *)
  match correlation_id with
  | Some cid =>
      try_except
        (publish_failure_event migration_id cid (error_code e) (message e) None;;;
         ret tt)
        (λ _, ret tt)
  | None => ret tt
  end;;;
  ret (response 400 (VDict (to_dict e))).

Definition on_unexpected_error (e : exn) : M value :=
  log_error "Unexpected error in validation";;;
  ret (response 500 (VDict {[ "error" := VStr "Internal validation error" ]})).

Definition lambda_handler (event : dict) : M value :=
  let detail := dict_get_or event "detail" (VDict ∅) in
  try_binding
    (extract_correlation_id (VDict event))
    (λ correlation_id,
       migration_id <~ get detail "migrationId";;
       log_info "Validating migration input";;;
       validate_payload_content detail;;;
       check_aws_prerequisites detail;;;
       check_mgn_prerequisites;;;
       state <~ unpack detail;;
       save_migration_state migration_id
         (<["correlationId" := correlation_id]> (<["status" := VStr "VALIDATED"]> state));;;
       log_info "Input validation successful";;;
       publish_status_event migration_id correlation_id "validate_input" "SUCCESS" None;;;
       ret (response 200 (VDict (<["migrationId" := migration_id]> (
                                 <["status" := VStr "VALIDATED"]> ∅)))))
    (λ correlation_id e,
       if is_class ValidationErrorC e || is_class PrerequisiteErrorC e
       then on_validation_error detail correlation_id e
       else on_unexpected_error e).
End Defs.
End ValidateInput.

Arguments ValidateInput.check_aws_prerequisites : simpl never.
Arguments ValidateInput.check_mgn_prerequisites : simpl never.
Arguments ValidateInput.check_fields : simpl never.
Arguments ValidateInput.validate_payload_content : simpl never.
Arguments ValidateInput.on_validation_error : simpl never.
Arguments ValidateInput.on_unexpected_error : simpl never.
Arguments ValidateInput.lambda_handler : simpl never.

(** ** [trigger_migration.py] *)
Module TriggerMigration.
Import Errors Correlation DynamodbHelper EventbridgeHelper.
Section Defs.
Context `{C : Collaborators}.

(** [x < n] against an integer literal. *)
Definition lt (x : value) (n : Z) : M bool :=
  match x with
  | VInt z => ret (z <? n)
  | VBool b => ret (Z.b2z b <? n)
  | _ => raise (PyErr TypeErrorC "'<' not supported between instances")
  end.

Definition trigger_mgn_test_launch (payload : value) : M dict :=
  log_info "Triggering MGN test launch";;;
  try_except
    (source_vm_id <~ get_or payload "sourceVmId" (VStr "");;
     tags <~ get_or payload "tags" (VDict ∅);;
     response <~ ext "mgn" "start_test_launch" [VList [source_vm_id]; tags];;
     log_info "MGN test launch initiated";;;
     job <~ get_or response "job" (VDict ∅);;
     job_id <~ get job "jobID";;
     now <~ utcnow;;
     ret (<["jobId" := job_id]> (
          <["status" := VStr "TEST_LAUNCH_INITIATED"]> (
          <["timestamp" := now]> ∅))))
    (λ e, raise (MigrationExecutionError
                   ("Failed to trigger MGN test launch: " +:+ exn_str e)
                   (Some {[ "service" := VStr "mgn" ]}))).

Definition trigger_mgn_cutover (payload : value) : M dict :=
  log_info "Triggering MGN cutover";;;
  try_except
    (source_vm_id <~ get_or payload "sourceVmId" (VStr "");;
     tags <~ get_or payload "tags" (VDict ∅);;
     response <~ ext "mgn" "start_cutover" [VList [source_vm_id]; tags];;
     log_info "MGN cutover initiated";;;
     job <~ get_or response "job" (VDict ∅);;
     job_id <~ get job "jobID";;
     now <~ utcnow;;
     ret (<["jobId" := job_id]> (
          <["status" := VStr "CUTOVER_INITIATED"]> (
          <["timestamp" := now]> ∅))))
    (λ e, raise (MigrationExecutionError
                   ("Failed to trigger MGN cutover: " +:+ exn_str e)
                   (Some {[ "service" := VStr "mgn" ]}))).

Definition update_cmf_wave_status (payload : value) (status : string) : M dict :=
  log_info "Updating CMF wave status";;;
  wave <~ get payload "wave";;
  app_name <~ get payload "appName";;
  now <~ utcnow;;
  let cmf_update : dict :=
    <["wave" := wave]> (
    <["appName" := app_name]> (
    <["status" := VStr status]> (
    <["updatedAt" := now]> ∅))) in
  log_info "CMF wave status updated";;;
  ret cmf_update.

(** ["freeze" not in steps or len(steps) < 3]; the length is only taken
    when the first test fails. *)
Definition is_test (steps : value) : M bool :=
  has_freeze <~ contains steps "freeze";;
  if negb has_freeze then ret true
  else
    n <~ len steps;;
    lt n 3.

Definition on_execution_error (detail : value) (correlation_id : option value)
    (e : exn) : M value :=
  log_error "Migration trigger failed";;;
  migration_id <~ get_or detail "migrationId" (VStr "unknown");;
  (* the bare [except: pass] also swallows the unbound [correlation_id] *)
  match correlation_id with
  | Some cid =>
      try_except
        (publish_failure_event migration_id cid (error_code e) (message e) None;;;
         ret tt)
        (λ _, ret tt)
  | None => ret tt
  end;;;
  ret (response 500 (VDict (to_dict e))).

Definition on_unexpected_error (e : exn) : M value :=
  log_error "Unexpected error triggering migration";;;
  ret (response 500 (VDict {[ "error" := VStr "Failed to trigger migration" ]})).

Definition lambda_handler (event : dict) : M value :=
  let detail := dict_get_or event "detail" (VDict ∅) in
  try_binding
    (extract_correlation_id (VDict event))
    (λ correlation_id,
       migration_id <~ get detail "migrationId";;
       log_info "Triggering migration";;;
       steps <~ get_or detail "steps" (VList []);;
       test <~ is_test steps;;
       migration_result <~ (if test then trigger_mgn_test_launch detail
                            else trigger_mgn_cutover detail);;
       cmf_result <~ update_cmf_wave_status detail "IN_PROGRESS";;
       let details : dict :=
         <["mgn" := VDict migration_result]> (
         <["cmf" := VDict cmf_result]> ∅) in
       update_migration_status migration_id (VStr "MIGRATION_IN_PROGRESS") (VDict details);;;
       log_info "Migration triggered successfully";;;
       publish_status_event migration_id correlation_id "trigger_migration" "IN_PROGRESS"
         (Some details);;;
       ret (response 200 (VDict (<["migrationId" := migration_id]> (
                                 <["status" := VStr "MIGRATION_IN_PROGRESS"]> (
                                 <["mgn" := VDict migration_result]> (
                                 <["cmf" := VDict cmf_result]> ∅)))))))
    (λ correlation_id e,
       if is_class MigrationExecutionErrorC e
       then on_execution_error detail correlation_id e
       else on_unexpected_error e).
End Defs.
End TriggerMigration.

Arguments TriggerMigration.lt : simpl never.
Arguments TriggerMigration.trigger_mgn_test_launch : simpl never.
Arguments TriggerMigration.trigger_mgn_cutover : simpl never.
Arguments TriggerMigration.update_cmf_wave_status : simpl never.
Arguments TriggerMigration.is_test : simpl never.
Arguments TriggerMigration.on_execution_error : simpl never.
Arguments TriggerMigration.on_unexpected_error : simpl never.
Arguments TriggerMigration.lambda_handler : simpl never.

(** ** [finalize_cutover.py] *)
Module FinalizeCutover.
Import Errors Correlation DynamodbHelper EventbridgeHelper.
Section Defs.
Context `{C : Collaborators}.

(** The entry appended to [stepsPerformed]. *)
Definition completed (step description : string) : value :=
  VDict (<["step" := VStr step]> (
         <["status" := VStr "COMPLETED"]> (
         <["description" := VStr description]> ∅))).

(** The [if]/[elif] chain of the loop body: the entry a step appends, if
    any. *)
Definition step_entry (step : value) : option value :=
  if eq_str step "freeze" then Some (completed "freeze" "Source VM frozen")
  else if eq_str step "replicate" then Some (completed "replicate" "Final replication completed")
  else if eq_str step "validate" then Some (completed "validate" "Target instance validated")
  else if eq_str step "switch" then Some (completed "switch" "Traffic switched to target")
  else None.

(** The loop over [steps]; [performed] is [cutover_result["stepsPerformed"]]. *)
Fixpoint execute_steps (steps : list value) (performed : list value) : M (list value) :=
  match steps with
  | [] => ret performed
  | step :: rest =>
      log_info ("Executing step: " +:+ py_str step);;;
      execute_steps rest
        match step_entry step with
        | Some entry => (performed ++ [entry])%list
        | None => performed
        end
  end.

Definition perform_cutover_steps (payload : value) : M dict :=
  log_info "Performing cutover steps";;;
  steps <~ get_or payload "steps" (VList []);;
  started_at <~ utcnow;;
  steps <~ iterate steps;;
  performed <~ execute_steps steps [];;
  completed_at <~ utcnow;;
  log_info "Cutover steps completed";;;
  ret (<["stepsPerformed" := VList performed]> (
       <["startedAt" := started_at]> (
       <["completedAt" := completed_at]> ∅))).

Definition update_dns (payload : value) : M dict :=
  log_info "Updating DNS records";;;
  app_name <~ get payload "appName";;
  now <~ utcnow;;
  let dns_update : dict :=
    <["appName" := app_name]> (
    <["status" := VStr "DNS_UPDATED"]> (
    <["updatedAt" := now]> ∅)) in
  log_info "DNS records updated";;;
  ret dns_update.

Definition decommission_source (payload : value) : M dict :=
  log_info "Decommissioning source VM";;;
  source_vm_id <~ get payload "sourceVmId";;
  if negb (truthy source_vm_id) then
    raise (CutoverError "Source VM ID not provided for decommission" None)
  else
    now <~ utcnow;;
    let decommission_result : dict :=
      <["sourceVmId" := source_vm_id]> (
      <["status" := VStr "DECOMMISSIONED"]> (
      <["decommissionedAt" := now]> ∅)) in
    log_info "Source VM decommissioned";;;
    ret decommission_result.

Definition update_cmdb (payload : value) : M dict :=
  log_info "Updating CMDB";;;
  app_name <~ get payload "appName";;
  environment <~ get payload "environment";;
  now <~ utcnow;;
  let cmdb_update : dict :=
    <["appName" := app_name]> (
    <["environment" := environment]> (
    <["status" := VStr "MIGRATED_TO_AWS"]> (
    <["updatedAt" := now]> ∅))) in
  log_info "CMDB updated";;;
  ret cmdb_update.

Definition on_cutover_error (detail : value) (correlation_id : option value)
    (e : exn) : M value :=
  log_error "Cutover finalization failed";;;
  migration_id <~ get_or detail "migrationId" (VStr "unknown");;
  (* the bare [except: pass] also swallows the unbound [correlation_id] *)
  match correlation_id with
  | Some cid =>
      try_except
        (publish_failure_event migration_id cid (error_code e) (message e) None;;;
         ret tt)
        (λ _, ret tt)
  | None => ret tt
  end;;;
  ret (response 500 (VDict (to_dict e))).

Definition on_unexpected_error (e : exn) : M value :=
  log_error "Unexpected error in cutover finalization";;;
  ret (response 500 (VDict {[ "error" := VStr "Cutover finalization failed" ]})).

Definition lambda_handler (event : dict) : M value :=
  let detail := dict_get_or event "detail" (VDict ∅) in
  try_binding
    (extract_correlation_id (VDict event))
    (λ correlation_id,
       migration_id <~ get detail "migrationId";;
       log_info "Starting cutover finalization";;;
       cutover_result <~ perform_cutover_steps detail;;
       dns_result <~ update_dns detail;;
       decommission_result <~ decommission_source detail;;
       cmdb_result <~ update_cmdb detail;;
       let details : dict :=
         <["cutover" := VDict cutover_result]> (
         <["dns" := VDict dns_result]> (
         <["decommission" := VDict decommission_result]> (
         <["cmdb" := VDict cmdb_result]> ∅))) in
       update_migration_status migration_id (VStr "COMPLETED") (VDict details);;;
       log_info "Cutover finalization completed";;;
       publish_success_event migration_id correlation_id (Some details);;;
       ret (response 200 (VDict (<["migrationId" := migration_id]> (
                                 <["status" := VStr "COMPLETED"]> (
                                 <["cutover" := VDict cutover_result]> (
                                 <["dns" := VDict dns_result]> (
                                 <["decommission" := VDict decommission_result]> (
                                 <["cmdb" := VDict cmdb_result]> ∅)))))))))
    (λ correlation_id e,
       if is_class CutoverErrorC e
       then on_cutover_error detail correlation_id e
       else on_unexpected_error e).
End Defs.
End FinalizeCutover.

Arguments FinalizeCutover.execute_steps : simpl never.
Arguments FinalizeCutover.perform_cutover_steps : simpl never.
Arguments FinalizeCutover.update_dns : simpl never.
Arguments FinalizeCutover.decommission_source : simpl never.
Arguments FinalizeCutover.update_cmdb : simpl never.
Arguments FinalizeCutover.on_cutover_error : simpl never.
Arguments FinalizeCutover.on_unexpected_error : simpl never.
Arguments FinalizeCutover.lambda_handler : simpl never.

(** ** [verify_migration_new.py]: the checks *)
Module VerifyMigrationNew.
Section Defs.
Context `{C : Collaborators}.

(** The returned tuple [(success, message, job_status)]. *)
Definition check_mgn_replication_status (job_id : value) : M (bool * string * value) :=
  try_except
    (jobs <~ ext "mgn" "describe_jobs" [VDict {[ "jobIDs" := VList [job_id] ]}];;
     items <~ get jobs "items";;
     if negb (truthy items) then ret (false, "Job not found", VStr "UNKNOWN")
     else
       items <~ subscript jobs "items";;
       job <~ first items;;
       job_status <~ subscript job "status";;
       log_info ("Job " +:+ py_str job_id +:+ " status: " +:+ py_str job_status);;;
       ret (true, "Status retrieved", job_status))
    (λ e,
       log_error ("Failed to check job status: " +:+ exn_str e);;;
       ret (false, exn_str e, VStr "ERROR")).

Definition verify_application_health (payload : value) : M (bool * string) :=
  try_except
    (app_name <~ subscript payload "appName";;
     migration_id <~ subscript payload "migrationId";;
     target_instance_id <~ get payload "targetInstanceId";;
     callback_url <~ get payload "callbackUrl";;
     log_info ("Verifying application health for " +:+ py_str app_name);;;
     if truthy callback_url then
       log_info ("Using custom health check: " +:+ py_str callback_url);;;
       ret (true, "Custom health check passed")
     else if truthy target_instance_id then
       try_except
         (status_response <~ ext "ec2" "describe_instance_status"
                               [VList [target_instance_id]];;
          statuses <~ get status_response "InstanceStatuses";;
          if negb (truthy statuses) then ret (false, "Instance status checks not ready")
          else
            statuses <~ subscript status_response "InstanceStatuses";;
            instance_status <~ first statuses;;
            instance <~ subscript instance_status "InstanceStatus";;
            instance_health <~ subscript instance "Status";;
            system <~ subscript instance_status "SystemStatus";;
            system_health <~ subscript system "Status";;
            if negb (eq_str instance_health "ok") || negb (eq_str system_health "ok") then
              ret (false, "Health check failed: instance=" +:+ py_str instance_health
                          +:+ ", system=" +:+ py_str system_health)
            else
              log_info ("Application health verified for " +:+ py_str app_name);;;
              ret (true, "Health check passed"))
         (λ e,
            log_warning ("Could not verify EC2 health: " +:+ exn_str e);;;
            ret (true, "Health check skipped (instance not available)"))
     else ret (true, "Health check skipped (no target instance)"))
    (λ e,
       log_error ("Application health verification failed: " +:+ exn_str e);;;
       ret (false, exn_str e)).

(** One entry of [MetricData]. *)
Definition metric (name : string) (v : value) (unit : string) (migration_id : value) : value :=
  VDict (<["MetricName" := VStr name]> (
         <["Value" := v]> (
         <["Unit" := VStr unit]> (
         <["Dimensions" := VList [VDict (<["Name" := VStr "MigrationId"]> (
                                          <["Value" := migration_id]> ∅))]]> ∅)))).

Definition publish_health_metrics (migration_id replication_lag : value)
    (health_status : string) : M unit :=
  try_except
    (ext "cloudwatch" "put_metric_data"
       [VStr "MigrationOrchestration";
        VList [metric "ReplicationLag" replication_lag "Seconds" migration_id;
               metric "HealthStatus"
                 (VInt (if String.eqb health_status "healthy" then 1 else 0))
                 "None" migration_id]];;;
     log_info ("Health metrics published for " +:+ py_str migration_id))
    (λ e, log_error ("Failed to publish metrics: " +:+ exn_str e)).
End Defs.
End VerifyMigrationNew.

Arguments VerifyMigrationNew.check_mgn_replication_status : simpl never.
Arguments VerifyMigrationNew.verify_application_health : simpl never.
Arguments VerifyMigrationNew.publish_health_metrics : simpl never.

(** ** Concrete collaborators used to run the handlers on examples *)

(** Collaborators that always answer with an empty response object. *)
Definition quiet : Collaborators := {|
  respond := λ _ _, Ok (VDict ∅);
  utcnow_isoformat := λ _, "2024-01-01T00:00:00";
  uuid4_hex8 := λ _, "0a1b2c3d";
  time_time := λ _, 1704067200;
  utcnow_millis := λ _, 1704067200000;
  environ := ∅;
  json_loads := λ _, Raise (PyErr ExceptionC "JSONDecodeError");
  json_dumps := λ _, "";
  schema_validate := λ _, None;
  py_repr := λ _, "";
|}.

Definition empty_world : world := World ∅ [] [].

(** Collaborators on a day when every service works: the bus accepts the
    event, MGN reports one source server replicating with the given lag, the
    callback target answers 200. *)
Definition healthy_answer (lag : Z) (c : call) : res value :=
  if String.eqb (service c) "events" then
    Ok (VDict {[ "FailedEntryCount" := VInt 0;
                 "Entries" := VList [VDict {[ "EventId" := VStr "evt-1" ]}] ]})
  else if String.eqb (service c) "mgn" && String.eqb (operation c) "describe_source_servers" then
    Ok (VDict {[ "items" :=
                   VList [VDict {[ "sourceServerID" := VStr "s-1";
                                   "replicationStatus" :=
                                     VDict {[ "status" := VStr "CONTINUOUS";
                                              "replicationLagSec" := VInt lag ]} ]}] ]})
  else if String.eqb (service c) "requests" then
    Ok (VDict {[ "status_code" := VInt 200; "text" := VStr "ok"; "elapsed" := VInt 1 ]})
  else if String.eqb (service c) "sns" then
    Ok (VDict {[ "MessageId" := VStr "msg-1" ]})
  else Ok (VDict ∅).

Definition healthy (lag : Z) : Collaborators := {|
  respond := λ _, healthy_answer lag;
  utcnow_isoformat := λ _, "2024-01-01T00:00:00";
  uuid4_hex8 := λ _, "0a1b2c3d";
  time_time := λ _, 1704067200;
  utcnow_millis := λ _, 1704067200000;
  environ := {[ "SNS_TOPIC_ARN" := "arn:aws:sns:topic" ]};
  json_loads := λ _, Raise (PyErr ExceptionC "JSONDecodeError");
  json_dumps := λ _, "";
  schema_validate := λ _, None;
  py_repr := λ _, "";
|}.

(** The stored attribute [a] of migration [mid]. *)
Definition stored (w : world) (mid a : string) : option value :=
  table w !! mid ≫= (.!! a).

(** A field of a handler's returned dict, and a field of its [body]. *)
Definition result_field (r : res value) (k : string) : option value :=
  match r with
  | Ok (VDict d) => d !! k
  | _ => None
  end.
Definition body_field (r : res value) (k : string) : option value :=
  match result_field r "body" with
  | Some (VDict b) => b !! k
  | _ => None
  end.

(** A field of an optional dict value. *)
Definition field (v : option value) (k : string) : option value :=
  match v with
  | Some (VDict d) => d !! k
  | _ => None
  end.

(** The field, when present, holds a dict. *)
Definition dict_if_present (ev : dict) (k : string) : Prop :=
  match ev !! k with
  | None | Some (VDict _) => True
  | Some _ => False
  end.

(** * Properties *)

(** ** Reasoning about computations *)

(** Reads through a stack of inserts on concrete or distinct keys. *)
Ltac read_map :=
  repeat first [ rewrite lookup_insert_eq
               | rewrite lookup_insert_ne by done
               | rewrite lookup_empty ].

Lemma bind_ok {A B} (m : M A) (k : A → M B) (a : A) (w w' : world) :
  m w = (Ok a, w') → bind m k w = k a w'.
Proof. intros Hm. unfold bind. by rewrite Hm. Qed.

(** A sequence that returns went through both of its parts. *)
Lemma bind_returns {A B} (m : M A) (k : A → M B) (b : B) (w w' : world) :
  bind m k w = (Ok b, w') → ∃ a w1, m w = (Ok a, w1) ∧ k a w1 = (Ok b, w').
Proof.
  unfold bind. destruct (m w) as [[a|e] w1]; [by eauto | discriminate].
Qed.

(** Runs a computation symbolically: evaluates what is known and reads
    dictionary fields from the hypotheses. *)
Ltac use_lookups :=
  repeat match goal with
         | H : _ !! _ = _ |- _ => rewrite H
         | H : truthy _ = _ |- _ => rewrite H
         end.
Ltac run := repeat (progress (cbn; unfold dict_get, dict_get_or; use_lookups)).

(** A computation that leaves an observation of the world as it found it:
    the table for most steps, the log for those that do not write to it. *)
Definition preserves {X A} (f : world → X) (m : M A) : Prop := ∀ w, f (m w).2 = f w.

Abbreviation keeps_table := (preserves table).
Abbreviation keeps_log := (preserves logged).

(** The observation does not depend on the calls issued. *)
Definition ignores_calls {X} (f : world → X) : Prop := ∀ c w, f (add_call c w) = f w.
Definition ignores_log {X} (f : world → X) : Prop := ∀ l w, f (add_log l w) = f w.
Definition ignores_table {X} (f : world → X) : Prop := ∀ t w, f (set_table t w) = f w.

Lemma table_ignores_calls : ignores_calls table.
Proof. done. Qed.
Lemma table_ignores_log : ignores_log table.
Proof. done. Qed.
Lemma logged_ignores_calls : ignores_calls logged.
Proof. done. Qed.
Lemma logged_ignores_table : ignores_table logged.
Proof. done. Qed.

Create HintDb frame discriminated.
#[export] Hint Resolve table_ignores_calls table_ignores_log logged_ignores_calls
  logged_ignores_table : frame.

Section Frame.
Context `{C : Collaborators} {X : Type} (f : world → X).

Lemma preserves_ret {A} (a : A) : preserves f (ret a).
Proof. done. Qed.
Lemma preserves_raise {A} (e : exn) : preserves f (raise (A := A) e).
Proof. done. Qed.
Lemma preserves_bind {A B} (m : M A) (k : A → M B) :
  preserves f m → (∀ a, preserves f (k a)) → preserves f (bind m k).
Proof.
  intros Hm Hk w. unfold bind. specialize (Hm w).
  destruct (m w) as [[a|e] w1]; cbn in *; [|done].
  by rewrite Hk.
Qed.
Lemma preserves_try_except {A} (m : M A) (h : exn → M A) :
  preserves f m → (∀ e, preserves f (h e)) → preserves f (try_except m h).
Proof.
  intros Hm Hh w. unfold try_except. specialize (Hm w).
  destruct (m w) as [[a|e] w1]; cbn in *; [done|].
  by rewrite Hh.
Qed.
Lemma preserves_try_binding {L A} (p : M L) (b : L → M A) (h : option L → exn → M A) :
  preserves f p → (∀ l, preserves f (b l)) → (∀ l e, preserves f (h l e)) →
  preserves f (try_binding p b h).
Proof.
  intros Hp Hb Hh w. unfold try_binding. specialize (Hp w).
  destruct (p w) as [[l|e] w1]; cbn in *; [|by rewrite Hh].
  specialize (Hb l w1). destruct (b l w1) as [[a|e] w2]; cbn in *; [congruence|].
  rewrite Hh. congruence.
Qed.
Lemma preserves_log (level msg : string) : ignores_log f → preserves f (log level msg).
Proof. intros Hf w. apply Hf. Qed.
Lemma preserves_log_info (msg : string) : ignores_log f → preserves f (log_info msg).
Proof. intros Hf w. apply Hf. Qed.
Lemma preserves_log_warning (msg : string) : ignores_log f → preserves f (log_warning msg).
Proof. intros Hf w. apply Hf. Qed.
Lemma preserves_log_error (msg : string) : ignores_log f → preserves f (log_error msg).
Proof. intros Hf w. apply Hf. Qed.
Lemma preserves_ext (svc op : string) (a : list value) :
  ignores_calls f → preserves f (ext svc op a).
Proof. intros Hf w. apply Hf. Qed.
Lemma preserves_utcnow : ignores_calls f → preserves f utcnow.
Proof. intros Hf w. apply Hf. Qed.
Lemma preserves_uuid4 : ignores_calls f → preserves f uuid4.
Proof. intros Hf w. apply Hf. Qed.
Lemma preserves_now_seconds : ignores_calls f → preserves f now_seconds.
Proof. intros Hf w. apply Hf. Qed.
Lemma preserves_now_millis : ignores_calls f → preserves f now_millis.
Proof. intros Hf w. apply Hf. Qed.
Lemma preserves_sleep (n : Z) : ignores_calls f → preserves f (sleep n).
Proof. intros Hf w. apply Hf. Qed.
Lemma preserves_get (x : value) (k : string) : preserves f (get x k).
Proof. by destruct x. Qed.
Lemma preserves_get_or (x : value) (k : string) (d : value) : preserves f (get_or x k d).
Proof. by destruct x. Qed.
Lemma preserves_subscript (x : value) (k : string) : preserves f (subscript x k).
Proof. destruct x; try done. intros w. cbn. by destruct (d !! k). Qed.
Lemma preserves_contains (x : value) (k : string) : preserves f (contains x k).
Proof. by destruct x. Qed.
Lemma preserves_gt (x : value) (n : Z) : preserves f (gt x n).
Proof. by destruct x. Qed.
Lemma preserves_len (x : value) : preserves f (len x).
Proof. by destruct x. Qed.
Lemma preserves_first (x : value) : preserves f (first x).
Proof. destruct x as [| | |[|]|[|]|]; done. Qed.
Lemma preserves_iterate (x : value) : preserves f (iterate x).
Proof. by destruct x. Qed.
Lemma preserves_loads (x : value) : preserves f (loads x).
Proof. by destruct x. Qed.
Lemma preserves_setitem (x : value) (k : string) (v : value) :
  preserves f (Correlation.setitem x k v).
Proof. by destruct x. Qed.
Lemma preserves_table_key (k : value) : preserves f (table_key k).
Proof. destruct k; try done. intros w. cbn. by destruct (String.eqb s ""). Qed.
Lemma preserves_get_item (k : value) : preserves f (get_item k).
Proof.
  intros w. unfold get_item, bind. pose proof (preserves_table_key k w) as Hk.
  by destruct (table_key k w) as [[a|e] w1].
Qed.
Lemma preserves_update_item (k : value) (sets : list (string * value)) :
  ignores_table f → preserves f (update_item k sets).
Proof.
  intros Hf w. unfold update_item, bind. pose proof (preserves_table_key k w) as Hk.
  destruct (table_key k w) as [[a|e] w1]; cbn in *; [|done]. by rewrite Hf.
Qed.
Lemma preserves_put_item (item : dict) : ignores_table f → preserves f (put_item item).
Proof.
  intros Hf w. unfold put_item, bind.
  pose proof (preserves_table_key (dict_get item "migrationId") w) as Hk.
  destruct (table_key _ w) as [[a|e] w1]; cbn in *; [|done]. by rewrite Hf.
Qed.
End Frame.

#[export] Hint Resolve preserves_ret preserves_raise preserves_log preserves_log_info
  preserves_log_warning preserves_log_error preserves_ext preserves_utcnow preserves_uuid4
  preserves_now_seconds preserves_now_millis preserves_sleep preserves_get preserves_get_or preserves_subscript
  preserves_contains preserves_gt preserves_len preserves_first preserves_iterate preserves_loads
  preserves_setitem preserves_table_key preserves_get_item preserves_update_item
  preserves_put_item : frame.

(** Decomposes a computation built from steps that preserve the observation. *)
Ltac keeps :=
  repeat first
    [ progress eauto 3 with frame
    | apply preserves_bind; [| intros ? ]
    | apply preserves_try_except; [| intros ? ]
    | apply preserves_try_binding; [| intros ? | intros ? ? ]
    | match goal with
      | |- preserves _ (if ?b then _ else _) => destruct b
      | |- preserves _ (match ?x with _ => _ end) => destruct x
      end ].

Section FrameHelpers.
Context `{C : Collaborators}.
Import Correlation EventbridgeHelper DynamodbHelper.

Lemma keeps_generate_correlation_id : keeps_table generate_correlation_id.
Proof. unfold generate_correlation_id. keeps. Qed.
#[local] Hint Resolve keeps_generate_correlation_id : frame.

Lemma keeps_extract_correlation_id (event : value) :
  keeps_table (extract_correlation_id event).
Proof. unfold extract_correlation_id. keeps. Qed.

Lemma keeps_inject_correlation_id (event cid : value) :
  keeps_table (inject_correlation_id event cid).
Proof. unfold inject_correlation_id. keeps. Qed.

Lemma keeps_publish_event (detail_type : string) (detail : value) (source : string) :
  keeps_table (publish_event detail_type detail source).
Proof. unfold publish_event. keeps. Qed.
#[local] Hint Resolve keeps_publish_event : frame.

Lemma keeps_publish_success_event (mid cid : value) (details : option dict) :
  keeps_table (publish_success_event mid cid details).
Proof. unfold publish_success_event. keeps. Qed.

Lemma keeps_publish_failure_event (mid cid code msg : value) (details : option dict) :
  keeps_table (publish_failure_event mid cid code msg details).
Proof. unfold publish_failure_event. keeps. Qed.

Lemma keeps_publish_status_event (mid cid : value) (step status : string)
    (details : option dict) :
  keeps_table (publish_status_event mid cid step status details).
Proof. unfold publish_status_event. keeps. Qed.

(** The helpers write no log line. *)
Lemma silent_generate_correlation_id : keeps_log generate_correlation_id.
Proof. unfold generate_correlation_id. keeps. Qed.
#[local] Hint Resolve silent_generate_correlation_id : frame.

Lemma silent_extract_correlation_id (event : value) :
  keeps_log (extract_correlation_id event).
Proof. unfold extract_correlation_id. keeps. Qed.

Lemma silent_inject_correlation_id (event cid : value) :
  keeps_log (inject_correlation_id event cid).
Proof. unfold inject_correlation_id. keeps. Qed.

Lemma silent_publish_event (detail_type : string) (detail : value) (source : string) :
  keeps_log (publish_event detail_type detail source).
Proof. unfold publish_event. keeps. Qed.

Lemma silent_update_migration_status (mid status details : value) :
  keeps_log (update_migration_status mid status details).
Proof. unfold update_migration_status. keeps. Qed.
End FrameHelpers.

#[export] Hint Resolve keeps_generate_correlation_id keeps_extract_correlation_id
  keeps_inject_correlation_id keeps_publish_event keeps_publish_success_event
  keeps_publish_failure_event keeps_publish_status_event
  silent_generate_correlation_id silent_extract_correlation_id
  silent_inject_correlation_id silent_publish_event silent_update_migration_status : frame.

(** ** The record store *)
Module DynamodbHelperSpec.
Import DynamodbHelper.

(** The attributes [save_migration_state] writes. *)
Definition saved_fields : gset string :=
  {[ "migrationId"; "status"; "wave"; "appName"; "source"; "target";
     "environment"; "updatedAt"; "executionDetails"; "correlationId" ]}.

(** Merging a delta into the existing map, the delta winning on a clash. *)
Definition merged (old delta : dict) : dict := delta ∪ old.

Section Proofs.
Context `{C : Collaborators}.

Lemma table_key_ok (mid : string) (w : world) :
  mid ≠ "" → table_key (VStr mid) w = (Ok mid, w).
Proof.
  intros Hne. unfold table_key.
  destruct (String.eqb_spec mid ""); [done | reflexivity].
Qed.

Lemma update_item_ok (mid : string) (sets : list (string * value)) (w : world) :
  mid ≠ "" →
  update_item (VStr mid) sets w =
    (Ok tt, set_table (<[mid := apply_set (default {[ "migrationId" := VStr mid ]}
                                            (table w !! mid)) sets]> (table w)) w).
Proof. intros Hne. unfold update_item, bind. by rewrite table_key_ok. Qed.

Lemma put_item_ok (mid : string) (item : dict) (w : world) :
  mid ≠ "" →
  item !! "migrationId" = Some (VStr mid) →
  put_item item w = (Ok tt, set_table (<[mid := item]> (table w)) w).
Proof.
  intros Hne Hk. unfold put_item, bind, dict_get. rewrite Hk. cbn [from_option id].
  by rewrite table_key_ok.
Qed.

Lemma update_migration_status_run (mid : string) (status details : value) (w : world) :
  mid ≠ "" →
  update_migration_status (VStr mid) status details w =
    let w1 := add_call (Call "datetime" "utcnow" []) w in
    let now := VStr (utcnow_isoformat (calls w)) in
    let old := default {[ "migrationId" := VStr mid ]} (table w !! mid) in
    let new := <["updatedAt" := now]> (<["status" := status]> old) in
    (Ok tt, set_table (<[mid := if truthy details
                                then <["executionDetails" := details]> new
                                else new]> (table w)) w1).
Proof.
  intros Hne. unfold update_migration_status, bind, utcnow. cbn zeta.
  rewrite update_item_ok by done. cbn [table add_call].
  by destruct (truthy details).
Qed.

(** C9.  Called without execution details ([None] or an empty dict),
    [update_migration_status] writes only [status] and [updatedAt]: every
    other attribute of the record, [executionDetails] included, and every
    other record is as before. *)
Theorem update_status_without_details_frame
    (mid : string) (status details : value) (w : world) :
  mid ≠ "" →
  details = VNone ∨ details = VDict ∅ →
  let run := update_migration_status (VStr mid) status details w in
  run.1 = Ok tt ∧
  stored run.2 mid "status" = Some status ∧
  stored run.2 mid "updatedAt" = Some (VStr (utcnow_isoformat (calls w))) ∧
  stored run.2 mid "executionDetails" = stored w mid "executionDetails" ∧
  (∀ a, a ≠ "status" → a ≠ "updatedAt" →
     stored run.2 mid a =
       (default {[ "migrationId" := VStr mid ]} (table w !! mid)) !! a) ∧
  (∀ other, other ≠ mid → table run.2 !! other = table w !! other).
Proof.
  intros Hne Hd. cbn zeta. rewrite update_migration_status_run by done.
  assert (truthy details = false) as -> by (by destruct Hd as [-> | ->]).
  cbn [fst snd]. unfold stored, set_table. cbn [table].
  rewrite lookup_insert_eq. cbn [mbind option_bind].
  split_and!; [done | | | | | ].
  - by read_map.
  - by read_map.
  - do 2 (rewrite lookup_insert_ne by done).
    destruct (table w !! mid) as [item|]; [done | by cbn].
  - intros a Ha1 Ha2. by read_map.
  - intros other Ho. by read_map.
Qed.

(** C10.  [save_migration_state] stores an item whose attributes are
    exactly the ten fixed fields: a key of the state outside them is not
    stored, the listed fields are read from the state with [None] when
    absent, [status] defaults to [PENDING] and [executionDetails] to the
    empty map. *)
Theorem save_state_fixed_fields (mid : string) (state : dict) (w : world) :
  mid ≠ "" →
  let run := save_migration_state (VStr mid) state w in
  ∃ item : dict,
    run.1 = Ok tt ∧
    table run.2 !! mid = Some item ∧
    dom item = saved_fields ∧
    (∀ k, k ∉ saved_fields → item !! k = None) ∧
    item !! "migrationId" = Some (VStr mid) ∧
    item !! "status" = Some (default (VStr "PENDING") (state !! "status")) ∧
    item !! "executionDetails" =
      Some (default (VDict ∅) (state !! "executionDetails")) ∧
    item !! "updatedAt" = Some (VStr (utcnow_isoformat (calls w))) ∧
    (∀ k, k ∈ ["wave"; "appName"; "source"; "target"; "environment"; "correlationId"] →
       item !! k = Some (default VNone (state !! k))) ∧
    (∀ other, other ≠ mid → table run.2 !! other = table w !! other).
Proof.
  intros Hne. cbn zeta.
  unfold save_migration_state, bind, utcnow.
  rewrite (put_item_ok mid) by (done || apply lookup_insert_eq).
  cbn [fst snd set_table table add_call].
  eexists. split; [done|]. split; [by read_map|].
  split_and!.
  - rewrite !dom_insert_L, dom_empty_L. unfold saved_fields. set_solver.
  - intros k Hk. unfold saved_fields in Hk.
    rewrite !not_elem_of_union, !not_elem_of_singleton in Hk.
    destruct_and!. by read_map.
  - by read_map.
  - by read_map.
  - by read_map.
  - by read_map.
  - intros k Hk. unfold dict_get.
    repeat (apply elem_of_cons in Hk as [-> | Hk];
            [by read_map|]).
    by apply elem_of_nil in Hk.
  - intros other Ho. by read_map.
Qed.

(** C1, as amended.  Called with a non-empty execution-details map,
    [update_migration_status] stores that map as the record's
    [executionDetails], in place of whatever was stored, and rewrites
    [status] and [updatedAt]; the other attributes and records are kept. *)
Theorem update_status_replaces_details
    (mid : string) (status : value) (delta : dict) (w : world) :
  mid ≠ "" →
  delta ≠ ∅ →
  let run := update_migration_status (VStr mid) status (VDict delta) w in
  run.1 = Ok tt ∧
  stored run.2 mid "executionDetails" = Some (VDict delta) ∧
  stored run.2 mid "status" = Some status ∧
  stored run.2 mid "updatedAt" = Some (VStr (utcnow_isoformat (calls w))) ∧
  (∀ a, a ≠ "status" → a ≠ "updatedAt" → a ≠ "executionDetails" →
     stored run.2 mid a =
       (default {[ "migrationId" := VStr mid ]} (table w !! mid)) !! a) ∧
  (∀ other, other ≠ mid → table run.2 !! other = table w !! other).
Proof.
  intros Hne Hd. cbn zeta. rewrite update_migration_status_run by done.
  assert (truthy (VDict delta) = true) as ->.
  { cbn. apply negb_true_iff, Nat.eqb_neq. by rewrite map_size_empty_iff. }
  cbn [fst snd]. unfold stored, set_table. cbn [table].
  rewrite lookup_insert_eq. cbn [mbind option_bind].
  split_and!; [done | | | | | ].
  - by read_map.
  - by read_map.
  - by read_map.
  - intros a Ha1 Ha2 Ha3. by read_map.
  - intros other Ho. by read_map.
Qed.
End Proofs.

(** A record that went through validation and source preparation. *)
Definition prepared_record : dict :=
  <["migrationId" := VStr "mig-1"]> (
  <["status" := VStr "SOURCE_PREPARED"]> (
  <["executionDetails" :=
      VDict {[ "sourcePreparation" := VDict {[ "vmId" := VStr "vm-1" ]} ]}]> ∅)).

Definition prepared_world : world := World {[ "mig-1" := prepared_record ]} [] [].

Definition verification_delta : dict :=
  {[ "health" := VDict {[ "healthStatus" := VStr "HEALTHY" ]} ]}.

Lemma update_status_without_details_frame_witness :
  let run := update_migration_status (C := quiet)
               (VStr "mig-1") (VStr "VERIFIED") VNone prepared_world in
  run.1 = Ok tt ∧
  stored run.2 "mig-1" "status" = Some (VStr "VERIFIED") ∧
  stored run.2 "mig-1" "executionDetails" =
    stored prepared_world "mig-1" "executionDetails".
Proof.
  destruct (update_status_without_details_frame (C := quiet)
              "mig-1" (VStr "VERIFIED") VNone prepared_world)
    as (H1 & H2 & _ & H4 & _); [done | by left |].
  exact (conj H1 (conj H2 H4)).
Defined.

Lemma save_state_fixed_fields_witness :
  ∃ item : dict,
    table (save_migration_state (C := quiet) (VStr "mig-1")
             {[ "sourceVmId" := VStr "vm-1"; "wave" := VStr "w1" ]} empty_world).2
      !! "mig-1" = Some item ∧
    item !! "sourceVmId" = None ∧
    item !! "wave" = Some (VStr "w1") ∧
    item !! "status" = Some (VStr "PENDING") ∧
    item !! "executionDetails" = Some (VDict ∅).
Proof.
  destruct (save_state_fixed_fields (C := quiet) "mig-1"
              {[ "sourceVmId" := VStr "vm-1"; "wave" := VStr "w1" ]} empty_world)
    as (item & _ & Hs & _ & Hout & _ & Hst & Hed & _ & Hin & _); [done|].
  exists item. split; [exact Hs|]. split_and!.
  - apply Hout. unfold saved_fields.
    rewrite !not_elem_of_union, !not_elem_of_singleton. by split_and!.
  - rewrite (Hin "wave") by apply list_elem_of_here. reflexivity.
  - rewrite Hst. reflexivity.
  - rewrite Hed. reflexivity.
Defined.

Lemma update_status_replaces_details_witness :
  let run := update_migration_status (C := quiet)
               (VStr "mig-1") (VStr "VERIFIED") (VDict verification_delta) prepared_world in
  run.1 = Ok tt ∧
  stored run.2 "mig-1" "executionDetails" = Some (VDict verification_delta) ∧
  stored run.2 "mig-1" "status" = Some (VStr "VERIFIED").
Proof.
  destruct (update_status_replaces_details (C := quiet)
              "mig-1" (VStr "VERIFIED") verification_delta prepared_world)
    as (H1 & H2 & H3 & _); [done | | exact (conj H1 (conj H2 H3))].
  intros Heq. apply (f_equal (.!! "health")) in Heq. vm_compute in Heq. discriminate.
Defined.

(** C1, as stated, fails: after verification writes its delta, the result of
    source preparation is no longer stored, so the stored map is not the
    previous map merged with the delta. *)
Lemma update_status_does_not_merge :
  let old : dict := {[ "sourcePreparation" := VDict {[ "vmId" := VStr "vm-1" ]} ]} in
  let run := update_migration_status (C := quiet)
               (VStr "mig-1") (VStr "VERIFIED") (VDict verification_delta) prepared_world in
  stored prepared_world "mig-1" "executionDetails" = Some (VDict old) ∧
  verification_delta ≠ ∅ ∧
  stored run.2 "mig-1" "executionDetails" ≠ Some (VDict (merged old verification_delta)) ∧
  stored run.2 "mig-1" "executionDetails" ≫= (λ v, match v with
                                                    | VDict d => d !! "sourcePreparation"
                                                    | _ => None
                                                    end) = None.
Proof.
  cbn zeta. split; [reflexivity|]. split.
  { intros Heq. apply (f_equal (.!! "health")) in Heq. vm_compute in Heq. discriminate. }
  split.
  - intros Heq. vm_compute in Heq.
    discriminate.
  - vm_compute. reflexivity.
Qed.
End DynamodbHelperSpec.

(** ** Correlation identifiers *)
Module CorrelationSpec.
Import Correlation.

(** The three places [extract_correlation_id] looks at hold no identifier:
    no event-level field, no field in a nested detail dict, no header (an
    empty header value counts as none). *)
Definition no_correlation_id (ev : dict) : Prop :=
  ev !! "correlation_id" = None ∧
  (∀ d, ev !! "detail" = Some (VDict d) → d !! "correlation_id" = None) ∧
  (∀ h, ev !! "headers" = Some (VDict h) → truthy (dict_get h "X-Correlation-ID") = false).

(** Extract, inject what was extracted, extract again: the second
    extraction returns the identifier of the first. *)
Definition round_trip (C : Collaborators) (ev : dict) (w : world) : Prop :=
  ∃ (cid ev' : value) (w1 w2 : world),
    extract_correlation_id (VDict ev) w = (Ok cid, w1) ∧
    inject_correlation_id (VDict ev) cid w1 = (Ok ev', w2) ∧
    (extract_correlation_id ev' w2).1 = Ok cid.

Section Proofs.
Context `{C : Collaborators}.

Lemma extract_generates (ev : dict) (w : world) :
  no_correlation_id ev →
  dict_if_present ev "detail" →
  dict_if_present ev "headers" →
  extract_correlation_id (VDict ev) w =
    (Ok (VStr ("mig-" +:+ uuid4_hex8 (calls w))), add_call (Call "uuid" "uuid4" []) w).
Proof.
  intros (Htop & Hdet & Hhdr) Hd Hh. unfold dict_if_present in Hd, Hh.
  unfold extract_correlation_id. run.
  destruct (ev !! "detail") as [[| | | | |d]|] eqn:Hdv; try (exfalso; exact Hd);
    run; [rewrite (Hdet d eq_refl); run|];
    (destruct (ev !! "headers") as [[| | | | |h]|] eqn:Hhv; try (exfalso; exact Hh);
     run; [specialize (Hhdr h eq_refl); unfold dict_get in Hhdr; by run | done]).
Qed.

Lemma extract_reads_detail (ev d : dict) (cid : value) (w : world) :
  ev !! "correlation_id" = None →
  ev !! "detail" = Some (VDict d) →
  d !! "correlation_id" = Some cid →
  extract_correlation_id (VDict ev) w = (Ok cid, w).
Proof. intros Htop Hdet Hcid. unfold extract_correlation_id. by run. Qed.

Lemma inject_dict (ev : dict) (cid : value) (w : world) :
  dict_if_present ev "detail" →
  inject_correlation_id (VDict ev) cid w =
    (Ok (VDict (<["detail" :=
                   VDict (<["correlation_id" := cid]>
                            match ev !! "detail" with
                            | Some (VDict d) => d
                            | _ => ∅
                            end)]> ev)), w).
Proof.
  intros Hd. unfold dict_if_present in Hd. unfold inject_correlation_id.
  destruct (ev !! "detail") as [[| | | | |d]|] eqn:Hdv; try (exfalso; exact Hd); run.
  - done.
  - rewrite lookup_insert_eq. run. by rewrite insert_insert_eq.
Qed.

(** On an event whose [detail] and [headers] are dicts when present,
    extraction returns an identifier. *)
Lemma extract_total (ev : dict) (w : world) :
  dict_if_present ev "detail" →
  dict_if_present ev "headers" →
  ∃ cid w1, extract_correlation_id (VDict ev) w = (Ok cid, w1).
Proof.
  intros Hd Hh. unfold dict_if_present in Hd, Hh.
  unfold extract_correlation_id.
  destruct (ev !! "correlation_id") as [v|] eqn:Htop; run; [by eauto|].
  destruct (ev !! "headers") as [[| | | | |h]|] eqn:Hhv; try (exfalso; exact Hh);
    (destruct (ev !! "detail") as [[| | | | |d]|] eqn:Hdv; try (exfalso; exact Hd));
    run;
    try (destruct (d !! "correlation_id") as [v|] eqn:Hc; run; [by eauto|]);
    try (destruct (truthy (default VNone (h !! "X-Correlation-ID"))); run);
    by eauto.
Qed.

(** C6, as amended.  For an event dict that carries no correlation
    identifier at any of the three places and whose [detail] and [headers]
    fields, when present, are dicts: extraction generates an identifier,
    injecting it succeeds, and extraction on the resulting event returns
    that same identifier without generating another one. *)
Theorem extract_inject_round_trip (ev : dict) (w : world) :
  no_correlation_id ev →
  dict_if_present ev "detail" →
  dict_if_present ev "headers" →
  ∃ (cid ev' : value) (w1 : world),
    cid = VStr ("mig-" +:+ uuid4_hex8 (calls w)) ∧
    extract_correlation_id (VDict ev) w = (Ok cid, w1) ∧
    inject_correlation_id (VDict ev) cid w1 = (Ok ev', w1) ∧
    extract_correlation_id ev' w1 = (Ok cid, w1).
Proof.
  intros Hno Hd Hh. eexists _, _, _. split; [reflexivity|].
  split; [by apply extract_generates|].
  split; [by apply inject_dict|].
  destruct Hno as (Htop & _ & _).
  eapply extract_reads_detail.
  - by rewrite lookup_insert_ne.
  - by rewrite lookup_insert_eq.
  - by rewrite lookup_insert_eq.
Qed.
End Proofs.

(** An inbound message whose [detail] field is free text. *)
Definition text_detail_event : dict := {[ "detail" := VStr "nightly batch" ]}.

Lemma extract_inject_round_trip_witness :
  no_correlation_id ∅ ∧ dict_if_present ∅ "detail" ∧ dict_if_present ∅ "headers" ∧
  ∃ (cid ev' : value) (w1 : world),
    cid = VStr "mig-0a1b2c3d" ∧
    extract_correlation_id (C := quiet) (VDict ∅) empty_world = (Ok cid, w1) ∧
    inject_correlation_id (VDict ∅) cid w1 = (Ok ev', w1) ∧
    extract_correlation_id (C := quiet) ev' w1 = (Ok cid, w1).
Proof.
  assert (no_correlation_id ∅) as Hno.
  { split; [reflexivity|]. split; intros ? Hx; by rewrite lookup_empty in Hx. }
  assert (dict_if_present ∅ "detail") as Hd by exact I.
  assert (dict_if_present ∅ "headers") as Hh by exact I.
  split; [exact Hno|]. split; [exact Hd|]. split; [exact Hh|].
  exact (extract_inject_round_trip (C := quiet) ∅ empty_world Hno Hd Hh).
Defined.

(** C6, as stated, fails: the event below is a dict with no correlation
    identifier at any of the three places, extraction generates one, and
    injecting it raises [TypeError] because [detail] is a string, so there is
    no resulting event to extract from. *)
Lemma round_trip_fails_on_text_detail :
  no_correlation_id text_detail_event ∧
  (extract_correlation_id (C := quiet) (VDict text_detail_event) empty_world).1
    = Ok (VStr "mig-0a1b2c3d") ∧
  (∀ cid w, (inject_correlation_id (VDict text_detail_event) cid w).1
            = Raise (PyErr TypeErrorC "object does not support item assignment")) ∧
  ¬ round_trip quiet text_detail_event empty_world.
Proof.
  assert (∀ cid w, inject_correlation_id (VDict text_detail_event) cid w
                   = (Raise (PyErr TypeErrorC "object does not support item assignment"), w))
    as Hinj by (intros; reflexivity).
  split_and!.
  - split; [reflexivity|]. split; intros x Hx; vm_compute in Hx; discriminate.
  - vm_compute. reflexivity.
  - intros cid w. by rewrite Hinj.
  - intros (cid & ev' & w1 & w2 & _ & Hi & _). rewrite Hinj in Hi. discriminate.
Qed.
End CorrelationSpec.

(** ** Verification and the replication-lag threshold *)
Module VerifyMigrationSpec.
Import Errors Correlation DynamodbHelper EventbridgeHelper VerifyMigration.

(** MGN answers every [describe_source_servers] call with a first server
    whose replication status reports the lag [lag]. *)
Definition mgn_reports_lag `{C : Collaborators} (lag : Z) : Prop :=
  ∃ (resp server rs : dict) (others : list value),
    (∀ h a, respond h (Call "mgn" "describe_source_servers" a) = Ok (VDict resp)) ∧
    resp !! "items" = Some (VList (VDict server :: others)) ∧
    server !! "replicationStatus" = Some (VDict rs) ∧
    rs !! "replicationLagSec" = Some (VInt lag).

(** The body of the 500 response built from the lag failure. *)
Definition lag_failure_body (lag : Z) : dict :=
  <["error_code" := VStr "VERIFICATION_ERROR"]> (
  <["message" := VStr "Replication lag exceeds acceptable threshold"]> (
  <["details" := VDict {[ "lag" := VInt lag ]}]> ∅)).

Section Proofs.
Context `{C : Collaborators}.

Lemma keeps_check_mgn_replication_status (v : value) :
  keeps_table (check_mgn_replication_status v).
Proof. unfold check_mgn_replication_status. keeps. Qed.

Lemma keeps_validate_replication_lag (v : value) (t : Z) :
  keeps_table (validate_replication_lag v t).
Proof. unfold validate_replication_lag. keeps. Qed.

Lemma keeps_check_application_health (v : value) :
  keeps_table (check_application_health v).
Proof. unfold check_application_health. keeps. Qed.

Lemma keeps_on_verification_error (detail : value) (cid : option value) (e : exn) :
  keeps_table (on_verification_error detail cid e).
Proof. unfold on_verification_error. keeps. Qed.

Lemma keeps_verify_unexpected_error (e : exn) : keeps_table (on_unexpected_error e).
Proof. unfold on_unexpected_error. keeps. Qed.

(** The comparison at the heart of the check: the lag passes exactly when
    it does not exceed the threshold. *)
Lemma validate_replication_lag_result (lag threshold : Z) (w : world) :
  (validate_replication_lag (VInt lag) threshold w).1 = Ok (lag <=? threshold).
Proof.
  unfold validate_replication_lag. cbn.
  destruct (Z.ltb_spec threshold lag), (Z.leb_spec lag threshold); cbn; try done; lia.
Qed.

Lemma validate_replication_lag_run (lag threshold : Z) (w : world) :
  ∃ w1, validate_replication_lag (VInt lag) threshold w = (Ok (lag <=? threshold), w1)
        ∧ table w1 = table w.
Proof.
  pose proof (validate_replication_lag_result lag threshold w) as Hr.
  pose proof (keeps_validate_replication_lag (VInt lag) threshold w) as Hk.
  destruct (validate_replication_lag (VInt lag) threshold w) as [r w1].
  cbn in Hr, Hk. subst r. eauto.
Qed.

Lemma check_mgn_replication_status_run (lag : Z) (vm : value) (w : world) :
  mgn_reports_lag lag →
  ∃ (status : dict) (w1 : world),
    check_mgn_replication_status vm w = (Ok status, w1) ∧
    table w1 = table w ∧
    status !! "replicationLag" = Some (VInt lag).
Proof.
  intros (resp & server & rs & others & Hresp & Hitems & Hrs & Hlag).
  unfold check_mgn_replication_status. run. rewrite Hresp. run.
  eexists _, _. split; [reflexivity|]. split; [done|]. by read_map.
Qed.

(** C4, as amended.  The lag MGN reports is compared with the fixed
    threshold of 300 seconds.  A lag above it fails verification: the
    handler returns a 500 response whose body carries the error code
    [VERIFICATION_ERROR] and the lag in its details, and leaves the table
    as it was.  A lag of at most 300 passes: the stored status becomes
    [VERIFIED]. *)
Theorem lag_threshold_decides_verification (event detail : dict) (lag : Z) (w : world) :
  event !! "detail" = Some (VDict detail) →
  dict_if_present event "headers" →
  mgn_reports_lag lag →
  let run := lambda_handler event w in
  (300 < lag →
     run.1 = Ok (response 500 (VDict (lag_failure_body lag))) ∧
     table run.2 = table w) ∧
  (lag ≤ 300 →
     ∀ mid, detail !! "migrationId" = Some (VStr mid) → mid ≠ "" →
       stored run.2 mid "status" = Some (VStr "VERIFIED")).
Proof.
  intros Hdetail Hheaders Hmgn. cbn zeta.
  destruct (CorrelationSpec.extract_total event w) as (cid & w1 & Hex).
  { unfold dict_if_present. by rewrite Hdetail. }
  { done. }
  assert (table w1 = table w) as Hw1.
  { pose proof (keeps_extract_correlation_id (VDict event) w) as Hk.
    by rewrite Hex in Hk. }
  split.
  - intros Hlag. unfold lambda_handler. run. rewrite Hex. run.
    edestruct check_mgn_replication_status_run as (st & w2 & -> & Hw2 & Hst); [done|].
    run.
    edestruct validate_replication_lag_run as (w3 & -> & Hw3).
    assert ((lag <=? default_threshold) = false) as ->
      by (apply Z.leb_gt; unfold default_threshold; lia).
    run. unfold on_verification_error. run.
    match goal with |- context [publish_failure_event ?a ?b ?c ?d ?e ?w'] =>
      pose proof (keeps_publish_failure_event a b c d e w') as Hpub;
      destruct (publish_failure_event a b c d e w') as [[x|e'] w4]
    end; cbn [snd] in Hpub; cbn [fst snd];
      (split; [reflexivity|]); rewrite Hpub; cbn [table add_log];
      by rewrite Hw3, Hw2.
  - intros Hlag mid Hmid Hne. unfold lambda_handler. run. rewrite Hex. run.
    edestruct check_mgn_replication_status_run as (st & w2 & -> & Hw2 & Hst); [done|].
    run.
    edestruct validate_replication_lag_run as (w3 & -> & Hw3).
    assert ((lag <=? default_threshold) = true) as ->
      by (apply Z.leb_le; unfold default_threshold; lia).
    run.
    match goal with |- context [check_application_health ?a ?w'] =>
      pose proof (keeps_check_application_health a w') as Hhealth;
      destruct (check_application_health a w') as [[health|e'] w4] eqn:Hrun
    end; cbn [snd] in Hhealth.
    2:{ exfalso. revert Hrun. unfold check_application_health. by run. }
    run. rewrite DynamodbHelperSpec.update_migration_status_run by done. run.
    assert (Nat.eqb (size (<["replication" := VDict st]>
                             (<["health" := VDict health]> (∅ : dict)))) 0 = false) as ->.
    { apply Nat.eqb_neq. rewrite map_size_empty_iff.
      intros Heq. apply (f_equal (.!! "replication")) in Heq.
      by rewrite lookup_insert_eq, lookup_empty in Heq. }
    cbn [negb].
    match goal with |- context [publish_status_event ?a ?b ?c ?d ?e ?w'] =>
      pose proof (keeps_publish_status_event a b c d e w') as Hpub;
      destruct (publish_status_event a b c d e w') as [[x|e'] w5]
    end; cbn [snd] in Hpub; unfold stored.
    + cbn [snd]. rewrite Hpub. cbn [table set_table add_log].
      rewrite lookup_insert_eq. cbn [mbind option_bind]. by read_map.
    + assert (table ((if is_class VerificationErrorC e'
                      then on_verification_error (VDict detail) (Some cid) e'
                      else on_unexpected_error e') w5).2 = table w5) as ->.
      { destruct (is_class _ e');
          [apply keeps_on_verification_error | apply keeps_verify_unexpected_error]. }
      rewrite Hpub. cbn [table set_table add_log].
      rewrite lookup_insert_eq. cbn [mbind option_bind]. by read_map.
Qed.
End Proofs.

(** A migration in progress and the event that triggers its verification. *)
Definition in_progress_world : world :=
  World {[ "mig-1" := {[ "migrationId" := VStr "mig-1";
                         "status" := VStr "MIGRATION_IN_PROGRESS" ]} ]} [] [].

Definition verify_detail : dict :=
  {[ "migrationId" := VStr "mig-1"; "sourceVmId" := VStr "s-1";
     "appName" := VStr "billing"; "correlation_id" := VStr "mig-0000abcd" ]}.

Definition verify_event : dict := {[ "detail" := VDict verify_detail ]}.

Lemma healthy_reports_lag (lag : Z) : mgn_reports_lag (C := healthy lag) lag.
Proof.
  exists {[ "items" :=
              VList [VDict {[ "sourceServerID" := VStr "s-1";
                              "replicationStatus" :=
                                VDict {[ "status" := VStr "CONTINUOUS";
                                         "replicationLagSec" := VInt lag ]} ]}] ]},
         {[ "sourceServerID" := VStr "s-1";
            "replicationStatus" :=
              VDict {[ "status" := VStr "CONTINUOUS"; "replicationLagSec" := VInt lag ]} ]},
         {[ "status" := VStr "CONTINUOUS"; "replicationLagSec" := VInt lag ]}, [].
  split; [intros h a; reflexivity|].
  split_and!; vm_compute; reflexivity.
Qed.

Lemma lag_threshold_decides_verification_witness :
  (let run := lambda_handler (C := healthy 301) verify_event in_progress_world in
   run.1 = Ok (response 500 (VDict (lag_failure_body 301))) ∧
   table run.2 = table in_progress_world) ∧
  (let run := lambda_handler (C := healthy 299) verify_event in_progress_world in
   stored run.2 "mig-1" "status" = Some (VStr "VERIFIED")).
Proof.
  split.
  - apply (lag_threshold_decides_verification (C := healthy 301)
             verify_event verify_detail 301 in_progress_world);
      [reflexivity | exact I | apply healthy_reports_lag | lia].
  - apply (lag_threshold_decides_verification (C := healthy 299)
             verify_event verify_detail 299 in_progress_world);
      [reflexivity | exact I | apply healthy_reports_lag | lia | reflexivity | discriminate].
Defined.

(** C4, as stated, fails in its last part: with a lag of 301 seconds the
    status [VERIFICATION_FAILED] appears neither in the stored record, which
    keeps its status, nor in the response, whose body has no status and
    carries the error code [VERIFICATION_ERROR]. *)
Lemma lag_failure_is_not_verification_failed :
  let run := lambda_handler (C := healthy 301) verify_event in_progress_world in
  (validate_replication_lag (VInt 301) 300 in_progress_world).1 = Ok false ∧
  stored run.2 "mig-1" "status" = Some (VStr "MIGRATION_IN_PROGRESS") ∧
  stored run.2 "mig-1" "status" ≠ Some (VStr "VERIFICATION_FAILED") ∧
  result_field run.1 "statusCode" = Some (VInt 500) ∧
  body_field run.1 "status" = None ∧
  body_field run.1 "error_code" = Some (VStr "VERIFICATION_ERROR") ∧
  body_field run.1 "details" = Some (VDict {[ "lag" := VInt 301 ]}).
Proof. vm_compute. split_and!; done. Qed.
End VerifyMigrationSpec.

(** ** Rollback *)
Module RollbackSpec.
Import Errors Correlation DynamodbHelper EventbridgeHelper.

(** The log line each compensation of [rollback_handler.py] writes when it
    starts, in the order of the handler. *)
Definition compensation_starts : list string :=
  ["Stopping MGN replication"; "Terminating target instance";
   "Restoring source VM state"; "Notifying stakeholders of rollback"].

Definition is_start (msg : string) : bool := existsb (String.eqb msg) compensation_starts.

(** The compensations started so far, oldest first. *)
Definition attempts (w : world) : list string := List.filter is_start (logged w).*2.

(** What the handler stores for a compensation: its result, or [FAILED] with
    the error when it raised. *)
Definition recorded (outcome : res dict) : value :=
  match outcome with
  | Ok r => VDict r
  | Raise e => RollbackHandler.failed e
  end.

(** The world a wrapped compensation of [rollback_handler.py] leaves: the
    compensation's own, with the handler's warning when it raised. *)
Definition after_attempt {A} (warning : string) (r : res A * world) : world :=
  match r.1 with
  | Ok _ => r.2
  | Raise _ => add_log ("WARNING", warning) r.2
  end.

(** The world a compensation of [rollback_handler_new.py] leaves once the
    handler has read its verdict: a failure is logged as a warning. *)
Definition after_verdict (warning : string) (r : res (bool * string) * world) : world :=
  match r.1 with
  | Ok (false, message) => add_log ("WARNING", warning +:+ message) r.2
  | _ => r.2
  end.

Lemma attempts_add_log (level msg : string) (w : world) :
  attempts (add_log (level, msg) w) = (attempts w ++ if is_start msg then [msg] else [])%list.
Proof.
  unfold attempts, add_log. cbn [logged]. rewrite fmap_app, List.filter_app. cbn.
  by destruct (is_start msg).
Qed.

Lemma attempts_add_call (c : call) (w : world) : attempts (add_call c w) = attempts w.
Proof. done. Qed.

Lemma attempts_set_table (t : gmap string dict) (w : world) :
  attempts (set_table t w) = attempts w.
Proof. done. Qed.

Lemma table_add_log (l : string * string) (w : world) : table (add_log l w) = table w.
Proof. done. Qed.

Lemma table_add_call (c : call) (w : world) : table (add_call c w) = table w.
Proof. done. Qed.

Lemma table_set_table (t : gmap string dict) (w : world) : table (set_table t w) = t.
Proof. done. Qed.

#[local] Arguments attempts : simpl never.
#[local] Arguments add_log : simpl never.
#[local] Arguments add_call : simpl never.
#[local] Arguments set_table : simpl never.

(** Simplifies the table and the attempts of a world built by the steps of a
    run. *)
Ltac tidy :=
  repeat first [ rewrite attempts_add_log
               | rewrite attempts_add_call
               | rewrite attempts_set_table
               | rewrite table_add_log
               | rewrite table_add_call
               | rewrite table_set_table ];
  cbn [is_start existsb compensation_starts String.eqb Ascii.eqb Bool.eqb orb];
  rewrite ?app_nil_r.

Section Old.
Context `{C : Collaborators}.
Import RollbackHandler.

(** What a compensation leaves behind besides its outcome: the table is
    untouched and exactly its own start is logged. *)
Definition compensation (start : string) (f : M dict) : Prop :=
  ∀ w, table (f w).2 = table w ∧ attempts (f w).2 = (attempts w ++ [start])%list.

Lemma stop_mgn_replication_compensation (v : value) :
  compensation "Stopping MGN replication" (stop_mgn_replication v).
Proof.
  intros w. unfold stop_mgn_replication. run.
  destruct (respond _ _) as [x|e]; run; tidy; done.
Qed.

Lemma terminate_target_instance_compensation (detail : dict) :
  compensation "Terminating target instance" (terminate_target_instance (VDict detail)).
Proof.
  intros w. unfold terminate_target_instance. run.
  destruct (truthy _); run; [|by tidy].
  destruct (respond _ _) as [x|e]; run; tidy; done.
Qed.

Lemma restore_source_state_compensation (detail : dict) :
  compensation "Restoring source VM state" (restore_source_state (VDict detail)).
Proof.
  intros w. unfold restore_source_state. run.
  destruct (truthy _); run; by tidy.
Qed.

Lemma notify_stakeholders_compensation (mid : value) (d : dict) :
  compensation "Notifying stakeholders of rollback" (notify_stakeholders mid d).
Proof. intros w. unfold notify_stakeholders. run. by tidy. Qed.

Lemma notify_stakeholders_ok (mid : value) (d : dict) (w : world) :
  ∃ r, (notify_stakeholders mid d w).1 = Ok r ∧ r !! "status" = Some (VStr "SENT").
Proof. unfold notify_stakeholders. run. eexists. split; [done|]. by read_map. Qed.
End Old.

Section OldHandler.
Context `{C : Collaborators}.
Import RollbackHandler.
#[local] Arguments try_except : simpl never.

Lemma try_except_eq {A} (m : M A) (h : exn → M A) (w : world) :
  try_except m h w = match m w with
                     | (Ok a, w') => (Ok a, w')
                     | (Raise e, w') => h e w'
                     end.
Proof. reflexivity. Qed.

(** A wrapped compensation always yields the results extended with the
    compensation's own outcome, and the handler goes on from the world
    the compensation left. *)
Lemma attempt_step (f : M dict) (k msg : string) (rs : dict) (w : world) :
  try_except (r <~ f;; ret (<[k := VDict r]> rs))
    (λ e, log_warning msg;;; ret (<[k := failed e]> rs)) w
  = (Ok (<[k := recorded (f w).1]> rs), after_attempt msg (f w)).
Proof.
  rewrite try_except_eq. cbn [bind]. unfold after_attempt.
  by destruct (f w) as [[r|e] w1].
Qed.

Lemma after_attempt_frame (f : M dict) (msg start : string) (w : world) :
  compensation start f →
  is_start msg = false →
  table (after_attempt msg (f w)) = table w ∧
  attempts (after_attempt msg (f w)) = (attempts w ++ [start])%list.
Proof.
  intros Hf Hmsg. destruct (Hf w) as [Ht Ha]. unfold after_attempt.
  destruct (f w) as [[r|e] w1]; cbn [fst snd] in *; [done|].
  by rewrite table_add_log, attempts_add_log, Hmsg, app_nil_r.
Qed.

Lemma attempt_stop (detail : dict) (w : world) :
  let vm := dict_get detail "sourceVmId" in
  try_except
    (source_vm_id <~ get (VDict detail) "sourceVmId";;
     if truthy source_vm_id then
       r <~ stop_mgn_replication source_vm_id;;
       ret (<["mgnReplication" := VDict r]> (∅ : dict))
     else ret (∅ : dict))
    (λ e, log_warning "Failed to stop MGN replication";;;
          ret (<["mgnReplication" := failed e]> (∅ : dict))) w
  = (Ok (if truthy vm
         then <["mgnReplication" := recorded (stop_mgn_replication vm w).1]> (∅ : dict)
         else ∅),
     if truthy vm
     then after_attempt "Failed to stop MGN replication" (stop_mgn_replication vm w)
     else w).
Proof.
  cbn zeta. rewrite try_except_eq. cbn [bind get ret]. unfold after_attempt.
  destruct (truthy (dict_get detail "sourceVmId")); [|done].
  cbn [bind]. by destruct (stop_mgn_replication _ w) as [[r|e] w1].
Qed.

Lemma attempt_notify (detail : dict) (mid : value) (rs : dict) (w : world) :
  let error_details : dict :=
    <["errorCode" := dict_get detail "errorCode"]> (
    <["errorMessage" := dict_get detail "errorMessage"]> ∅) in
  try_except
    (error_code <~ get (VDict detail) "errorCode";;
     error_message <~ get (VDict detail) "errorMessage";;
     r <~ notify_stakeholders mid
            (<["errorCode" := error_code]> (<["errorMessage" := error_message]> ∅));;
     ret (<["notification" := VDict r]> rs))
    (λ e, log_warning "Failed to notify stakeholders";;;
          ret (<["notification" := failed e]> rs)) w
  = (Ok (<["notification" := recorded (notify_stakeholders mid error_details w).1]> rs),
     after_attempt "Failed to notify stakeholders" (notify_stakeholders mid error_details w)).
Proof.
  cbn zeta. rewrite try_except_eq. cbn [bind get ret]. unfold after_attempt.
  by match goal with |- context [notify_stakeholders ?a ?b w] =>
    destruct (notify_stakeholders a b w) as [[r|e] w1]
  end.
Qed.

Lemma attempts_of_logged (w w' : world) : logged w' = logged w → attempts w' = attempts w.
Proof. unfold attempts. by intros ->. Qed.

#[local] Arguments after_attempt : simpl never.

(** [rollback_handler.py]: every compensation is attempted, in the order of
    the handler, each in the world the one before left, whatever the
    earlier ones did, and the record is updated with each compensation's
    own outcome under its own key. *)
Lemma old_handler_compensates (event detail : dict) (mid : string) (w : world) :
  event !! "detail" = Some (VDict detail) →
  dict_if_present event "headers" →
  detail !! "migrationId" = Some (VStr mid) →
  mid ≠ "" →
  let run := lambda_handler event w in
  let vm := dict_get detail "sourceVmId" in
  let error_details : dict :=
    <["errorCode" := dict_get detail "errorCode"]> (
    <["errorMessage" := dict_get detail "errorMessage"]> ∅) in
  let w0 := add_log ("INFO", "Starting rollback process")
              (extract_correlation_id (VDict event) w).2 in
  let r1 := stop_mgn_replication vm w0 in
  let w1 := if truthy vm then after_attempt "Failed to stop MGN replication" r1 else w0 in
  let r2 := terminate_target_instance (VDict detail) w1 in
  let w2 := after_attempt "Failed to terminate target instance" r2 in
  let r3 := restore_source_state (VDict detail) w2 in
  let w3 := after_attempt "Failed to restore source state" r3 in
  let r4 := notify_stakeholders (VStr mid) error_details w3 in
  let results : dict :=
    <["notification" := recorded r4.1]> (
    <["sourceState" := recorded r3.1]> (
    <["targetInstance" := recorded r2.1]> (
    if truthy vm then <["mgnReplication" := recorded r1.1]> ∅ else ∅))) in
  attempts run.2 =
    (attempts w ++ (if truthy vm then ["Stopping MGN replication"] else []) ++
     ["Terminating target instance"; "Restoring source VM state";
      "Notifying stakeholders of rollback"])%list ∧
  stored run.2 mid "status" = Some (VStr "ROLLED_BACK") ∧
  stored run.2 mid "executionDetails" = Some (VDict results) ∧
  results !! "rollbackSteps" = None.
Proof.
  intros Hdetail Hheaders Hmid Hne. cbn zeta.
  destruct (CorrelationSpec.extract_total event w) as (cid & wx & Hex).
  { unfold dict_if_present. by rewrite Hdetail. }
  { done. }
  assert (table wx = table w ∧ logged wx = logged w) as [Hw0 Hl0].
  { pose proof (keeps_extract_correlation_id (VDict event) w) as Hk.
    pose proof (silent_extract_correlation_id (VDict event) w) as Hs.
    by rewrite Hex in Hk, Hs. }
  unfold lambda_handler. rewrite try_except_eq. run. rewrite Hex. run.
  rewrite (attempt_stop detail). cbn zeta. run.
  rewrite (attempt_step (terminate_target_instance (VDict detail)) "targetInstance"). run.
  rewrite (attempt_step (restore_source_state (VDict detail)) "sourceState"). run.
  rewrite (attempt_notify detail (VStr mid)). cbn zeta. run.
  set (w0 := add_log ("INFO", "Starting rollback process") wx).
  set (vm := default VNone (detail !! "sourceVmId")).
  set (w1 := if truthy vm
             then after_attempt "Failed to stop MGN replication" (stop_mgn_replication vm w0)
             else w0).
  set (w2 := after_attempt "Failed to terminate target instance"
               (terminate_target_instance (VDict detail) w1)).
  set (w3 := after_attempt "Failed to restore source state"
               (restore_source_state (VDict detail) w2)).
  set (ed := <["errorCode" := default VNone (detail !! "errorCode")]> (
             <["errorMessage" := default VNone (detail !! "errorMessage")]> (∅ : dict))).
  set (r4 := notify_stakeholders (VStr mid) ed w3).
  set (w4 := after_attempt "Failed to notify stakeholders" r4).
  assert (table w1 = table w0 ∧
          attempts w1 = (attempts w0 ++ if truthy vm
                                        then ["Stopping MGN replication"] else [])%list)
    as [Ht1 Ha1].
  { subst w1. destruct (truthy vm); [|by rewrite app_nil_r].
    by apply after_attempt_frame; [apply stop_mgn_replication_compensation|]. }
  destruct (after_attempt_frame (terminate_target_instance (VDict detail))
              "Failed to terminate target instance" _ w1
              (terminate_target_instance_compensation detail) eq_refl) as [Ht2 Ha2].
  destruct (after_attempt_frame (restore_source_state (VDict detail))
              "Failed to restore source state" _ w2
              (restore_source_state_compensation detail) eq_refl) as [Ht3 Ha3].
  destruct (after_attempt_frame (notify_stakeholders (VStr mid) ed)
              "Failed to notify stakeholders" _ w3
              (notify_stakeholders_compensation (VStr mid) ed) eq_refl) as [Ht4 Ha4].
  fold w2 in Ht2, Ha2. fold w3 in Ht3, Ha3. fold r4 in Ht4, Ha4. fold w4 in Ht4, Ha4.
  rewrite DynamodbHelperSpec.update_migration_status_run by done.
  match goal with |- context [truthy (VDict ?rs)] =>
    assert (truthy (VDict rs) = true) as ->
  end.
  { cbn. apply negb_true_iff, Nat.eqb_neq. rewrite map_size_empty_iff.
    apply insert_non_empty. }
  run.
  match goal with |- context [publish_event ?a ?b ?c ?w'] =>
    pose proof (keeps_publish_event a b c w') as Hpt;
    pose proof (silent_publish_event a b c w') as Hpl;
    destruct (publish_event a b c w') as [[x|e'] w5]
  end; cbn [snd] in Hpt, Hpl.
  all: match goal with
       | |- context [is_class RollbackErrorC ?e] => destruct (is_class RollbackErrorC e)
       | _ => idtac
       end; cbn [fst snd bind ret log_error log].
  all: unfold stored, dict_get in *; split_and!.
  all: tidy; rewrite ?(attempts_of_logged _ _ Hpl); rewrite ?Hpt; tidy.
  all: try (rewrite Ha4, Ha3, Ha2, Ha1; subst w0; tidy; rewrite (attempts_of_logged _ _ Hl0);
            destruct (truthy _); by rewrite <- ?app_assoc).
  all: try (rewrite lookup_insert_eq; cbn [mbind option_bind]; by read_map).
  all: try (read_map; destruct (truthy _); by read_map).
Qed.
End OldHandler.

(** A computation that never raises. *)
Definition total {A} (m : M A) : Prop := ∀ w, ∃ a w', m w = (Ok a, w').

Lemma total_try_except {A} (m : M A) (h : exn → M A) :
  (∀ e, total (h e)) → total (try_except m h).
Proof.
  intros Hh w. unfold try_except.
  destruct (m w) as [[a|e] w1]; [by eauto | apply Hh].
Qed.

(** The world in which the first compensation of [rollback_handler_new.py]
    starts: an identifier has been generated, the rollback is announced in
    the log, and the record is marked [ROLLBACK_IN_PROGRESS]. *)
Definition rollback_begun `{C : Collaborators} (event : dict) (mid : string) (w : world)
    : world :=
  let correlation_id := VStr ("mig-" +:+ uuid4_hex8 (calls w)) in
  let error := dict_get_or event "error" (VStr "Unknown error") in
  let w1 := add_log ("INFO", "Initiating rollback for migration: " +:+ mid
                             +:+ ", Reason: " +:+ py_str error)
              (add_call (Call "uuid" "uuid4" []) w) in
  (CommonMissing.update_migration_state (VStr mid) "ROLLBACK_IN_PROGRESS"
     (<["step" := VStr "rollback"]> (
      <["error" := error]> (
      <["correlationId" := correlation_id]> (
      <["timestamp" := VInt (time_time (calls w1))]> ∅))))
     (add_call (Call "time" "time" []) w1)).2.

Section NewHandler.
Context `{C : Collaborators}.
Import CommonMissing RollbackHandlerNew.

Lemma total_report_error (msg : string) (e : exn) : total (report_error msg e).
Proof. intros w. unfold report_error. cbn. eauto. Qed.

Lemma keeps_report_error (msg : string) (e : exn) : keeps_table (report_error msg e).
Proof. unfold report_error. keeps. Qed.
#[local] Hint Resolve keeps_report_error : frame.

(** Each compensation of [rollback_handler_new.py] returns its verdict
    instead of raising, and leaves the table alone. *)
Lemma cancel_mgn_job_returns (payload : value) (w : world) :
  ∃ o w', cancel_mgn_job payload w = (Ok o, w') ∧ table w' = table w.
Proof.
  assert (total (cancel_mgn_job payload)) as Ht
    by (unfold cancel_mgn_job; apply total_try_except, total_report_error).
  destruct (Ht w) as (o & w' & Heq).
  assert (keeps_table (cancel_mgn_job payload)) as Hk
    by (unfold cancel_mgn_job; keeps).
  specialize (Hk w). rewrite Heq in Hk. eauto.
Qed.

Lemma revert_target_instance_returns (payload : value) (w : world) :
  ∃ o w', revert_target_instance payload w = (Ok o, w') ∧ table w' = table w.
Proof.
  assert (total (revert_target_instance payload)) as Ht
    by (unfold revert_target_instance; apply total_try_except, total_report_error).
  destruct (Ht w) as (o & w' & Heq).
  assert (keeps_table (revert_target_instance payload)) as Hk
    by (unfold revert_target_instance; keeps).
  specialize (Hk w). rewrite Heq in Hk. eauto.
Qed.

Lemma restore_source_vm_returns (payload : value) (w : world) :
  ∃ o w', restore_source_vm payload w = (Ok o, w') ∧ table w' = table w.
Proof.
  assert (total (restore_source_vm payload)) as Ht
    by (unfold restore_source_vm; apply total_try_except, total_report_error).
  destruct (Ht w) as (o & w' & Heq).
  assert (keeps_table (restore_source_vm payload)) as Hk
    by (unfold restore_source_vm; keeps).
  specialize (Hk w). rewrite Heq in Hk. eauto.
Qed.

Lemma restore_previous_state_returns (mid : value) (w : world) :
  ∃ b w', restore_previous_state mid w = (Ok b, w') ∧ table w' = table w.
Proof.
  assert (total (restore_previous_state mid)) as Ht.
  { apply total_try_except. intros e w'. cbn. eauto. }
  destruct (Ht w) as (b & w' & Heq).
  assert (keeps_table (restore_previous_state mid)) as Hk
    by (unfold restore_previous_state; keeps).
  specialize (Hk w). rewrite Heq in Hk. eauto.
Qed.

Lemma notify_stakeholders_returns (payload reason : value) (w : world) :
  ∃ b w', notify_stakeholders payload reason w = (Ok b, w') ∧ table w' = table w.
Proof.
  assert (total (notify_stakeholders payload reason)) as Ht.
  { apply total_try_except. intros e w'. cbn. eauto. }
  destruct (Ht w) as (b & w' & Heq).
  assert (keeps_table (notify_stakeholders payload reason)) as Hk
    by (unfold notify_stakeholders; keeps).
  specialize (Hk w). rewrite Heq in Hk. eauto.
Qed.

Lemma update_migration_state_run (mid status : string) (details : dict) (w : world) :
  mid ≠ "" →
  ∃ item : dict,
    update_migration_state (VStr mid) status details w =
      (Ok tt, set_table (<[mid := item]> (table w))
                (add_call (Call "datetime" "utcnow" []) w)) ∧
    item !! "status" = Some (VStr status) ∧
    ∃ merged : dict,
      item !! "executionDetails" = Some (VDict merged) ∧
      ∀ k v, details !! k = Some v → merged !! k = Some v.
Proof.
  intros Hne. unfold update_migration_state. cbn.
  destruct (String.eqb_spec mid ""); [done|]. cbn.
  eexists. split; [reflexivity|].
  split; [by read_map|]. eexists. split; [by read_map|].
  intros k v Hk. by apply lookup_union_Some_l.
Qed.

#[local] Arguments after_verdict : simpl never.

Lemma after_verdict_ok (warning message : string) (b : bool) (w : world) :
  after_verdict warning (Ok (b, message), w) =
    if b then w else add_log ("WARNING", warning +:+ message) w.
Proof. by destruct b. Qed.

(** [rollback_handler_new.py]: once the record is marked, the three
    resource compensations run in the order cancel, revert, restore, each
    in the world the one before left; none of them can stop the next, and
    the verdict of each is entered in [rollbackSteps], which is returned
    and handed to the record update.  The state restoration and the
    notification follow, and the run ends with the record update. *)
Lemma new_handler_compensates (event detail : dict) (mid : string) (w : world) :
  event !! "migrationId" = None →
  event !! "detail" = Some (VDict detail) →
  detail !! "migrationId" = Some (VStr mid) →
  mid ≠ "" →
  let run := lambda_handler event w in
  let error := dict_get_or event "error" (VStr "Unknown error") in
  let w0 := rollback_begun event mid w in
  let r1 := cancel_mgn_job (VDict detail) w0 in
  let r2 := revert_target_instance (VDict detail)
              (after_verdict "Failed to cancel MGN job: " r1) in
  let r3 := restore_source_vm (VDict detail)
              (after_verdict "Failed to revert target: " r2) in
  let r4 := restore_previous_state (VStr mid)
              (after_verdict "Failed to restore source: " r3) in
  let r5 := notify_stakeholders (VDict detail) error r4.2 in
  stored w0 mid "status" = Some (VStr "ROLLBACK_IN_PROGRESS") ∧
  ∃ o1 o2 o3 : bool * string,
    r1.1 = Ok o1 ∧ r2.1 = Ok o2 ∧ r3.1 = Ok o3 ∧
    let steps := [step_record "cancel_mgn_job" o1;
                  step_record "revert_target_instance" o2;
                  step_record "restore_source_vm" o3] in
    result_field run.1 "status" = Some (VStr "ROLLED_BACK") ∧
    result_field run.1 "rollbackSteps" = Some (VList steps) ∧
    stored run.2 mid "status" = Some (VStr "ROLLED_BACK") ∧
    (∃ details : dict,
       stored run.2 mid "executionDetails" = Some (VDict details) ∧
       details !! "rollbackSteps" = Some (VList steps)) ∧
    logged run.2 = (logged r5.2 ++ [("INFO", "Rollback completed for " +:+ mid)])%list ∧
    calls run.2 = (calls r5.2 ++ [Call "time" "time" []; Call "datetime" "utcnow" []])%list.
Proof.
  intros Htop Hdetail Hmid Hne. cbn zeta.
  unfold rollback_begun.
  destruct (lambda_handler event w) as [r wf] eqn:Hrun. revert Hrun.
  unfold lambda_handler, get_correlation_id, generate_correlation_id, or_else. run.
  match goal with |- context [update_migration_state (VStr mid) ?s ?d ?w'] =>
    destruct (update_migration_state_run mid s d w' Hne) as (it0 & Heq & Hst0 & _);
    rewrite !Heq; clear Heq
  end. run.
  match goal with |- context [cancel_mgn_job ?p ?w'] => set (w0 := w') end.
  assert (stored w0 mid "status" = Some (VStr "ROLLBACK_IN_PROGRESS")) as Hbegun.
  { unfold stored. subst w0. rewrite table_set_table, lookup_insert_eq. exact Hst0. }
  clearbody w0.
  destruct (cancel_mgn_job_returns (VDict detail) w0) as ([b1 m1] & wa & Ho1 & _).
  rewrite !Ho1, !after_verdict_ok. run.
  match goal with |- context [revert_target_instance ?p ?w'] =>
    destruct (revert_target_instance_returns p w') as ([b2 m2] & wb & Ho2 & _)
  end.
  destruct b1; cbn [negb] in *; run; rewrite !Ho2, !after_verdict_ok; run.
  all: match goal with |- context [restore_source_vm ?p ?w'] =>
    destruct (restore_source_vm_returns p w') as ([b3 m3] & wc & Ho3 & _)
  end.
  all: destruct b2; cbn [negb] in *; run; rewrite !Ho3, !after_verdict_ok; run.
  all: match goal with |- context [restore_previous_state ?p ?w'] =>
    destruct (restore_previous_state_returns p w') as (x4 & wd & Ho4 & _)
  end.
  all: destruct b3; cbn [negb] in *; run; rewrite !Ho4; run.
  all: match goal with |- context [notify_stakeholders ?p ?q ?w'] =>
    destruct (notify_stakeholders_returns p q w') as (x5 & we & Ho5 & _)
  end; rewrite !Ho5; run.
  all: match goal with |- context [update_migration_state _ ?s ?d ?w'] =>
    destruct (update_migration_state_run _ s d w' Hne)
      as (it1 & Heq & Hst & merged & Hed & Hmerged);
    rewrite !Heq; clear Heq
  end; run.
  all: intros [= <- <-]; split; [exact Hbegun|].
  all: eexists (_, _), (_, _), (_, _).
  all: split; [reflexivity|]; split; [reflexivity|]; split; [reflexivity|].
  all: unfold result_field, stored; rewrite table_add_log, table_set_table, lookup_insert_eq;
    cbn [mbind option_bind].
  all: split_and!; [by read_map | by read_map | done | | done |
                    unfold add_log, set_table, add_call; cbn; by rewrite <- app_assoc].
  all: exists merged; split; [done|]; apply Hmerged; by read_map.
Qed.
End NewHandler.

Section Claims.
Context `{C : Collaborators}.

End Claims.

(** A migration that only went through validation, and the failure event a
    phase publishes for it: no source VM, no target instance, no job and no
    snapshot are named. *)
Definition validated_world : world :=
  World {[ "mig-1" := {[ "migrationId" := VStr "mig-1"; "status" := VStr "VALIDATED";
                         "appName" := VStr "billing";
                         "executionDetails" := VDict ∅ ]} ]} [] [].

Definition failure_detail : dict :=
  {[ "migrationId" := VStr "mig-1"; "correlationId" := VStr "mig-0000abcd";
     "status" := VStr "FAILED"; "errorCode" := VStr "PREREQUISITE_ERROR";
     "errorMessage" := VStr "MGN service check failed";
     "timestamp" := VStr "2024-01-01T00:00:00" ]}.

Definition failure_event : dict := {[ "detail" := VDict failure_detail ]}.

(** The same failure for the second variant, whose payload names the
    application. *)
Definition failure_event_with_app : dict :=
  {[ "detail" := VDict (<["appName" := VStr "billing"]> failure_detail) ]}.

(** A rollback event for a migration whose source and target are known. *)
Definition full_detail : dict :=
  {[ "migrationId" := VStr "mig-1"; "sourceVmId" := VStr "s-1";
     "targetInstanceId" := VStr "i-1"; "appName" := VStr "billing";
     "errorCode" := VStr "VERIFICATION_ERROR";
     "errorMessage" := VStr "Replication lag exceeds acceptable threshold" ]}.

Definition full_event : dict := {[ "detail" := VDict full_detail ]}.



(** C3, on the code.  For the failure event of a migration that only went
    through validation, [rollback_handler.py] ends with the status
    [ROLLED_BACK], skips the MGN step, reports the target instance as
    [SKIPPED], and records the source-state restoration as [FAILED]: the
    absent source VM is raised as a [RollbackError] instead of being treated
    as nothing to do. *)
Theorem rollback_without_resources_records_failure :
  let run := RollbackHandler.lambda_handler (C := healthy 0) failure_event validated_world in
  let details := stored run.2 "mig-1" "executionDetails" in
  result_field run.1 "statusCode" = Some (VInt 200) ∧
  body_field run.1 "status" = Some (VStr "ROLLED_BACK") ∧
  stored run.2 "mig-1" "status" = Some (VStr "ROLLED_BACK") ∧
  field details "mgnReplication" = None ∧
  field (field details "targetInstance") "status" = Some (VStr "SKIPPED") ∧
  field (field details "notification") "status" = Some (VStr "SENT") ∧
  field (field details "sourceState") "status" = Some (VStr "FAILED") ∧
  field (field details "sourceState") "error" =
    Some (VStr "Source VM ID not provided for state restoration").
Proof. vm_compute. done. Qed.

(** The second variant treats the same absence as success: on the same
    failure, each of its three compensations reports that there is nothing
    to do. *)
Lemma new_variant_reports_nothing_to_do :
  let run := RollbackHandlerNew.lambda_handler (C := healthy 0)
               failure_event_with_app validated_world in
  result_field run.1 "status" = Some (VStr "ROLLED_BACK") ∧
  result_field run.1 "rollbackSteps" =
    Some (VList [RollbackHandlerNew.step_record "cancel_mgn_job" (true, "No job to cancel");
                 RollbackHandlerNew.step_record "revert_target_instance"
                   (true, "No target instance to revert");
                 RollbackHandlerNew.step_record "restore_source_vm"
                   (true, "No snapshot to restore from")]).
Proof. vm_compute. done. Qed.
End RollbackSpec.

(** ** Callback delivery *)
Module CallbackSpec.
Import Errors Correlation CommonMissing.

(** The outcome of a [requests.post] that did not deliver: a transport error
    (timeout, refused connection), or an answer with a 4xx or 5xx status. *)
Definition transport_error (o : res value) : Prop :=
  ∃ msg, o = Raise (PyErr RequestExceptionC msg).

Definition error_status (o : res value) : Prop :=
  ∃ (resp : dict) (z : Z),
    o = Ok (VDict resp) ∧ resp !! "status_code" = Some (VInt z) ∧ 400 ≤ z < 600.

(** Every delivery attempt fails. *)
Definition delivery_fails `{C : Collaborators} : Prop :=
  ∀ h a, transport_error (respond h (Call "requests" "post" a)) ∨
         error_status (respond h (Call "requests" "post" a)).

(** The stored status of a migration. *)
Definition status_of (mid : string) (w : world) : option value := stored w mid "status".

Lemma status_ignores_calls (mid : string) : ignores_calls (status_of mid).
Proof. done. Qed.
Lemma status_ignores_log (mid : string) : ignores_log (status_of mid).
Proof. done. Qed.
#[export] Hint Resolve status_ignores_calls status_ignores_log : frame.

Section Old.
Context `{C : Collaborators}.
Import CallbackHandler.

Lemma keeps_send_callback (url : value) (p : dict) : keeps_table (send_callback url p).
Proof. unfold send_callback, raise_for_status. keeps. Qed.

Lemma keeps_format_callback_payload (event : dict) :
  keeps_table (format_callback_payload event).
Proof. unfold format_callback_payload. keeps. Qed.
#[local] Hint Resolve keeps_send_callback keeps_format_callback_payload : frame.

(** [callback_handler.py] never writes to the table. *)
Lemma keeps_old_handler (event : dict) : keeps_table (lambda_handler event).
Proof. unfold lambda_handler. keeps. Qed.

Lemma format_callback_payload_returns (event detail : dict) (w : world) :
  event !! "detail" = Some (VDict detail) →
  dict_if_present event "headers" →
  ∃ p w', format_callback_payload event w = (Ok p, w').
Proof.
  intros Hdetail Hheaders. unfold format_callback_payload. run.
  match goal with |- context [extract_correlation_id ?e ?w'] =>
    destruct (CorrelationSpec.extract_total event w') as (cid & w1 & ->);
      [unfold dict_if_present; by rewrite Hdetail | done |]
  end. run.
  destruct (detail !! "errorCode"); run; destruct (eq_str _ _); run; eauto.
Qed.

(** A failed delivery leaves [send_callback] with a [MigrationError] of
    code [CALLBACK_ERROR] that names the URL. *)
Lemma send_callback_raises (url : value) (p : dict) (w : world) :
  delivery_fails →
  ∃ msg w', send_callback url p w =
    (Raise (MigrationError ("Callback request failed: " +:+ msg) "CALLBACK_ERROR"
              (Some {[ "url" := url ]})), w').
Proof.
  intros Hfail. unfold send_callback. run.
  match goal with |- context [respond ?h ?c] => destruct (Hfail h (args c)) as [Ht|He] end;
    cbn [args] in *.
  - destruct Ht as (msg & ->). run. eauto.
  - destruct He as (resp & z & -> & Hcode & Hz). run. unfold raise_for_status. run.
    destruct (Z.ltb_spec z 500) as [Hlt|Hge].
    + assert ((400 <=? z) = true) as -> by (apply Z.leb_le; lia).
      run. eauto.
    + rewrite andb_false_r.
      assert ((500 <=? z) && (z <? 600) = true) as ->.
      { apply andb_true_iff. split; [apply Z.leb_le | apply Z.ltb_lt]; lia. }
      run. eauto.
Qed.

Lemma old_handler_reports_failure (event detail : dict) (url : value) (w : world) :
  event !! "detail" = Some (VDict detail) →
  dict_if_present event "headers" →
  detail !! "callbackUrl" = Some url →
  truthy url = true →
  delivery_fails →
  let run := lambda_handler event w in
  ∃ (body err : dict),
    run.1 = Ok (response 200 (VDict body)) ∧
    body !! "status" = Some (VStr "CALLBACK_FAILED") ∧
    body !! "error" = Some (VDict err) ∧
    err !! "error_code" = Some (VStr "CALLBACK_ERROR") ∧
    err !! "details" = Some (VDict {[ "url" := url ]}) ∧
    body !! "callbackSent" = None ∧
    table run.2 = table w.
Proof.
  intros Hdetail Hheaders Hurl Htruthy Hfail. cbn zeta.
  pose proof (keeps_old_handler event w) as Hkeep.
  destruct (CorrelationSpec.extract_total event w) as (cid & w1 & Hex);
    [unfold dict_if_present; by rewrite Hdetail | done |].
  revert Hkeep. unfold lambda_handler. run. rewrite Hex. run.
  match goal with |- context [format_callback_payload event ?w'] =>
    destruct (format_callback_payload_returns event detail w' Hdetail Hheaders)
      as (p & w2 & ->)
  end. run.
  match goal with |- context [send_callback url p ?w'] =>
    destruct (send_callback_raises url p w' Hfail) as (msg & w3 & ->)
  end. run.
  intros Hkeep. eexists _, _. split; [reflexivity|].
  split_and!; first [by read_map | done].
Qed.
End Old.

Section New.
Context `{C : Collaborators}.
Import CallbackHandlerNew.

Lemma status_update_cmdb_item (mid : string) (key v : value) :
  preserves (status_of mid) (update_item key [("cmdbUpdate", v)]).
Proof.
  intros w. unfold update_item, bind.
  destruct key as [| | |s| |]; try done. cbn.
  destruct (String.eqb s ""); [done|]. cbn. unfold status_of, stored. cbn.
  destruct (decide (s = mid)) as [->|Hne].
  - rewrite lookup_insert_eq. cbn. rewrite lookup_insert_ne by done.
    destruct (table w !! mid); [done|]. cbn. by rewrite lookup_singleton_ne.
  - by rewrite lookup_insert_ne.
Qed.
#[local] Hint Resolve status_update_cmdb_item : frame.

Lemma status_get_correlation_id (mid : string) :
  preserves (status_of mid) get_correlation_id.
Proof. unfold get_correlation_id, generate_correlation_id. keeps. Qed.

Lemma status_get_auth_header (mid : string) (url : value) :
  preserves (status_of mid) (get_auth_header url).
Proof. unfold get_auth_header. keeps. Qed.
#[local] Hint Resolve status_get_correlation_id status_get_auth_header : frame.

Lemma status_send_callback (mid : string) (url : value) (p : dict) :
  preserves (status_of mid) (send_callback url p).
Proof. unfold send_callback. keeps. Qed.

Lemma status_update_cmdb (mid : string) (key : value) (p : dict) :
  preserves (status_of mid) (update_cmdb key p).
Proof. unfold update_cmdb. keeps. Qed.

Lemma status_format_callback_payload (mid : string) (event : dict) :
  preserves (status_of mid) (format_callback_payload event).
Proof. unfold format_callback_payload, RollbackHandlerNew.or_else. keeps. Qed.
#[local] Hint Resolve status_send_callback status_update_cmdb
  status_format_callback_payload : frame.

(** [callback_handler_new.py] never changes a stored status. *)
Lemma status_new_handler (mid : string) (event : dict) :
  preserves (status_of mid) (lambda_handler event).
Proof.
  unfold lambda_handler, propagate_context, RollbackHandlerNew.or_else. keeps.
Qed.

Lemma get_auth_header_returns (url : value) (w : world) :
  ∃ h w', get_auth_header url w = (Ok h, w').
Proof.
  apply RollbackSpec.total_try_except. intros e w'. cbn. eauto.
Qed.

(** A failed delivery makes [send_callback] return [False] and a message. *)
Lemma send_callback_reports (url : value) (p : dict) (w : world) :
  truthy url = true →
  delivery_fails →
  ∃ msg w', send_callback url p w = (Ok (false, msg), w').
Proof.
  intros Htruthy Hfail. unfold send_callback. run.
  match goal with |- context [get_auth_header url ?w'] =>
    destruct (get_auth_header_returns url w') as (h & w1 & ->)
  end. run.
  match goal with |- context [respond ?h ?c] => destruct (Hfail h (args c)) as [Ht|He] end;
    cbn [args] in *.
  - destruct Ht as (msg & ->). run. eauto.
  - destruct He as (resp & z & -> & Hcode & Hz). run.
    assert ((z =? 200) || (z =? 201) || (z =? 202) = false) as ->.
    { rewrite !orb_false_iff. split_and!; apply Z.eqb_neq; lia. }
    run. destruct (resp !! "text"); run; eauto.
Qed.

Lemma update_cmdb_returns (key : value) (p : dict) (w : world) :
  ∃ b w', update_cmdb key p w = (Ok b, w').
Proof. apply RollbackSpec.total_try_except. intros e w'. cbn. eauto. Qed.

Lemma format_new_returns (event detail : dict) (w : world) :
  event !! "detail" = Some (VDict detail) →
  ∃ p w', format_callback_payload event w = (Ok p, w').
Proof.
  intros Hdetail. unfold format_callback_payload, RollbackHandlerNew.or_else. run.
  destruct (truthy _); run; eauto.
Qed.

Lemma new_handler_reports_failure (event detail : dict) (url : value) (w : world) :
  event !! "detail" = Some (VDict detail) →
  detail !! "callbackUrl" = Some url →
  truthy url = true →
  delivery_fails →
  let run := lambda_handler event w in
  ∃ msg : string,
    result_field run.1 "statusCode" = Some (VInt 200) ∧
    result_field run.1 "success" = Some (VBool true) ∧
    result_field run.1 "callbackSent" = Some (VBool false) ∧
    result_field run.1 "callbackMessage" = Some (VStr msg) ∧
    ∀ mid, status_of mid run.2 = status_of mid w.
Proof.
  intros Hdetail Hurl Htruthy Hfail. cbn zeta.
  assert (∀ mid, status_of mid (lambda_handler event w).2 = status_of mid w) as Hstatus
    by (intros mid; apply status_new_handler).
  destruct (lambda_handler event w) as [r wf] eqn:Hrun. cbn [fst snd] in *.
  revert Hrun.
  unfold lambda_handler, get_correlation_id, generate_correlation_id, propagate_context,
    RollbackHandlerNew.or_else.
  run. destruct (truthy (default VNone (event !! "migrationId"))); run.
  all: match goal with |- context [format_callback_payload _ ?w'] =>
    destruct (format_new_returns event detail w' Hdetail) as (p & w1 & ->)
  end; run.
  all: match goal with |- context [send_callback _ ?q ?w'] =>
    destruct (send_callback_reports url q w' Htruthy Hfail) as (msg & w2 & ->)
  end; run.
  all: match goal with |- context [update_cmdb ?k ?q ?w'] =>
    destruct (update_cmdb_returns k q w') as ([] & w3 & ->)
  end; run.
  all: intros [= <- <-]; exists msg; unfold result_field;
    split_and!; first [by read_map | done].
Qed.
End New.

Section Claims.
Context `{C : Collaborators}.

(** C7, as amended.  When every delivery attempt fails, with a transport
    error or a 4xx or 5xx answer, neither callback handler raises and
    neither changes the stored status of any migration.
    [callback_handler.py] returns status code 200 with the body status
    [CALLBACK_FAILED] and the error, of code [CALLBACK_ERROR], naming the
    URL; its response has no [callbackSent] field.
    [callback_handler_new.py] returns status code 200 with [success] true,
    [callbackSent] false and the failure in [callbackMessage]. *)
Theorem failed_delivery_is_reported_not_raised
    (event detail : dict) (url : value) (w : world) :
  event !! "detail" = Some (VDict detail) →
  dict_if_present event "headers" →
  detail !! "callbackUrl" = Some url →
  truthy url = true →
  delivery_fails →
  (let run := CallbackHandler.lambda_handler event w in
   ∃ (body err : dict),
     run.1 = Ok (response 200 (VDict body)) ∧
     body !! "status" = Some (VStr "CALLBACK_FAILED") ∧
     body !! "error" = Some (VDict err) ∧
     err !! "error_code" = Some (VStr "CALLBACK_ERROR") ∧
     err !! "details" = Some (VDict {[ "url" := url ]}) ∧
     body !! "callbackSent" = None ∧
     table run.2 = table w) ∧
  (let run := CallbackHandlerNew.lambda_handler event w in
   ∃ msg : string,
     result_field run.1 "statusCode" = Some (VInt 200) ∧
     result_field run.1 "success" = Some (VBool true) ∧
     result_field run.1 "callbackSent" = Some (VBool false) ∧
     result_field run.1 "callbackMessage" = Some (VStr msg) ∧
     ∀ mid, status_of mid run.2 = status_of mid w).
Proof.
  intros Hdetail Hheaders Hurl Htruthy Hfail. split.
  - by eapply old_handler_reports_failure.
  - by eapply new_handler_reports_failure.
Qed.
End Claims.

(** A callback target that cannot be reached, and one that answers 503. *)
Definition unreachable : Collaborators := {|
  respond := λ _ c,
    if String.eqb (service c) "requests"
    then Raise (PyErr RequestExceptionC "ConnectTimeout")
    else healthy_answer 0 c;
  utcnow_isoformat := λ _, "2024-01-01T00:00:00";
  uuid4_hex8 := λ _, "0a1b2c3d";
  time_time := λ _, 1704067200;
  utcnow_millis := λ _, 1704067200000;
  environ := ∅;
  json_loads := λ _, Raise (PyErr ExceptionC "JSONDecodeError");
  json_dumps := λ _, "";
  schema_validate := λ _, None;
  py_repr := λ _, "";
|}.

Lemma unreachable_fails : delivery_fails (C := unreachable).
Proof. intros h a. left. by exists "ConnectTimeout". Qed.

(** The terminal event of a completed migration, with a callback URL. *)
Definition completed_detail : dict :=
  {[ "migrationId" := VStr "mig-1"; "status" := VStr "SUCCESS";
     "appName" := VStr "billing"; "callbackUrl" := VStr "https://ops.example/hook";
     "correlation_id" := VStr "mig-0000abcd" ]}.

Definition completed_event : dict := {[ "detail" := VDict completed_detail ]}.

Definition completed_world : world :=
  World {[ "mig-1" := {[ "migrationId" := VStr "mig-1"; "status" := VStr "COMPLETED" ]} ]}
        [] [].

Lemma failed_delivery_is_reported_not_raised_witness :
  (let run := CallbackHandler.lambda_handler (C := unreachable)
                completed_event completed_world in
   body_field run.1 "status" = Some (VStr "CALLBACK_FAILED") ∧
   table run.2 = table completed_world) ∧
  (let run := CallbackHandlerNew.lambda_handler (C := unreachable)
                completed_event completed_world in
   result_field run.1 "callbackSent" = Some (VBool false) ∧
   status_of "mig-1" run.2 = Some (VStr "COMPLETED")).
Proof.
  destruct (failed_delivery_is_reported_not_raised (C := unreachable)
              completed_event completed_detail (VStr "https://ops.example/hook")
              completed_world)
    as [(body & err & Hr & Hst & _ & _ & _ & _ & Ht) (msg & _ & _ & Hsent & _ & Hstatus)];
    [reflexivity | exact I | reflexivity | reflexivity | exact unreachable_fails |].
  cbn zeta in *. split; split.
  - rewrite Hr. unfold body_field, result_field, response. by read_map.
  - exact Ht.
  - exact Hsent.
  - rewrite Hstatus. reflexivity.
Defined.

(** C7, as stated, fails in its last part on [callback_handler.py]: when the
    callback URL cannot be reached, its response reports the body status
    [CALLBACK_FAILED] and carries no [callbackSent] field, neither at the top
    level nor in the body. *)
Lemma old_response_has_no_callback_sent :
  let run := CallbackHandler.lambda_handler (C := unreachable)
               completed_event completed_world in
  delivery_fails (C := unreachable) ∧
  result_field run.1 "statusCode" = Some (VInt 200) ∧
  body_field run.1 "status" = Some (VStr "CALLBACK_FAILED") ∧
  result_field run.1 "callbackSent" = None ∧
  body_field run.1 "callbackSent" = None ∧
  status_of "mig-1" run.2 = Some (VStr "COMPLETED").
Proof.
  cbn zeta. split; [exact unreachable_fails|]. vm_compute. done.
Qed.
End CallbackSpec.

(** * Further properties of the handlers and their helpers *)

(** Reads through inserts and deletes on distinct keys. *)
Ltac look :=
  repeat first [ rewrite lookup_insert_eq
               | rewrite lookup_insert_ne by done
               | rewrite lookup_delete_eq
               | rewrite lookup_delete_ne by done
               | rewrite lookup_singleton_eq
               | rewrite lookup_singleton_ne by done
               | rewrite lookup_empty ].
Ltac go := repeat (progress (run; look)).


(** ** What a computation may return and what it may raise *)

(** Every run of [m] either returns a value in [Q] or raises an exception
    in [P]. *)
Definition outcome {A} (Q : A → Prop) (P : exn → Prop) (m : M A) : Prop :=
  ∀ w, match (m w).1 with Ok a => Q a | Raise e => P e end.

Definition anything {A} : A → Prop := λ _, True.
Definition nothing {A} : A → Prop := λ _, False.

(** The exceptions of the interpreter and of the libraries, as opposed to
    the classes of [common/errors.py]. *)
Definition library_error (e : exn) : Prop :=
  match e with PyErr _ _ => True | MigErr _ _ _ _ => False end.

(** The computation returns, whatever the world. *)
Definition answers {A} (Q : A → Prop) (m : M A) : Prop :=
  ∀ w, ∃ a w', m w = (Ok a, w') ∧ Q a.

Lemma outcome_answers {A} (Q : A → Prop) (m : M A) : outcome Q nothing m → answers Q m.
Proof.
  intros Hm w. specialize (Hm w). destruct (m w) as [[a|e] w']; cbn in Hm; [by eauto | done].
Qed.

Section Outcome.
Context `{C : Collaborators}.

Lemma outcome_any {A} (m : M A) : outcome anything anything m.
Proof. intros w. by destruct (m w).1. Qed.

Lemma outcome_weaken {A} (Q Q' : A → Prop) (P P' : exn → Prop) (m : M A) :
  outcome Q P m → (∀ a, Q a → Q' a) → (∀ e, P e → P' e) → outcome Q' P' m.
Proof. intros Hm HQ HP w. specialize (Hm w). destruct (m w).1; auto. Qed.

Lemma outcome_ret {A} (Q : A → Prop) P (a : A) : Q a → outcome Q P (ret a).
Proof. by intros Ha w. Qed.

Lemma outcome_raise {A} (Q : A → Prop) (P : exn → Prop) (e : exn) :
  P e → outcome Q P (raise e).
Proof. by intros He w. Qed.

Lemma outcome_bind {A B} (R : A → Prop) (Q : B → Prop) P (m : M A) (k : A → M B) :
  outcome R P m → (∀ a, R a → outcome Q P (k a)) → outcome Q P (bind m k).
Proof.
  intros Hm Hk w. unfold bind. specialize (Hm w).
  destruct (m w) as [[a|e] w1]; cbn in *; [by apply Hk | done].
Qed.

Lemma outcome_seq {A B} (Q : B → Prop) P (m : M A) (k : A → M B) :
  outcome anything P m → (∀ a, outcome Q P (k a)) → outcome Q P (bind m k).
Proof. intros Hm Hk. apply (outcome_bind anything); auto. Qed.

Lemma outcome_try_except {A} (Q : A → Prop) (R P : exn → Prop) (m : M A) (h : exn → M A) :
  outcome Q R m → (∀ e, R e → outcome Q P (h e)) → outcome Q P (try_except m h).
Proof.
  intros Hm Hh w. unfold try_except. specialize (Hm w).
  destruct (m w) as [[a|e] w1]; cbn in *; [done | by apply Hh].
Qed.

Lemma outcome_try_binding {L A} (Q : A → Prop) (R1 R2 P : exn → Prop)
    (p : M L) (b : L → M A) (h : option L → exn → M A) :
  outcome anything R1 p → (∀ l, outcome Q R2 (b l)) →
  (∀ e, R1 e → outcome Q P (h None e)) →
  (∀ l e, R2 e → outcome Q P (h (Some l) e)) →
  outcome Q P (try_binding p b h).
Proof.
  intros Hp Hb Hn Hs w. unfold try_binding. specialize (Hp w).
  destruct (p w) as [[l|e] w1]; cbn in *; [|by apply Hn].
  specialize (Hb l w1). destruct (b l w1) as [[a|e] w2]; cbn in *; [done | by apply Hs].
Qed.

(** The primitives raise library errors only, and the clock, the logger
    and the identifier source never raise. *)
Section Primitives.
Context (P : exn → Prop) (HP : ∀ e, library_error e → P e).

Lemma outcome_log (level msg : string) : outcome anything P (log level msg).
Proof. by intros w. Qed.
Lemma outcome_log_info (msg : string) : outcome anything P (log_info msg).
Proof. by intros w. Qed.
Lemma outcome_log_warning (msg : string) : outcome anything P (log_warning msg).
Proof. by intros w. Qed.
Lemma outcome_log_error (msg : string) : outcome anything P (log_error msg).
Proof. by intros w. Qed.
Lemma outcome_utcnow : outcome anything P utcnow.
Proof. by intros w. Qed.
Lemma outcome_uuid4 : outcome anything P uuid4.
Proof. by intros w. Qed.
Lemma outcome_now_seconds : outcome anything P now_seconds.
Proof. by intros w. Qed.
Lemma outcome_now_millis : outcome anything P now_millis.
Proof. by intros w. Qed.
Lemma outcome_sleep (n : Z) : outcome anything P (sleep n).
Proof. by intros w. Qed.

Ltac library := intros w; cbn; first [ exact I | apply HP; exact I ].

Lemma outcome_get (x : value) (k : string) : outcome anything P (get x k).
Proof. destruct x; library. Qed.
Lemma outcome_get_or (x : value) (k : string) (d : value) : outcome anything P (get_or x k d).
Proof. destruct x; library. Qed.
Lemma outcome_subscript (x : value) (k : string) : outcome anything P (subscript x k).
Proof.
  destruct x; try library. intros w. cbn.
  destruct (d !! k); cbn; [exact I | apply HP; exact I].
Qed.
Lemma outcome_contains (x : value) (k : string) : outcome anything P (contains x k).
Proof. destruct x; library. Qed.
Lemma outcome_gt (x : value) (n : Z) : outcome anything P (gt x n).
Proof. destruct x; library. Qed.
Lemma outcome_lt (x : value) (n : Z) : outcome anything P (TriggerMigration.lt x n).
Proof. destruct x; library. Qed.
Lemma outcome_len (x : value) : outcome anything P (len x).
Proof. destruct x; library. Qed.
Lemma outcome_first (x : value) : outcome anything P (first x).
Proof. destruct x as [| | |[|]|[|]|]; library. Qed.
Lemma outcome_iterate (x : value) : outcome anything P (iterate x).
Proof. destruct x; library. Qed.
Lemma outcome_setitem (x : value) (k : string) (v : value) :
  outcome anything P (Correlation.setitem x k v).
Proof. destruct x; library. Qed.
Lemma outcome_unpack (x : value) : outcome anything P (ValidateInput.unpack x).
Proof. destruct x; library. Qed.
End Primitives.
End Outcome.

Lemma library_error_anything (e : exn) : library_error e → anything e.
Proof. done. Qed.
Lemma library_error_itself (e : exn) : library_error e → library_error e.
Proof. done. Qed.

Section OutcomeOnDicts.
Context `{C : Collaborators}.

Lemma outcome_ret_anything {A} (P : exn → Prop) (a : A) : outcome anything P (ret a).
Proof. by intros w. Qed.

(** On a dict, [get] never raises. *)
Lemma outcome_get_dict (P : exn → Prop) (d : dict) (k : string) :
  outcome anything P (get (VDict d) k).
Proof. by intros w. Qed.
Lemma outcome_get_or_dict (P : exn → Prop) (d : dict) (k : string) (v : value) :
  outcome anything P (get_or (VDict d) k v).
Proof. by intros w. Qed.

Lemma outcome_extract_correlation_id (event : value) :
  outcome anything library_error (Correlation.extract_correlation_id event).
Proof.
  unfold Correlation.extract_correlation_id, Correlation.generate_correlation_id.
  repeat first
    [ apply outcome_ret; exact I
    | apply outcome_seq; [| intros ? ]
    | apply outcome_contains | apply outcome_subscript | apply outcome_get
    | apply outcome_get_or | apply outcome_uuid4
    | exact library_error_itself
    | match goal with
      | |- outcome _ _ (if ?b then _ else _) => destruct b
      end ].
Qed.
End OutcomeOnDicts.

Create HintDb outcome discriminated.
#[export] Hint Resolve outcome_any outcome_log outcome_log_info outcome_log_warning
  outcome_log_error outcome_utcnow outcome_uuid4 outcome_now_seconds outcome_now_millis
  outcome_sleep outcome_ret_anything outcome_get_dict outcome_get_or_dict outcome_extract_correlation_id
  library_error_anything library_error_itself : outcome.

(** Decomposes a computation along its sequencing and its handlers, up to
    the values it returns. *)
Ltac outcomes :=
  repeat first
    [ progress eauto 3 with outcome
    | apply outcome_seq; [| intros ? ]
    | apply outcome_try_except with (R := anything); [| intros ? _ ]
    | match goal with
      | |- outcome _ _ (if ?b then _ else _) => destruct b
      | |- outcome _ _ (match ?x with _ => _ end) => destruct x
      end ].

(** An event bound for a handler has, at [detail], a dict or something
    else; absent, the handler reads an empty dict. *)
Definition detail_of (event : dict) : value := dict_get_or event "detail" (VDict ∅).

(** The handler's response carries one of the given status codes. *)
Definition status_among (codes : list Z) (r : value) : Prop :=
  ∃ z, result_field (Ok r) "statusCode" = Some (VInt z) ∧ z ∈ codes.

Lemma response_status_among (codes : list Z) (z : Z) (body : value) :
  z ∈ codes → status_among codes (response z body).
Proof. intros Hz. exists z. split; [|done]. unfold response. cbn. by look. Qed.

(** The calls to the migration service and to EC2 issued so far, oldest
    first. *)
Definition is_aws_call (c : call) : bool :=
  String.eqb (service c) "mgn" || String.eqb (service c) "ec2".
Definition aws_calls (w : world) : list call := List.filter is_aws_call (calls w).

Lemma aws_calls_ignores_log : ignores_log aws_calls.
Proof. done. Qed.
Lemma aws_calls_ignores_table : ignores_table aws_calls.
Proof. done. Qed.
Lemma aws_calls_add_call (c : call) (w : world) :
  aws_calls (add_call c w) = (aws_calls w ++ if is_aws_call c then [c] else [])%list.
Proof.
  unfold aws_calls, add_call. cbn [calls]. rewrite List.filter_app. cbn.
  by destruct (is_aws_call c).
Qed.

Section AwsCalls.
Context `{C : Collaborators}.
Import Correlation EventbridgeHelper DynamodbHelper.

Lemma aws_calls_ext (svc op : string) (a : list value) :
  is_aws_call (Call svc op a) = false → preserves aws_calls (ext svc op a).
Proof. intros Hc w. unfold ext. cbn [snd]. by rewrite aws_calls_add_call, Hc, app_nil_r. Qed.
Lemma aws_calls_utcnow : preserves aws_calls utcnow.
Proof. intros w. unfold utcnow. cbn [snd]. by rewrite aws_calls_add_call, app_nil_r. Qed.
Lemma aws_calls_uuid4 : preserves aws_calls uuid4.
Proof. intros w. unfold uuid4. cbn [snd]. by rewrite aws_calls_add_call, app_nil_r. Qed.
End AwsCalls.

#[export] Hint Resolve aws_calls_ignores_log aws_calls_ignores_table aws_calls_utcnow
  aws_calls_uuid4 : frame.
#[export] Hint Extern 1 (preserves aws_calls (ext _ _ _)) =>
  apply aws_calls_ext; reflexivity : frame.

Section AwsCallsHelpers.
Context `{C : Collaborators}.
Import Correlation EventbridgeHelper DynamodbHelper.

Lemma aws_calls_extract_correlation_id (event : value) :
  preserves aws_calls (extract_correlation_id event).
Proof. unfold extract_correlation_id, generate_correlation_id. keeps. Qed.
Lemma aws_calls_publish_event (detail_type : string) (detail : value) (source : string) :
  preserves aws_calls (publish_event detail_type detail source).
Proof. unfold publish_event. keeps. Qed.
#[local] Hint Resolve aws_calls_publish_event : frame.
Lemma aws_calls_publish_failure_event (mid cid code msg : value) (details : option dict) :
  preserves aws_calls (publish_failure_event mid cid code msg details).
Proof. unfold publish_failure_event. keeps. Qed.
Lemma aws_calls_publish_status_event (mid cid : value) (step status : string)
    (details : option dict) :
  preserves aws_calls (publish_status_event mid cid step status details).
Proof. unfold publish_status_event. keeps. Qed.
Lemma aws_calls_publish_success_event (mid cid : value) (details : option dict) :
  preserves aws_calls (publish_success_event mid cid details).
Proof. unfold publish_success_event. keeps. Qed.

(** The [try: publish_failure_event(...) except: pass] of the handlers'
    error branches: it returns whatever the bus does, and leaves the table
    and the calls to AWS as they were. *)
Lemma failure_event_swallowed (mid cid : value) (e : exn) (w : world) :
  ∃ w',
    try_except
      (publish_failure_event mid cid (Errors.error_code e) (Errors.message e) None;;;
       ret tt)
      (λ _, ret tt) w = (Ok tt, w') ∧
    table w' = table w ∧ aws_calls w' = aws_calls w ∧ logged w' = logged w.
Proof.
  pose proof (keeps_publish_failure_event mid cid (Errors.error_code e) (Errors.message e)
                None w) as Ht.
  pose proof (aws_calls_publish_failure_event mid cid (Errors.error_code e)
                (Errors.message e) None w) as Ha.
  assert (keeps_log (publish_failure_event mid cid (Errors.error_code e)
                       (Errors.message e) None)) as Hl
    by (unfold publish_failure_event; keeps).
  specialize (Hl w).
  unfold try_except, bind.
  destruct (publish_failure_event _ _ _ _ _ w) as [[r|e'] w']; cbn in *; by eauto.
Qed.
End AwsCallsHelpers.

#[export] Hint Resolve aws_calls_extract_correlation_id aws_calls_publish_event
  aws_calls_publish_failure_event aws_calls_publish_status_event
  aws_calls_publish_success_event : frame.

(** EC2 and the migration service answer every call. *)
Definition aws_cooperates (C : Collaborators) : Prop :=
  ∀ (h : list call) (c : call), is_aws_call c = true → ∃ v, respond h c = Ok v.

(** The migration service fails every listing of the source servers. *)
Definition mgn_is_down (C : Collaborators) : Prop :=
  ∀ h : list call, ∃ e, respond h (Call "mgn" "describe_source_servers" []) = Raise e.

(** Collaborators on a day one service is out: its calls fail, the others
    answer as on a healthy day. *)
Definition outage (svc : string) : Collaborators := {|
  respond := λ _ c,
    if String.eqb (service c) svc
    then Raise (PyErr ClientErrorC "ServiceUnavailable")
    else healthy_answer 0 c;
  utcnow_isoformat := λ _, "2024-01-01T00:00:00";
  uuid4_hex8 := λ _, "0a1b2c3d";
  time_time := λ _, 1704067200;
  utcnow_millis := λ _, 1704067200000;
  environ := ∅;
  json_loads := λ _, Raise (PyErr ExceptionC "JSONDecodeError");
  json_dumps := λ _, "";
  schema_validate := λ _, None;
  py_repr := λ _, "";
|}.

Lemma healthy_answer_returns (lag : Z) (c : call) : ∃ v, healthy_answer lag c = Ok v.
Proof. unfold healthy_answer. repeat case_match; by eauto. Qed.

Lemma healthy_cooperates (lag : Z) : aws_cooperates (healthy lag).
Proof. intros h c _. apply healthy_answer_returns. Qed.

Lemma bus_outage_cooperates : aws_cooperates (outage "events").
Proof.
  intros h c Hc. cbn. unfold is_aws_call in Hc.
  destruct (String.eqb_spec (service c) "events") as [Heq|_];
    [by rewrite Heq in Hc | apply healthy_answer_returns].
Qed.

Lemma mgn_outage_is_down : mgn_is_down (outage "mgn").
Proof. intros h. by eexists. Qed.

(** A well-formed migration request. *)
Definition request_detail : dict :=
  {[ "migrationId" := VStr "mig-1"; "appName" := VStr "billing-app";
     "source" := VStr "azure"; "target" := VStr "aws";
     "environment" := VStr "prod"; "wave" := VStr "wave-3" ]}.
Definition request_event : dict := {[ "detail" := VDict request_detail ]}.

(** The migration service refuses every call. *)
Definition mgn_refuses (C : Collaborators) : Prop :=
  ∀ (h : list call) (c : call), service c = "mgn" → ∃ e, respond h c = Raise e.

(** The migration service starts a job for every launch. *)
Definition mgn_launches (C : Collaborators) (job : value) : Prop :=
  ∀ (h : list call) (c : call), service c = "mgn" →
    respond h c = Ok (VDict {[ "job" := VDict {[ "jobID" := job ]} ]}).

Lemma mgn_outage_refuses : mgn_refuses (outage "mgn").
Proof. intros h c Hs. cbn. rewrite Hs. by eexists. Qed.

(** Collaborators on a day the migration service starts job [mgnjob-7] for
    whatever it is asked and the bus takes every event. *)
Definition launching_answer (c : call) : res value :=
  if String.eqb (service c) "mgn"
  then Ok (VDict {[ "job" := VDict {[ "jobID" := VStr "mgnjob-7" ]} ]})
  else healthy_answer 0 c.

Definition launching : Collaborators := {|
  respond := λ _, launching_answer;
  utcnow_isoformat := λ _, "2024-01-01T00:00:00";
  uuid4_hex8 := λ _, "0a1b2c3d";
  time_time := λ _, 1704067200;
  utcnow_millis := λ _, 1704067200000;
  environ := ∅;
  json_loads := λ _, Raise (PyErr ExceptionC "JSONDecodeError");
  json_dumps := λ _, "";
  schema_validate := λ _, None;
  py_repr := λ _, "";
|}.

Lemma launching_launches : mgn_launches launching (VStr "mgnjob-7").
Proof. intros h c Hs. cbn. unfold launching_answer. by rewrite Hs. Qed.

(** ** Reading the world after a run *)

Lemma table_after_log (l : string * string) (w : world) : table (add_log l w) = table w.
Proof. done. Qed.
Lemma table_after_call (c : call) (w : world) : table (add_call c w) = table w.
Proof. done. Qed.
Lemma table_after_write (t : gmap string dict) (w : world) : table (set_table t w) = t.
Proof. done. Qed.
Lemma calls_after_log (l : string * string) (w : world) : calls (add_log l w) = calls w.
Proof. done. Qed.
Lemma calls_after_write (t : gmap string dict) (w : world) : calls (set_table t w) = calls w.
Proof. done. Qed.
Lemma aws_calls_after_log (l : string * string) (w : world) :
  aws_calls (add_log l w) = aws_calls w.
Proof. done. Qed.
Lemma aws_calls_after_write (t : gmap string dict) (w : world) :
  aws_calls (set_table t w) = aws_calls w.
Proof. done. Qed.

(** Simplifies the table and the calls of a world built by the steps of a
    run. *)
Ltac settle :=
  repeat first [ rewrite table_after_log
               | rewrite table_after_call
               | rewrite table_after_write
               | rewrite calls_after_log
               | rewrite calls_after_write
               | rewrite aws_calls_after_log
               | rewrite aws_calls_after_write
               | rewrite aws_calls_add_call ];
  cbn [is_aws_call service String.eqb Ascii.eqb Bool.eqb orb];
  rewrite ?app_nil_r.

Section FramesOfTheStore.
Context `{C : Collaborators}.
Import DynamodbHelper.

Lemma aws_calls_update_migration_status (mid status details : value) :
  preserves aws_calls (update_migration_status mid status details).
Proof. unfold update_migration_status. keeps. Qed.
Lemma aws_calls_save_migration_state (mid : value) (state : dict) :
  preserves aws_calls (save_migration_state mid state).
Proof. unfold save_migration_state. keeps. Qed.
End FramesOfTheStore.

#[export] Hint Resolve aws_calls_update_migration_status aws_calls_save_migration_state : frame.

(** ** Running a handler step by step *)

Lemma try_binding_ok {L A} (p : M L) (b : L → M A) (h : option L → exn → M A)
    (l : L) (w w1 : world) :
  p w = (Ok l, w1) → try_binding p b h w = try_except (b l) (h (Some l)) w1.
Proof. intros Hp. unfold try_binding, try_except. by rewrite Hp. Qed.

Lemma try_binding_raise {L A} (p : M L) (b : L → M A) (h : option L → exn → M A)
    (e : exn) (w w1 : world) :
  p w = (Raise e, w1) → try_binding p b h w = h None e w1.
Proof. intros Hp. unfold try_binding. by rewrite Hp. Qed.

Lemma try_except_bind_ok {A B} (m : M A) (k : A → M B) (h : exn → M B)
    (a : A) (w w1 : world) :
  m w = (Ok a, w1) → try_except (bind m k) h w = try_except (k a) h w1.
Proof. intros Hm. unfold try_except, bind. by rewrite Hm. Qed.

Lemma try_except_bind_raise {A B} (m : M A) (k : A → M B) (h : exn → M B)
    (e : exn) (w w1 : world) :
  m w = (Raise e, w1) → try_except (bind m k) h w = h e w1.
Proof. intros Hm. unfold try_except, bind. by rewrite Hm. Qed.

Lemma try_except_raise {A} (m : M A) (h : exn → M A) (e : exn) (w w1 : world) :
  m w = (Raise e, w1) → try_except m h w = h e w1.
Proof. intros Hm. unfold try_except. by rewrite Hm. Qed.

Lemma try_except_ok {A} (m : M A) (h : exn → M A) (a : A) (w w1 : world) :
  m w = (Ok a, w1) → try_except m h w = (Ok a, w1).
Proof. intros Hm. unfold try_except. by rewrite Hm. Qed.

Lemma bind_raise {A B} (m : M A) (k : A → M B) (e : exn) (w w' : world) :
  m w = (Raise e, w') → bind m k w = (Raise e, w').
Proof. intros Hm. unfold bind. by rewrite Hm. Qed.

(** Runs the next step of a [try] block when it returns by computation. *)
Ltac step := erewrite try_except_bind_ok by reflexivity.
(** Runs the next step, a call of [f], by unfolding [f]. *)
Tactic Notation "step_into" reference(f) :=
  erewrite try_except_bind_ok by (unfold f; cbn; reflexivity).
(** Runs the next step, a status update of a record with a proper key. *)
Ltac step_update :=
  erewrite try_except_bind_ok
    by (apply DynamodbHelperSpec.update_migration_status_run; done).
(** Runs the next step with a known result. *)
Ltac step_with H := erewrite try_except_bind_ok by exact H.
Ltac raise_with H := erewrite try_except_bind_raise by exact H.

(** Rewrites an observation of the world after a computation that
    preserves it. *)
Ltac framed f :=
  match goal with
  | |- context [f (?m ?w).2] =>
      let Hk := fresh "Hk" in
      assert (preserves f m) as Hk by keeps;
      rewrite (Hk w); clear Hk
  end.

Lemma truthy_insert (k : string) (v : value) (m : dict) : truthy (VDict (<[k := v]> m)) = true.
Proof.
  cbn. apply negb_true_iff, Nat.eqb_neq. rewrite map_size_empty_iff.
  apply insert_non_empty.
Qed.

(** Names the result of the run under study, so that the steps can be taken
    before the witnesses of the statement are chosen. *)
Ltac name_run f :=
  match goal with
  | |- context [f ?ev ?w] =>
      let r := fresh "r" in
      let wf := fresh "wf" in
      let Hrun := fresh "Hrun" in
      destruct (f ev w) as [r wf] eqn:Hrun; revert Hrun
  end.

(** A line is in a log built by appending: it is the last line, or it is in
    what came before. *)
Ltac in_log :=
  cbn [logged add_log add_call set_table];
  repeat first
    [ assumption
    | apply elem_of_app; right; apply list_elem_of_singleton; reflexivity
    | apply elem_of_app; left ].

(** A handler of the pipeline is a [try] block that binds the correlation
    identifier first.  It answers every event if its body ends by returning
    a response and its [except] branches return one, and also if body and
    identifier raise library errors only and the branches return a response
    on those. *)
Lemma guarded_handler_answers `{C : Collaborators} (Q : value → Prop)
    (p : M value) (body : value → M value) (h : option value → exn → M value) :
  (∀ cid, outcome Q anything (body cid)) →
  (∀ cid e, outcome Q nothing (h cid e)) →
  answers Q (try_binding p body h).
Proof.
  intros Hbody Hh. apply outcome_answers.
  apply outcome_try_binding with (R1 := anything) (R2 := anything);
    [apply outcome_any | apply Hbody | |]; intros; apply Hh.
Qed.

Lemma misrouted_handler_answers `{C : Collaborators} (Q : value → Prop)
    (event : value) (body : value → M value) (h : option value → exn → M value) :
  (∀ cid, outcome Q library_error (body cid)) →
  (∀ cid e, library_error e → outcome Q nothing (h cid e)) →
  answers Q (try_binding (Correlation.extract_correlation_id event) body h).
Proof.
  intros Hbody Hh. apply outcome_answers.
  apply outcome_try_binding with (R1 := library_error) (R2 := library_error);
    [apply outcome_extract_correlation_id | apply Hbody | |]; intros; by apply Hh.
Qed.

(** The body of a handler, on a detail that is no dict, stops at its first
    read of the detail. *)
Ltac stops_at_once := intros ? ?; exact I.

(** A [try] block that starts with a call to a service issues that call
    whatever follows, if what follows calls nothing that [f] sees. *)
Lemma observed_after_call `{C : Collaborators} {X A} (f : world → X)
    (svc op : string) (a : list value) (k : value → M A) (h : exn → M A) (w : world) :
  (∀ v, preserves f (k v)) → (∀ e, preserves f (h e)) →
  f (try_except (bind (ext svc op a) k) h w).2 = f (add_call (Call svc op a) w).
Proof.
  intros Hk Hh. unfold try_except, bind, ext.
  destruct (respond _ _) as [v|e]; [|apply Hh].
  specialize (Hk v (add_call (Call svc op a) w)).
  destruct (k v _) as [[r|e] w']; cbn [snd] in *; [done|]. by rewrite Hh.
Qed.

(** ** Correlation identifiers: lookup order and injection *)
Module CorrelationFacts.
Import Correlation.

(** An event that carries an identifier at each of the three places. *)
Definition labelled (ev d h : dict) (top inner hdr : value) : dict :=
  <["correlation_id" := top]> (
  <["detail" := VDict (<["correlation_id" := inner]> d)]> (
  <["headers" := VDict (<["X-Correlation-ID" := hdr]> h)]> ev)).

Section Proofs.
Context `{C : Collaborators}.

(** X1.  [extract_correlation_id] prefers the event-level identifier to the
    one in [detail], and that one to the [X-Correlation-ID] header: on an
    event that carries all three it returns the first; with the first
    removed, the second; with the first two removed, the header.  None of
    the three lookups generates an identifier. *)
Theorem extract_lookup_order (ev d h : dict) (top inner hdr : value) (w : world) :
  truthy hdr = true →
  let event := labelled ev d h top inner hdr in
  extract_correlation_id (VDict event) w = (Ok top, w) ∧
  extract_correlation_id (VDict (delete "correlation_id" event)) w = (Ok inner, w) ∧
  extract_correlation_id
    (VDict (<["detail" := VDict (delete "correlation_id" d)]>
              (delete "correlation_id" event))) w = (Ok hdr, w).
Proof.
  intros Hhdr event. subst event. unfold labelled.
  split_and!; unfold extract_correlation_id; go; by rewrite ?Hhdr.
Qed.

(** X2.  [inject_correlation_id] writes one field: the identifier inside
    [detail].  Every other field of the event and every other field of its
    [detail] is as before, and nothing outside the event is touched. *)
Theorem inject_changes_one_field (ev : dict) (cid : value) (w : world) :
  dict_if_present ev "detail" →
  ∃ ev' d' : dict,
    inject_correlation_id (VDict ev) cid w = (Ok (VDict ev'), w) ∧
    ev' !! "detail" = Some (VDict d') ∧
    d' !! "correlation_id" = Some cid ∧
    (∀ k, k ≠ "detail" → ev' !! k = ev !! k) ∧
    (∀ k, k ≠ "correlation_id" → d' !! k = field (ev !! "detail") k).
Proof.
  intros Hd. eexists _, _. split; [by apply CorrelationSpec.inject_dict|].
  unfold dict_if_present in Hd.
  split; [by rewrite lookup_insert_eq|].
  split; [by rewrite lookup_insert_eq|].
  split; intros k Hk; rewrite lookup_insert_ne by done; [done|].
  by destruct (ev !! "detail") as [[| | | | |d]|].
Qed.

(** X3.  A second injection replaces the identifier of the first: injecting
    [old] and then [new] gives the event that injecting [new] alone
    gives. *)
Theorem later_injection_wins (ev : dict) (old new : value) (w : world) :
  dict_if_present ev "detail" →
  ∃ ev1,
    inject_correlation_id (VDict ev) old w = (Ok ev1, w) ∧
    inject_correlation_id ev1 new w = inject_correlation_id (VDict ev) new w.
Proof.
  intros Hd. eexists. split; [by apply CorrelationSpec.inject_dict|].
  rewrite !CorrelationSpec.inject_dict; try done.
  - rewrite lookup_insert_eq, !insert_insert_eq. done.
  - unfold dict_if_present. by rewrite lookup_insert_eq.
Qed.

(** X4.  Injection never reaches the event-level field, which extraction reads
    first: on an event that has one, extraction after injecting any
    identifier still returns the event-level one. *)
Theorem event_level_id_shadows_injection (ev : dict) (top cid : value) (w : world) :
  ev !! "correlation_id" = Some top →
  dict_if_present ev "detail" →
  ∃ ev',
    inject_correlation_id (VDict ev) cid w = (Ok ev', w) ∧
    extract_correlation_id ev' w = (Ok top, w).
Proof.
  intros Htop Hd. eexists. split; [by apply CorrelationSpec.inject_dict|].
  unfold extract_correlation_id. go. done.
Qed.

(** X5.  A [detail] that is [None] (JSON [null]), a boolean or a number makes
    extraction raise [TypeError] when the event has no event-level
    identifier: the membership test on it fails before any fallback to the
    headers or to a generated identifier. *)
Theorem extract_raises_on_scalar_detail (ev : dict) (v : value) (w : world) :
  ev !! "correlation_id" = None →
  ev !! "detail" = Some v →
  match v with VNone | VBool _ | VInt _ => True | _ => False end →
  ∃ msg, extract_correlation_id (VDict ev) w = (Raise (PyErr TypeErrorC msg), w).
Proof.
  intros Htop Hd Hv. unfold extract_correlation_id.
  destruct v; try (exfalso; exact Hv); go; by eauto.
Qed.
End Proofs.
(** An event relayed with an identifier of its own and a payload. *)
Definition relayed_event : dict :=
  <["correlation_id" := VStr "mig-feed0001"]> (
  <["detail" := VDict {[ "migrationId" := VStr "mig-1" ]}]> ∅).

Lemma extract_lookup_order_witness :
  truthy (VStr "mig-cccc0003") = true ∧
  let event := labelled ∅ ∅ ∅ (VStr "mig-aaaa0001") (VStr "mig-bbbb0002") (VStr "mig-cccc0003") in
  extract_correlation_id (C := quiet) (VDict event) empty_world
    = (Ok (VStr "mig-aaaa0001"), empty_world) ∧
  extract_correlation_id (C := quiet) (VDict (delete "correlation_id" event)) empty_world
    = (Ok (VStr "mig-bbbb0002"), empty_world) ∧
  extract_correlation_id (C := quiet)
    (VDict (<["detail" := VDict (delete "correlation_id" ∅)]>
              (delete "correlation_id" event))) empty_world
    = (Ok (VStr "mig-cccc0003"), empty_world).
Proof.
  split; [reflexivity|].
  exact (extract_lookup_order (C := quiet) ∅ ∅ ∅ (VStr "mig-aaaa0001") (VStr "mig-bbbb0002")
           (VStr "mig-cccc0003") empty_world eq_refl).
Defined.

Lemma inject_changes_one_field_witness :
  dict_if_present relayed_event "detail" ∧
  ∃ ev' d' : dict,
    inject_correlation_id (VDict relayed_event) (VStr "mig-0a1b2c3d") empty_world
      = (Ok (VDict ev'), empty_world) ∧
    ev' !! "detail" = Some (VDict d') ∧
    d' !! "correlation_id" = Some (VStr "mig-0a1b2c3d") ∧
    (∀ k, k ≠ "detail" → ev' !! k = relayed_event !! k) ∧
    (∀ k, k ≠ "correlation_id" → d' !! k = field (relayed_event !! "detail") k).
Proof.
  assert (dict_if_present relayed_event "detail") as Hd by (vm_compute; exact I).
  split; [exact Hd|].
  exact (inject_changes_one_field relayed_event (VStr "mig-0a1b2c3d")
           empty_world Hd).
Defined.

Lemma later_injection_wins_witness :
  dict_if_present relayed_event "detail" ∧
  ∃ ev1,
    inject_correlation_id (VDict relayed_event) (VStr "mig-00000001") empty_world
      = (Ok ev1, empty_world) ∧
    inject_correlation_id ev1 (VStr "mig-00000002") empty_world
      = inject_correlation_id (VDict relayed_event) (VStr "mig-00000002") empty_world.
Proof.
  assert (dict_if_present relayed_event "detail") as Hd by (vm_compute; exact I).
  split; [exact Hd|].
  exact (later_injection_wins relayed_event (VStr "mig-00000001")
           (VStr "mig-00000002") empty_world Hd).
Defined.

Lemma event_level_id_shadows_injection_witness :
  relayed_event !! "correlation_id" = Some (VStr "mig-feed0001") ∧
  dict_if_present relayed_event "detail" ∧
  ∃ ev',
    inject_correlation_id (VDict relayed_event) (VStr "mig-0a1b2c3d") empty_world
      = (Ok ev', empty_world) ∧
    extract_correlation_id (C := quiet) ev' empty_world
      = (Ok (VStr "mig-feed0001"), empty_world).
Proof.
  assert (relayed_event !! "correlation_id" = Some (VStr "mig-feed0001")) as Htop
    by (vm_compute; reflexivity).
  assert (dict_if_present relayed_event "detail") as Hd by (vm_compute; exact I).
  split; [exact Htop|]. split; [exact Hd|].
  exact (event_level_id_shadows_injection (C := quiet) relayed_event (VStr "mig-feed0001")
           (VStr "mig-0a1b2c3d") empty_world Htop Hd).
Defined.

(** A message whose [detail] is JSON [null]. *)
Definition null_detail_event : dict := {[ "detail" := VNone ]}.

Lemma extract_raises_on_scalar_detail_witness :
  null_detail_event !! "correlation_id" = None ∧
  null_detail_event !! "detail" = Some VNone ∧
  ∃ msg, extract_correlation_id (C := quiet) (VDict null_detail_event) empty_world
         = (Raise (PyErr TypeErrorC msg), empty_world).
Proof.
  assert (null_detail_event !! "correlation_id" = None) as Htop by (vm_compute; reflexivity).
  assert (null_detail_event !! "detail" = Some VNone) as Hd by (vm_compute; reflexivity).
  split; [exact Htop|]. split; [exact Hd|].
  exact (extract_raises_on_scalar_detail (C := quiet) null_detail_event VNone empty_world
           Htop Hd I).
Defined.
End CorrelationFacts.

(** ** The record store: reading back *)
Module DynamodbHelperFacts.
Import DynamodbHelper.

(** The attributes of a record that only [update_migration_status] wrote. *)
Definition updated_fields (details : value) : gset string :=
  if truthy details
  then {[ "migrationId"; "status"; "updatedAt"; "executionDetails" ]}
  else {[ "migrationId"; "status"; "updatedAt" ]}.

(** The item [save_migration_state] builds. *)
Definition saved_item (mid : string) (state : dict) (now : value) : dict :=
  <["migrationId" := VStr mid]> (
  <["status" := dict_get_or state "status" (VStr "PENDING")]> (
  <["wave" := dict_get state "wave"]> (
  <["appName" := dict_get state "appName"]> (
  <["source" := dict_get state "source"]> (
  <["target" := dict_get state "target"]> (
  <["environment" := dict_get state "environment"]> (
  <["updatedAt" := now]> (
  <["executionDetails" := dict_get_or state "executionDetails" (VDict ∅)]> (
  <["correlationId" := dict_get state "correlationId"]> ∅))))))))).

Section Proofs.
Context `{C : Collaborators}.

Lemma get_migration_state_run (mid : string) (w : world) :
  mid ≠ "" →
  get_migration_state (VStr mid) w = (Ok (from_option VDict VNone (table w !! mid)), w).
Proof.
  intros Hne. unfold get_migration_state, get_item, bind.
  rewrite DynamodbHelperSpec.table_key_ok by done. cbn.
  destruct (table w !! mid); unfold dict_get; by look.
Qed.

Lemma save_migration_state_run (mid : string) (state : dict) (w : world) :
  mid ≠ "" →
  save_migration_state (VStr mid) state w =
    (Ok tt, set_table (<[mid := saved_item mid state (VStr (utcnow_isoformat (calls w)))]>
                         (table w))
              (add_call (Call "datetime" "utcnow" []) w)).
Proof.
  intros Hne. unfold save_migration_state, bind, utcnow.
  by rewrite (DynamodbHelperSpec.put_item_ok mid) by (done || apply lookup_insert_eq).
Qed.

(** X6.  What [save_migration_state] stores is what [get_migration_state]
    returns for that id: the record reads back with the id, the status
    (or [PENDING]) and the six copied fields of the state, and reading it
    changes nothing.  Reading another id gives what it gave before the
    save. *)
Theorem saved_state_reads_back (mid : string) (state : dict) (w : world) :
  mid ≠ "" →
  ∃ (item : dict) (w1 : world),
    save_migration_state (VStr mid) state w = (Ok tt, w1) ∧
    get_migration_state (VStr mid) w1 = (Ok (VDict item), w1) ∧
    item !! "migrationId" = Some (VStr mid) ∧
    item !! "status" = Some (dict_get_or state "status" (VStr "PENDING")) ∧
    item !! "executionDetails" = Some (dict_get_or state "executionDetails" (VDict ∅)) ∧
    (∀ k, k ∈ ["wave"; "appName"; "source"; "target"; "environment"; "correlationId"] →
       item !! k = Some (dict_get state k)) ∧
    (∀ other, other ≠ mid → other ≠ "" →
       (get_migration_state (VStr other) w1).1 = (get_migration_state (VStr other) w).1).
Proof.
  intros Hne.
  unfold save_migration_state, bind, utcnow.
  rewrite (DynamodbHelperSpec.put_item_ok mid) by (done || apply lookup_insert_eq).
  eexists _, _. split; [reflexivity|].
  rewrite get_migration_state_run by done.
  cbn [table set_table add_call]. rewrite lookup_insert_eq. cbn [from_option].
  split; [reflexivity|].
  split_and!; try by look.
  - intros k Hk.
    repeat (apply elem_of_cons in Hk as [-> | Hk]; [by look|]).
    by apply elem_of_nil in Hk.
  - intros other Ho Hne'. rewrite !get_migration_state_run by done.
    cbn [fst table set_table add_call]. by look.
Qed.

(** X7.  [update_migration_status] on an id that was never saved does not
    fail: it creates the record.  Reading the id returned [None] before;
    after, it returns a record that holds the id, the status, the time of
    the update and the details if any were given, and none of the fields
    [save_migration_state] would have stored besides. *)
Theorem update_creates_missing_record
    (mid : string) (status details : value) (w : world) :
  mid ≠ "" →
  table w !! mid = None →
  ∃ (item : dict) (w1 : world),
    get_migration_state (VStr mid) w = (Ok VNone, w) ∧
    update_migration_status (VStr mid) status details w = (Ok tt, w1) ∧
    get_migration_state (VStr mid) w1 = (Ok (VDict item), w1) ∧
    dom item = updated_fields details ∧
    item !! "migrationId" = Some (VStr mid) ∧
    item !! "status" = Some status ∧
    item !! "updatedAt" = Some (VStr (utcnow_isoformat (calls w))).
Proof.
  intros Hne Hnew.
  rewrite DynamodbHelperSpec.update_migration_status_run by done. cbn zeta.
  eexists _, _. split; [by rewrite get_migration_state_run, Hnew|].
  split; [reflexivity|].
  rewrite get_migration_state_run by done.
  cbn [table set_table add_call]. rewrite lookup_insert_eq, Hnew. cbn [from_option].
  split; [reflexivity|]. unfold updated_fields.
  destruct (truthy details); split_and!; try (by look);
    rewrite !dom_insert_L, dom_singleton_L; set_solver.
Qed.
End Proofs.

(** The state the validation step saves for a request. *)
Definition validated_state : dict :=
  <["appName" := VStr "billing-app"]> (
  <["wave" := VStr "wave-3"]> (
  <["status" := VStr "VALIDATED"]> (
  <["callbackUrl" := VStr "https://cmdb.example/api/cb"]> ∅))).

Lemma saved_state_reads_back_witness :
  "mig-1" ≠ "" ∧
  ∃ (item : dict) (w1 : world),
    save_migration_state (C := quiet) (VStr "mig-1") validated_state empty_world = (Ok tt, w1) ∧
    get_migration_state (VStr "mig-1") w1 = (Ok (VDict item), w1) ∧
    item !! "migrationId" = Some (VStr "mig-1") ∧
    item !! "status" = Some (dict_get_or validated_state "status" (VStr "PENDING")) ∧
    item !! "executionDetails" =
      Some (dict_get_or validated_state "executionDetails" (VDict ∅)) ∧
    (∀ k, k ∈ ["wave"; "appName"; "source"; "target"; "environment"; "correlationId"] →
       item !! k = Some (dict_get validated_state k)) ∧
    (∀ other, other ≠ "mig-1" → other ≠ "" →
       (get_migration_state (VStr other) w1).1
       = (get_migration_state (VStr other) empty_world).1).
Proof.
  assert ("mig-1" ≠ "") as Hne by discriminate.
  split; [exact Hne|].
  exact (saved_state_reads_back (C := quiet) "mig-1" validated_state empty_world Hne).
Defined.

Lemma update_creates_missing_record_witness :
  "mig-9" ≠ "" ∧
  table empty_world !! "mig-9" = None ∧
  ∃ (item : dict) (w1 : world),
    get_migration_state (VStr "mig-9") empty_world = (Ok VNone, empty_world) ∧
    update_migration_status (C := quiet) (VStr "mig-9") (VStr "VERIFIED") VNone empty_world
      = (Ok tt, w1) ∧
    get_migration_state (VStr "mig-9") w1 = (Ok (VDict item), w1) ∧
    dom item = updated_fields VNone ∧
    item !! "migrationId" = Some (VStr "mig-9") ∧
    item !! "status" = Some (VStr "VERIFIED") ∧
    item !! "updatedAt" = Some (VStr "2024-01-01T00:00:00").
Proof.
  assert ("mig-9" ≠ "") as Hne by discriminate.
  assert (table empty_world !! "mig-9" = None) as Hnew by reflexivity.
  split; [exact Hne|]. split; [exact Hnew|].
  exact (update_creates_missing_record (C := quiet) "mig-9" (VStr "VERIFIED") VNone
           empty_world Hne Hnew).
Defined.
End DynamodbHelperFacts.

(** ** Publishing events *)
Module EventbridgeHelperFacts.
Import EventbridgeHelper.

(** The answer of the bus on a day it accepts the event. *)
Definition accepted_answer : dict :=
  {[ "FailedEntryCount" := VInt 0;
     "Entries" := VList [VDict {[ "EventId" := VStr "evt-1" ]}] ]}.

(** The event bus accepts every event. *)
Definition bus_accepts (C : Collaborators) : Prop :=
  ∀ (h : list call) (c : call), service c = "events" → respond h c = Ok (VDict accepted_answer).

(** The event bus fails every call, with an exception of the client
    library. *)
Definition bus_is_down (C : Collaborators) : Prop :=
  ∀ (h : list call) (c : call), service c = "events" →
    ∃ e, respond h c = Raise e ∧ library_error e.

Section Proofs.
Context `{C : Collaborators}.

(** The one [put_events] call [publish_event] issues. *)
Definition put_events_call (detail_type : string) (detail : value) (source : string) : call :=
  Call "events" "put_events"
    [VList [VDict (<["EventBusName" := bus_name]> (
                   <["Source" := VStr source]> (
                   <["DetailType" := VStr detail_type]> (
                   <["Detail" := VStr (json_dumps detail)]> (
                   <["Resources" := VList []]> ∅)))))]].

Lemma publish_event_run
    (detail_type : string) (detail : value) (source : string) (w : world)
    (answer entry : dict) (rest : list value) (id : value) (n : Z) :
  let c := put_events_call detail_type detail source in
  respond (calls w) c = Ok (VDict answer) →
  dict_get_or answer "FailedEntryCount" (VInt 0) = VInt n →
  answer !! "Entries" = Some (VList (VDict entry :: rest)) →
  entry !! "EventId" = Some id →
  publish_event detail_type detail source w =
    (if 0 <? n
     then Raise (PyErr ExceptionC
                   ("Failed to publish event: " +:+ py_str (VList (VDict entry :: rest))))
     else Ok id,
     add_call c w).
Proof.
  intros c Hr Hn He Hid. subst c. unfold put_events_call in *.
  unfold publish_event. cbn. rewrite Hr. cbn. unfold dict_get_or in *. rewrite Hn. cbn.
  destruct (0 <? n); go; done.
Qed.


(** X8.  [publish_event] issues exactly one [put_events] call, and the failed
    entry count of the answer alone decides its outcome: with a positive
    count it raises, even when the answer lists an entry with an event id;
    with a count of zero, or none, it returns the event id of the first
    entry. *)
Theorem publish_event_outcome
    (detail_type : string) (detail : value) (source : string) (w : world)
    (answer entry : dict) (rest : list value) (id : value) (n : Z) :
  let c := put_events_call detail_type detail source in
  respond (calls w) c = Ok (VDict answer) →
  dict_get_or answer "FailedEntryCount" (VInt 0) = VInt n →
  answer !! "Entries" = Some (VList (VDict entry :: rest)) →
  entry !! "EventId" = Some id →
  publish_event detail_type detail source w =
    (if 0 <? n
     then Raise (PyErr ExceptionC
                   ("Failed to publish event: " +:+ py_str (VList (VDict entry :: rest))))
     else Ok id,
     add_call c w).
Proof. apply publish_event_run. Qed.

(** Whatever the bus answers, [publish_event] issues that one call. *)
Lemma publish_event_calls (detail_type : string) (detail : value) (source : string)
    (w : world) :
  calls (publish_event detail_type detail source w).2 =
    (calls w ++ [put_events_call detail_type detail source])%list.
Proof.
  unfold publish_event, bind at 1, ext.
  destruct (respond _ _) as [r|e]; [|done].
  match goal with
  | |- calls (?m ?w').2 = _ =>
      transitivity (calls w'); [|done]; generalize w'; change (preserves calls m)
  end.
  keeps.
Qed.

(** The fields of [publish_status_event], before [details] are merged in. *)
Definition status_fields (migration_id correlation_id : value)
    (current_step status : string) (now : value) : dict :=
  <["migrationId" := migration_id]> (
  <["correlationId" := correlation_id]> (
  <["currentStep" := VStr current_step]> (
  <["status" := VStr status]> (
  <["timestamp" := now]> ∅)))).

(** X9.  Details passed to [publish_status_event] are merged over the fixed
    fields of the event, not under them: the published detail carries
    every key of [details] with the value from [details], also for
    [migrationId], [correlationId], [currentStep], [status] and
    [timestamp], and the fixed fields only where [details] has no such
    key. *)
Theorem status_event_details_override
    (migration_id correlation_id : value) (current_step status : string)
    (details : dict) (w : world) :
  details ≠ ∅ →
  ∃ sent : dict,
    calls (publish_status_event migration_id correlation_id current_step status
             (Some details) w).2 =
      (calls w ++ [Call "datetime" "utcnow" [];
                   put_events_call "MigrationStatusUpdated" (VDict sent) default_source])%list ∧
    (∀ k v, details !! k = Some v → sent !! k = Some v) ∧
    (∀ k, details !! k = None →
       sent !! k = status_fields migration_id correlation_id current_step status
                     (VStr (utcnow_isoformat (calls w))) !! k).
Proof.
  intros Hd.
  assert (truthy (VDict details) = true) as Ht.
  { cbn. apply negb_true_iff, Nat.eqb_neq. by rewrite map_size_empty_iff. }
  eexists. split; [|split].
  - unfold publish_status_event, bind, utcnow. cbn zeta.
    unfold with_details. rewrite Ht.
    rewrite publish_event_calls. cbn [calls add_call]. by rewrite <- app_assoc.
  - intros k v Hk. by apply lookup_union_Some_l.
  - intros k Hk. by apply lookup_union_r.
Qed.

Lemma publish_event_accepted (detail_type : string) (detail : value) (source : string)
    (w : world) :
  bus_accepts C →
  ∃ w', publish_event detail_type detail source w = (Ok (VStr "evt-1"), w') ∧
        table w' = table w.
Proof.
  intros Hbus. eexists. split.
  - unfold publish_event. cbn. rewrite Hbus by done. unfold accepted_answer. go. reflexivity.
  - reflexivity.
Qed.

Lemma publish_event_down (detail_type : string) (detail : value) (source : string)
    (w : world) :
  bus_is_down C →
  ∃ e w', publish_event detail_type detail source w = (Raise e, w') ∧
          library_error e ∧ table w' = table w.
Proof.
  intros Hbus. unfold publish_event. cbn.
  match goal with
  | |- context [respond ?h ?c] => destruct (Hbus h c eq_refl) as (e & -> & He)
  end.
  by eexists _, _.
Qed.

Lemma publish_status_event_accepted (mid cid : value) (step status : string)
    (details : option dict) (w : world) :
  bus_accepts C →
  ∃ w', publish_status_event mid cid step status details w = (Ok (VStr "evt-1"), w') ∧
        table w' = table w.
Proof.
  intros Hbus. unfold publish_status_event. cbn.
  match goal with
  | |- context [publish_event ?a ?b ?c ?w1] =>
      destruct (publish_event_accepted a b c w1 Hbus) as (w' & -> & Ht)
  end.
  by eexists.
Qed.

Lemma publish_status_event_down (mid cid : value) (step status : string)
    (details : option dict) (w : world) :
  bus_is_down C →
  ∃ e w', publish_status_event mid cid step status details w = (Raise e, w') ∧
          library_error e ∧ table w' = table w.
Proof.
  intros Hbus. unfold publish_status_event. cbn.
  match goal with
  | |- context [publish_event ?a ?b ?c ?w1] =>
      destruct (publish_event_down a b c w1 Hbus) as (e & w' & -> & He & Ht)
  end.
  by eexists _, _.
Qed.

Lemma publish_success_event_accepted (mid cid : value) (details : option dict) (w : world) :
  bus_accepts C →
  ∃ w', publish_success_event mid cid details w = (Ok (VStr "evt-1"), w') ∧
        table w' = table w.
Proof.
  intros Hbus. unfold publish_success_event. cbn.
  match goal with
  | |- context [publish_event ?a ?b ?c ?w1] =>
      destruct (publish_event_accepted a b c w1 Hbus) as (w' & -> & Ht)
  end.
  by eexists.
Qed.

Lemma publish_success_event_down (mid cid : value) (details : option dict) (w : world) :
  bus_is_down C →
  ∃ e w', publish_success_event mid cid details w = (Raise e, w') ∧
          library_error e ∧ table w' = table w.
Proof.
  intros Hbus. unfold publish_success_event. cbn.
  match goal with
  | |- context [publish_event ?a ?b ?c ?w1] =>
      destruct (publish_event_down a b c w1 Hbus) as (e & w' & -> & He & Ht)
  end.
  by eexists _, _.
Qed.
End Proofs.
Lemma publish_event_outcome_witness :
  let c := put_events_call (C := healthy 0) "MigrationRequested" (VDict ∅) "migration.ingress" in
  respond (Collaborators := healthy 0) (calls empty_world) c = Ok (VDict accepted_answer) ∧
  dict_get_or accepted_answer "FailedEntryCount" (VInt 0) = VInt 0 ∧
  accepted_answer !! "Entries" = Some (VList [VDict {[ "EventId" := VStr "evt-1" ]}]) ∧
  ({[ "EventId" := VStr "evt-1" ]} : dict) !! "EventId" = Some (VStr "evt-1") ∧
  publish_event (C := healthy 0) "MigrationRequested" (VDict ∅) "migration.ingress" empty_world
    = (Ok (VStr "evt-1"), add_call c empty_world).
Proof.
  cbn zeta.
  assert (respond (Collaborators := healthy 0) (calls empty_world)
            (put_events_call (C := healthy 0) "MigrationRequested" (VDict ∅) "migration.ingress")
          = Ok (VDict accepted_answer)) as Hr by (vm_compute; reflexivity).
  assert (dict_get_or accepted_answer "FailedEntryCount" (VInt 0) = VInt 0) as Hn
    by (vm_compute; reflexivity).
  assert (accepted_answer !! "Entries" = Some (VList [VDict {[ "EventId" := VStr "evt-1" ]}]))
    as He by (vm_compute; reflexivity).
  assert (({[ "EventId" := VStr "evt-1" ]} : dict) !! "EventId" = Some (VStr "evt-1")) as Hid
    by (vm_compute; reflexivity).
  split; [exact Hr|]. split; [exact Hn|]. split; [exact He|]. split; [exact Hid|].
  exact (publish_event_outcome (C := healthy 0) "MigrationRequested" (VDict ∅)
           "migration.ingress" empty_world accepted_answer _ [] _ 0 Hr Hn He Hid).
Defined.

(** Details that carry a status of their own. *)
Definition clashing_details : dict := {[ "status" := VStr "DEGRADED" ]}.

Lemma status_event_details_override_witness :
  clashing_details ≠ ∅ ∧
  ∃ sent : dict,
    calls (publish_status_event (C := quiet) (VStr "mig-1") (VStr "mig-0a1b2c3d")
             "verify_migration" "SUCCESS" (Some clashing_details) empty_world).2 =
      (calls empty_world
         ++ [Call "datetime" "utcnow" [];
             put_events_call (C := quiet) "MigrationStatusUpdated" (VDict sent)
               default_source])%list ∧
    (∀ k v, clashing_details !! k = Some v → sent !! k = Some v) ∧
    (∀ k, clashing_details !! k = None →
       sent !! k = status_fields (VStr "mig-1") (VStr "mig-0a1b2c3d") "verify_migration"
                     "SUCCESS" (VStr (utcnow_isoformat (Collaborators := quiet)
                                        (calls empty_world))) !! k).
Proof.
  assert (clashing_details ≠ ∅) as Hd.
  { intros Heq. apply (f_equal (λ d : dict, d !! "status")) in Heq. vm_compute in Heq.
    discriminate. }
  split; [exact Hd|].
  exact (status_event_details_override (C := quiet) (VStr "mig-1") (VStr "mig-0a1b2c3d")
           "verify_migration" "SUCCESS" clashing_details empty_world Hd).
Defined.
Lemma healthy_bus_accepts (lag : Z) : bus_accepts (healthy lag).
Proof. intros h c Hs. cbn. unfold healthy_answer. by rewrite Hs. Qed.

Lemma bus_outage_is_down : bus_is_down (outage "events").
Proof. intros h c Hs. cbn. rewrite Hs. by eexists. Qed.

Lemma launching_bus_accepts : bus_accepts launching.
Proof. intros h c Hs. cbn. unfold launching_answer, healthy_answer. by rewrite Hs. Qed.
End EventbridgeHelperFacts.

(** ** Source preparation and event re-delivery *)
Module PrepareSourceSpec.
Import Errors Correlation DynamodbHelper EventbridgeHelper PrepareSource.

(** Position of a status in the forward path of the state machine. *)
Definition status_rank (s : string) : option nat :=
  if String.eqb s "PENDING" then Some 0%nat
  else if String.eqb s "VALIDATED" then Some 1%nat
  else if String.eqb s "SOURCE_PREPARED" then Some 2%nat
  else if String.eqb s "MIGRATION_IN_PROGRESS" then Some 3%nat
  else if String.eqb s "VERIFIED" then Some 4%nat
  else if String.eqb s "VERIFICATION_FAILED" then Some 4%nat
  else if String.eqb s "COMPLETED" then Some 5%nat
  else None.

(** [status] is at or beyond [target]. *)
Definition at_or_beyond (status target : string) : bool :=
  match status_rank status, status_rank target with
  | Some a, Some b => (b <=? a)%nat
  | _, _ => false
  end.

Section Proofs.
Context `{C : Collaborators}.

Lemma keeps_prepare_azure_source (payload : value) :
  keeps_table (prepare_azure_source payload).
Proof. unfold prepare_azure_source. keeps. Qed.

Lemma keeps_prepare_source_with_mgn (payload : value) :
  keeps_table (prepare_source_with_mgn payload).
Proof. unfold prepare_source_with_mgn. keeps. Qed.

Lemma keeps_check_required (payload : value) (fields : list string) :
  keeps_table (check_required payload fields).
Proof. induction fields as [|f fields IH]; cbn [check_required]; keeps. Qed.

Lemma keeps_validate_source_readiness (payload : value) :
  keeps_table (validate_source_readiness payload).
Proof. unfold validate_source_readiness. keeps; apply keeps_check_required. Qed.

Lemma keeps_on_preparation_error (detail : value) (cid : option value) (e : exn) :
  keeps_table (on_preparation_error detail cid e).
Proof. unfold on_preparation_error. keeps. Qed.

Lemma keeps_prepare_unexpected_error (e : exn) : keeps_table (on_unexpected_error e).
Proof. unfold on_unexpected_error. keeps. Qed.

(** A payload with both required fields filled passes the readiness check. *)
Lemma validate_source_readiness_ok (detail : dict) (vm src : value) (w : world) :
  detail !! "sourceVmId" = Some vm → truthy vm = true →
  detail !! "source" = Some src → truthy src = true →
  ∃ w1, validate_source_readiness (VDict detail) w = (Ok true, w1) ∧ table w1 = table w.
Proof.
  intros Hvm Hvmt Hsrc Hsrct. unfold validate_source_readiness. run. eauto.
Qed.

Lemma prepare_azure_source_ok (detail : dict) (vm : value) (w : world) :
  detail !! "sourceVmId" = Some vm → truthy vm = true →
  ∃ r w1, prepare_azure_source (VDict detail) w = (Ok r, w1) ∧ table w1 = table w ∧
          r !! "vmId" = Some vm.
Proof.
  intros Hvm Hvmt. unfold prepare_azure_source. run.
  eexists _, _. split; [reflexivity|]. split; [done|]. by read_map.
Qed.

(** C2, as amended.  [prepare_source] never reads the stored status: for
    every stored record, a delivered event whose payload passes the
    readiness check with an Azure source sets the stored status to
    [SOURCE_PREPARED] and stores the preparation result as the record's
    [executionDetails], also when the record had already reached a later
    status.  The write comes before the status event is published: when
    the bus accepts the event the handler answers 200 with the status
    [SOURCE_PREPARED] and the preparation result, and when the bus call
    fails it answers the generic 500, the record having been rewritten all
    the same. *)
Theorem prepare_source_rewrites_status
    (event detail : dict) (mid : string) (vm : value) (w : world) :
  event !! "detail" = Some (VDict detail) →
  dict_if_present event "headers" →
  detail !! "migrationId" = Some (VStr mid) →
  mid ≠ "" →
  detail !! "sourceVmId" = Some vm →
  truthy vm = true →
  detail !! "source" = Some (VStr "azure") →
  let run := lambda_handler event w in
  ∃ r : dict,
    r !! "vmId" = Some vm ∧
    stored run.2 mid "status" = Some (VStr "SOURCE_PREPARED") ∧
    stored run.2 mid "executionDetails" =
      Some (VDict {[ "sourcePreparation" := VDict r ]}) ∧
    (∀ other, other ≠ mid → table run.2 !! other = table w !! other) ∧
    (EventbridgeHelperFacts.bus_accepts C →
       run.1 = Ok (response 200 (VDict (<["migrationId" := VStr mid]> (
                                        <["status" := VStr "SOURCE_PREPARED"]> (
                                        <["details" := VDict r]> ∅)))))) ∧
    (EventbridgeHelperFacts.bus_is_down C →
       run.1 = Ok (response 500 (VDict {[ "error" := VStr "Source preparation failed" ]}))).
Proof.
  intros Hdetail Hheaders Hmid Hne Hvm Hvmt Hsrc. cbn zeta.
  destruct (CorrelationSpec.extract_total event w) as (cid & w1 & Hex).
  { unfold dict_if_present. by rewrite Hdetail. }
  { done. }
  assert (table w1 = table w) as Hw1.
  { pose proof (keeps_extract_correlation_id (VDict event) w) as Hk.
    by rewrite Hex in Hk. }
  unfold lambda_handler. run. rewrite Hex. run.
  edestruct validate_source_readiness_ok as (w2 & -> & Hw2); [done..|]. run.
  edestruct prepare_azure_source_ok as (r & w3 & -> & Hw3 & Hr); [done..|]. run.
  rewrite DynamodbHelperSpec.update_migration_status_run by done. run.
  rewrite map_size_singleton. cbn [Nat.eqb negb].
  exists r. split; [done|].
  match goal with |- context [publish_status_event ?a ?b ?c ?d ?e ?w'] =>
    pose proof (keeps_publish_status_event a b c d e w') as Hpub;
    pose proof (EventbridgeHelperFacts.publish_status_event_accepted a b c d e w') as Hacc;
    pose proof (EventbridgeHelperFacts.publish_status_event_down a b c d e w') as Hdown;
    destruct (publish_status_event a b c d e w') as [[x|e'] w4]
  end; cbn [snd] in Hpub.
  - cbn [fst snd]. unfold stored. rewrite Hpub. cbn [table set_table add_log].
    rewrite Hw3, Hw2. cbn [table add_log]. rewrite Hw1.
    rewrite lookup_insert_eq. cbn [mbind option_bind].
    split_and!; [by read_map | by read_map | | done |].
    + intros other Ho. by rewrite lookup_insert_ne.
    + intros Hbus. by destruct (Hdown Hbus) as (e & w' & [=] & _).
  - unfold stored.
    assert (table ((if is_class SourcePreparationErrorC e'
                    then on_preparation_error (VDict detail) (Some cid) e'
                    else on_unexpected_error e') w4).2 = table w4) as ->.
    { destruct (is_class _ e');
        [apply keeps_on_preparation_error | apply keeps_prepare_unexpected_error]. }
    rewrite Hpub. cbn [table set_table add_log].
    rewrite Hw3, Hw2. cbn [table add_log]. rewrite Hw1.
    rewrite lookup_insert_eq. cbn [mbind option_bind].
    split_and!; [by read_map | by read_map | | |].
    + intros other Ho. by rewrite lookup_insert_ne.
    + intros Hbus. by destruct (Hacc Hbus) as (w' & [=] & _).
    + intros Hbus. destruct (Hdown Hbus) as (e & w' & [= <- <-] & He & _).
      destruct e' as [cl msg code det|cl msg]; [done|]. reflexivity.
Qed.
End Proofs.

(** A migration that is already verified, and the event that triggered its
    source preparation, delivered again. *)
Definition verified_record : dict :=
  {[ "migrationId" := VStr "mig-1"; "status" := VStr "VERIFIED";
     "executionDetails" := VDict {[ "health" := VDict {[ "healthStatus" := VStr "HEALTHY" ]} ]} ]}.

Definition verified_world : world := World {[ "mig-1" := verified_record ]} [] [].

Definition replayed_event : dict :=
  {[ "detail" := VDict {[ "migrationId" := VStr "mig-1"; "sourceVmId" := VStr "vm-1";
                          "source" := VStr "azure"; "correlation_id" := VStr "mig-0000abcd" ]} ]}.

Definition replayed_detail : dict :=
  {[ "migrationId" := VStr "mig-1"; "sourceVmId" := VStr "vm-1";
     "source" := VStr "azure"; "correlation_id" := VStr "mig-0000abcd" ]}.

Lemma prepare_source_rewrites_status_witness :
  (let run := lambda_handler (C := healthy 0) replayed_event verified_world in
   ∃ r : dict,
     r !! "vmId" = Some (VStr "vm-1") ∧
     stored run.2 "mig-1" "status" = Some (VStr "SOURCE_PREPARED") ∧
     stored run.2 "mig-1" "executionDetails" =
       Some (VDict {[ "sourcePreparation" := VDict r ]}) ∧
     run.1 = Ok (response 200 (VDict (<["migrationId" := VStr "mig-1"]> (
                                      <["status" := VStr "SOURCE_PREPARED"]> (
                                      <["details" := VDict r]> ∅)))))) ∧
  (let run := lambda_handler (C := outage "events") replayed_event verified_world in
   stored run.2 "mig-1" "status" = Some (VStr "SOURCE_PREPARED") ∧
   run.1 = Ok (response 500 (VDict {[ "error" := VStr "Source preparation failed" ]}))).
Proof.
  split.
  - destruct (prepare_source_rewrites_status (C := healthy 0) replayed_event
                replayed_detail "mig-1" (VStr "vm-1") verified_world)
      as (r & Hr & Hs & Hd & _ & Hok & _);
      [reflexivity | exact I | reflexivity | discriminate | reflexivity | reflexivity
      | reflexivity |].
    exists r. split; [exact Hr|]. split; [exact Hs|]. split; [exact Hd|].
    exact (Hok (EventbridgeHelperFacts.healthy_bus_accepts 0)).
  - destruct (prepare_source_rewrites_status (C := outage "events") replayed_event
                replayed_detail "mig-1" (VStr "vm-1") verified_world)
      as (r & _ & Hs & _ & _ & _ & Hdown);
      [reflexivity | exact I | reflexivity | discriminate | reflexivity | reflexivity
      | reflexivity |].
    split; [exact Hs|]. exact (Hdown EventbridgeHelperFacts.bus_outage_is_down).
Defined.

(** C2, as stated, fails: the record below is [VERIFIED], the replayed event
    is handled with a success response, and the stored status is then
    [SOURCE_PREPARED], an earlier state. *)
Lemma replayed_event_regresses_status :
  let run := lambda_handler (C := healthy 0) replayed_event verified_world in
  stored verified_world "mig-1" "status" = Some (VStr "VERIFIED") ∧
  at_or_beyond "VERIFIED" "SOURCE_PREPARED" = true ∧
  result_field run.1 "statusCode" = Some (VInt 200) ∧
  body_field run.1 "status" = Some (VStr "SOURCE_PREPARED") ∧
  stored run.2 "mig-1" "status" = Some (VStr "SOURCE_PREPARED") ∧
  at_or_beyond "SOURCE_PREPARED" "VERIFIED" = false.
Proof. vm_compute. done. Qed.
End PrepareSourceSpec.

(** ** Ingress batches *)
Module IngressSpec.
Import Errors Correlation EventbridgeHelper IngressHandler.

(** The [messageId] an entry of the report, or a record, is tagged with. *)
Definition message_id (v : value) : value :=
  match v with
  | VDict d => dict_get d "messageId"
  | _ => VNone
  end.

(** An SQS record: a dict that carries a [messageId]. *)
Definition carries_message_id (record : value) : Prop :=
  ∃ (d : dict) (m : value), record = VDict d ∧ d !! "messageId" = Some m.

(** The record's body parses and the schema accepts, respectively rejects,
    the parsed message. *)
Definition conforms `{C : Collaborators} (record : value) : Prop :=
  ∃ (d : dict) (raw : string) (v : value),
    record = VDict d ∧ d !! "body" = Some (VStr raw) ∧
    json_loads raw = Ok v ∧ schema_validate v = None.

Definition fails_validation `{C : Collaborators} (record : value) : Prop :=
  ∃ (d : dict) (raw : string) (v : value) (violation : string * string),
    record = VDict d ∧ d !! "body" = Some (VStr raw) ∧
    json_loads raw = Ok v ∧ schema_validate v = Some violation.

(** The entries whose verdict is [b], in the order of the batch. *)
Definition picked (b : bool) (verdicts : list bool) (entries : list value) : list value :=
  (List.filter (λ p : bool * value, Bool.eqb p.1 b) (zip verdicts entries)).*2.

Lemma picked_cons (b v : bool) (verdicts : list bool) (e : value) (entries : list value) :
  picked b (v :: verdicts) (e :: entries) =
    ((if Bool.eqb v b then [e] else []) ++ picked b verdicts entries)%list.
Proof. unfold picked. cbn. by destruct (Bool.eqb v b). Qed.

Lemma picked_lengths (verdicts : list bool) (entries : list value) :
  length verdicts = length entries →
  (length (picked true verdicts entries) + length (picked false verdicts entries))%nat
    = length entries.
Proof.
  revert entries. induction verdicts as [|v verdicts IH]; intros [|e entries] Hlen;
    try done.
  rewrite !picked_cons, !length_app. cbn in Hlen.
  specialize (IH entries ltac:(lia)). destruct v; cbn; lia.
Qed.

(** The record's body parses to a dict whose [detail] and [headers], when
    present, are dicts: a correlation identifier can be read from the
    message and written into it. *)
Definition parses_to `{C : Collaborators} (record : value) (b : dict) : Prop :=
  ∃ (d : dict) (raw : string),
    record = VDict d ∧ d !! "body" = Some (VStr raw) ∧ json_loads raw = Ok (VDict b) ∧
    dict_if_present b "detail" ∧ dict_if_present b "headers".

(** The entries of the report. *)
Definition successful_entry (m event_id migration_id : value) : value :=
  VDict {[ "messageId" := m; "eventId" := event_id; "migrationId" := migration_id ]}.

Definition failed_entry (m error : value) : value :=
  VDict {[ "messageId" := m; "error" := error ]}.

(** The error [validate_message] raises for a violation of the schema. *)
Definition schema_error (path msg : string) : exn :=
  ValidationError ("Invalid migration payload: " +:+ msg)
    (Some {[ "path" := VStr path; "message" := VStr msg ]}).

(** The event published for a message: the message itself, with the
    correlation identifier written into its [detail]. *)
Definition published `{C : Collaborators} (b : dict) (cid : value) : call :=
  EventbridgeHelperFacts.put_events_call "MigrationRequested"
    (VDict (<["detail" := VDict (<["correlation_id" := cid]>
                                   match b !! "detail" with
                                   | Some (VDict d) => d
                                   | _ => ∅
                                   end)]> b))
    "migration.ingress".

(** A computation only adds to the history of calls. *)
Definition grows {A} (m : M A) : Prop := ∀ w, calls w `prefix_of` calls (m w).2.

Lemma calls_ignores_log : ignores_log calls.
Proof. done. Qed.
Lemma calls_ignores_table : ignores_table calls.
Proof. done. Qed.

Section Proofs.
Context `{C : Collaborators}.
#[local] Hint Resolve calls_ignores_log calls_ignores_table : frame.

Lemma grows_preserves {A} (m : M A) : preserves calls m → grows m.
Proof. intros Hm w. by rewrite Hm. Qed.

Lemma grows_bind {A B} (m : M A) (k : A → M B) :
  grows m → (∀ a, grows (k a)) → grows (bind m k).
Proof.
  intros Hm Hk w. unfold bind. specialize (Hm w).
  destruct (m w) as [[a|e] w1]; cbn in *; [|done].
  etrans; [exact Hm | apply Hk].
Qed.

Lemma grows_try_except {A} (m : M A) (h : exn → M A) :
  grows m → (∀ e, grows (h e)) → grows (try_except m h).
Proof.
  intros Hm Hh w. unfold try_except. specialize (Hm w).
  destruct (m w) as [[a|e] w1]; cbn in *; [done|].
  etrans; [exact Hm | apply Hh].
Qed.

Lemma grows_ext (svc op : string) (a : list value) : grows (ext svc op a).
Proof. intros w. by apply prefix_app_r. Qed.

Lemma grows_extract_correlation_id (event : value) : grows (extract_correlation_id event).
Proof.
  unfold extract_correlation_id, generate_correlation_id.
  repeat first [ apply grows_bind; [|intros ?]
               | apply grows_preserves; solve [keeps]
               | match goal with |- grows (if ?b then _ else _) => destruct b end ].
  intros w. by apply prefix_app_r.
Qed.

Lemma grows_publish_event (detail_type : string) (detail : value) (source : string) :
  grows (publish_event detail_type detail source).
Proof.
  intros w. rewrite EventbridgeHelperFacts.publish_event_calls. by apply prefix_app_r.
Qed.

(** Processing a record only adds calls: what was published for an
    earlier record stays published. *)
Lemma grows_process_record (record : value) (results : list value * list value) :
  grows (process_record record results).
Proof.
  unfold process_record, validate_message.
  repeat first [ apply grows_extract_correlation_id
               | apply grows_publish_event
               | apply grows_try_except; [|intros ?]
               | apply grows_bind; [|intros ?]
               | apply grows_preserves; solve [keeps]
               | match goal with
                 | |- grows (if ?b then _ else _) => destruct b
                 | |- grows (match ?x with _ => _ end) => destruct x
                 end ].
Qed.

Lemma grows_process_records (records : list value) (results : list value * list value) :
  grows (process_records records results).
Proof.
  revert results. induction records as [|r records IH]; intros results.
  - by intros w.
  - cbn [process_records]. apply grows_bind; [apply grows_process_record | intros ?; apply IH].
Qed.

Lemma conforms_not_fails (record : value) :
  conforms record → fails_validation record → False.
Proof.
  intros (d & raw & v & -> & Hb & Hl & Hs) (d' & raw' & v' & viol & [= <-] & Hb' & Hl' & Hs').
  congruence.
Qed.

Lemma subscript_returns (x v : value) (k : string) (w w' : world) :
  subscript x k w = (Ok v, w') → ∃ d, x = VDict d ∧ d !! k = Some v ∧ w' = w.
Proof.
  destruct x as [| | | | |d]; try discriminate. cbn.
  destruct (d !! k) eqn:Hk; cbn; [|discriminate]. intros [= -> ->]. eauto.
Qed.

Lemma loads_returns (x v : value) (w w' : world) :
  loads x w = (Ok v, w') → ∃ s, x = VStr s ∧ json_loads s = Ok v.
Proof.
  destruct x as [| | |s| |]; try discriminate. cbn. intros [= Hl _]. eauto.
Qed.

Lemma validate_message_returns (v : value) (w w' : world) :
  validate_message v w = (Ok tt, w') → schema_validate v = None.
Proof.
  unfold validate_message. destruct (schema_validate v) as [[p m]|]; [discriminate | done].
Qed.

(** A message the schema rejects is filed under [failed], with the
    [ValidationError] of the violation. *)
Lemma process_record_rejected (d b : dict) (m : value) (path msg : string)
    (results : list value * list value) (w : world) :
  d !! "messageId" = Some m →
  parses_to (VDict d) b →
  schema_validate (VDict b) = Some (path, msg) →
  ∃ w', process_record (VDict d) results w =
          (Ok (results.1,
               (results.2 ++ [failed_entry m (VDict (to_dict (schema_error path msg)))])%list),
           w').
Proof.
  intros Hm (d' & raw & [= <-] & Hbody & Hloads & Hdet & Hhdr) Hschema.
  destruct (CorrelationSpec.extract_total b w Hdet Hhdr) as (cid & w1 & Hex).
  unfold process_record, validate_message, try_except. cbn. rewrite Hbody. cbn.
  rewrite Hloads. cbn. rewrite Hex. cbn. rewrite Hschema. cbn. rewrite Hm. cbn.
  eexists. reflexivity.
Qed.

(** A message the schema accepts is published and, when the bus takes the
    event, filed under [successful] with the event's identifier. *)
Lemma process_record_accepted (d b : dict) (m : value)
    (results : list value * list value) (w : world) :
  EventbridgeHelperFacts.bus_accepts C →
  d !! "messageId" = Some m →
  parses_to (VDict d) b →
  schema_validate (VDict b) = None →
  ∃ cid w', process_record (VDict d) results w =
              (Ok ((results.1 ++ [successful_entry m (VStr "evt-1")
                                    (dict_get b "migrationId")])%list,
                   results.2), w') ∧
            published b cid ∈ calls w'.
Proof.
  intros Hbus Hm (d' & raw & [= <-] & Hbody & Hloads & Hdet & Hhdr) Hschema.
  destruct (CorrelationSpec.extract_total b w Hdet Hhdr) as (cid & w1 & Hex).
  exists cid.
  unfold process_record, validate_message, try_except. cbn. rewrite Hbody. cbn.
  rewrite Hloads. cbn. rewrite Hex. cbn. rewrite Hschema. cbn.
  rewrite (CorrelationSpec.inject_dict b cid _ Hdet). cbn.
  match goal with |- context [publish_event ?a ?x ?c ?w2] =>
    pose proof (EventbridgeHelperFacts.publish_event_calls a x c w2) as Hcalls;
    destruct (EventbridgeHelperFacts.publish_event_accepted a x c w2 Hbus) as (w3 & Hpub & _);
    rewrite Hpub in Hcalls |- *
  end.
  cbn in Hcalls |- *. rewrite Hm. cbn.
  eexists. split.
  - unfold successful_entry, dict_get. by rewrite lookup_insert_ne.
  - cbn. rewrite Hcalls. apply elem_of_app. right. by apply list_elem_of_singleton.
Qed.

(** One record yields one entry, tagged with the record's [messageId]; it
    is added to [successful] only if the body parsed and conformed, and to
    [failed] otherwise, and no exception leaves the loop body. *)
Lemma process_record_reports (d : dict) (m : value)
    (results : list value * list value) (w : world) :
  d !! "messageId" = Some m →
  ∃ (ok : bool) (entry : value) (w' : world),
    process_record (VDict d) results w =
      (Ok ((results.1 ++ if ok then [entry] else [])%list,
           (results.2 ++ if ok then [] else [entry])%list), w') ∧
    message_id entry = m ∧
    (ok = true → conforms (VDict d)).
Proof.
  intros Hm. unfold process_record, try_except.
  match goal with |- context [match ?body w with _ => _ end] =>
    destruct (body w) as [[res|e] w1] eqn:Hbody
  end.
  - apply bind_returns in Hbody as (raw & wa & Hraw & Hbody).
    apply bind_returns in Hbody as (body & wb & Hloads & Hbody).
    apply bind_returns in Hbody as (cid & wc & _ & Hbody).
    apply bind_returns in Hbody as (mid0 & wd & _ & Hbody).
    apply bind_returns in Hbody as ([] & we & _ & Hbody).
    apply bind_returns in Hbody as ([] & wf & Hvalid & Hbody).
    apply bind_returns in Hbody as (body' & wg & _ & Hbody).
    apply bind_returns in Hbody as (event_id & wh & _ & Hbody).
    apply bind_returns in Hbody as (mid1 & wi & _ & Hbody).
    apply bind_returns in Hbody as ([] & wj & _ & Hbody).
    apply bind_returns in Hbody as (mid' & wk & Hmsg & Hbody).
    apply bind_returns in Hbody as (mid2 & wl & _ & Hbody).
    apply subscript_returns in Hraw as (d0 & [= <-] & Hraw & ->).
    apply loads_returns in Hloads as (s & -> & Hloads).
    apply validate_message_returns in Hvalid.
    apply subscript_returns in Hmsg as (d1 & [= <-] & Hmsg & ->).
    cbn in Hbody. injection Hbody as <- <-.
    exists true. eexists _, _. split; [by rewrite app_nil_r|].
    split.
    + cbn. unfold dict_get. rewrite lookup_insert_eq. cbn. congruence.
    + intros _. by exists d, s, body.
  - exists false.
    destruct (is_class ValidationErrorC e); cbn; rewrite Hm; cbn;
      (eexists _, _; split; [by rewrite app_nil_r|]);
      (split; [|done]); cbn; unfold dict_get; by rewrite lookup_insert_eq.
Qed.

(** What the report says of the record at one position of the batch. *)
Definition reported (verdict : option bool) (entry : option value) (r : value)
    (after : world) : Prop :=
  (∀ b path msg, parses_to r b → schema_validate (VDict b) = Some (path, msg) →
     entry = Some (failed_entry (message_id r) (VDict (to_dict (schema_error path msg))))) ∧
  (EventbridgeHelperFacts.bus_accepts C →
   ∀ b, parses_to r b → schema_validate (VDict b) = None →
     verdict = Some true ∧
     entry = Some (successful_entry (message_id r) (VStr "evt-1") (dict_get b "migrationId")) ∧
     ∃ cid, published b cid ∈ calls after).

(** The loop reports every record of the batch, in order. *)
Lemma process_records_reports (records : list value) :
  Forall carries_message_id records →
  ∀ (results : list value * list value) (w : world),
  ∃ (verdicts : list bool) (entries : list value) (w' : world),
    process_records records results w =
      (Ok ((results.1 ++ picked true verdicts entries)%list,
           (results.2 ++ picked false verdicts entries)%list), w') ∧
    length verdicts = length records ∧
    message_id <$> entries = message_id <$> records ∧
    (∀ i r, records !! i = Some r → verdicts !! i = Some true → conforms r) ∧
    (∀ i r, records !! i = Some r → reported (verdicts !! i) (entries !! i) r w').
Proof.
  induction 1 as [|record records (d & m & -> & Hm) _ IH]; intros results w.
  - exists [], [], w. cbn. rewrite !app_nil_r. by destruct results.
  - destruct (process_record_reports d m results w Hm) as (ok & entry & w1 & Hrun & Hid & Hok).
    destruct (IH ((results.1 ++ if ok then [entry] else [])%list,
                  (results.2 ++ if ok then [] else [entry])%list) w1)
      as (verdicts & entries & w' & Hrest & Hlen & Hids & Hconf & Hrep).
    assert (calls w1 `prefix_of` calls w') as Hgrow.
    { pose proof (grows_process_records records
                    ((results.1 ++ if ok then [entry] else [])%list,
                     (results.2 ++ if ok then [] else [entry])%list) w1) as Hg.
      by rewrite Hrest in Hg. }
    exists (ok :: verdicts), (entry :: entries), w'.
    split_and!.
    + cbn [process_records]. rewrite (bind_ok _ _ _ _ _ Hrun), Hrest.
      rewrite !picked_cons. cbn [fst snd]. destruct ok; cbn; by rewrite <- !app_assoc.
    + cbn. by rewrite Hlen.
    + cbn [fmap list_fmap]. rewrite Hid. cbn. unfold dict_get. rewrite Hm. cbn.
      f_equal. exact Hids.
    + intros [|i] r Hr Hv; cbn in Hr, Hv.
      * injection Hr as <-. injection Hv as ->. by apply Hok.
      * by eapply Hconf.
    + intros [|i] r Hr; cbn in Hr; [|by apply Hrep].
      injection Hr as <-. cbn [lookup list_lookup].
      assert (message_id (VDict d) = m) as Hmid by (cbn; unfold dict_get; by rewrite Hm).
      split.
      * intros b path msg Hb Hs.
        destruct (process_record_rejected d b m path msg results w Hm Hb Hs) as (w2 & Hrej).
        rewrite Hrej in Hrun. injection Hrun as H1 H2 _. rewrite Hmid.
        destruct ok.
        -- apply (f_equal length) in H1. rewrite !length_app in H1. cbn in H1. lia.
        -- apply app_inv_head in H2. by injection H2 as <-.
      * intros Hbus b Hb Hs.
        destruct (process_record_accepted d b m results w Hbus Hm Hb Hs)
          as (cid & w2 & Hacc & Hpub).
        rewrite Hacc in Hrun. injection Hrun as H1 H2 <-. rewrite Hmid.
        destruct ok.
        -- apply app_inv_head in H1. injection H1 as <-.
           split_and!; [done | done |]. exists cid.
           destruct Hgrow as (l & ->). apply elem_of_app. by left.
        -- apply (f_equal length) in H1. rewrite !length_app in H1. cbn in H1. lia.
Qed.

(** C5.  For every batch of records that carry a [messageId], the handler
    returns a 200 response whose body is the report: a dict with the two
    lists [successful] and [failed], which together hold exactly one entry
    per record, in the order of the batch and tagged with the record's
    [messageId].  No record stops the processing of the others, and what
    is reported of a record depends on that record alone: a message the
    schema rejects is filed under [failed] with the [ValidationError] of
    the violation; only a record whose body parsed and conformed is filed
    under [successful]; and when the bus accepts events, every message
    that conforms is published and filed under [successful] with its
    [messageId], the identifier of the event and its [migrationId]. *)
Theorem ingress_reports_every_message
    (event : dict) (records : list value) (w : world) :
  event !! "Records" = Some (VList records) →
  Forall carries_message_id records →
  ∃ (verdicts : list bool) (entries : list value) (w' : world),
    let successful := picked true verdicts entries in
    let failed := picked false verdicts entries in
    lambda_handler event w =
      (Ok (response 200
             (VStr (json_dumps (VDict {[ "successful" := VList successful;
                                         "failed" := VList failed ]})))), w') ∧
    length verdicts = length records ∧
    message_id <$> entries = message_id <$> records ∧
    (length successful + length failed)%nat = length records ∧
    (∀ i r, records !! i = Some r → fails_validation r → verdicts !! i = Some false) ∧
    (∀ i r, records !! i = Some r → verdicts !! i = Some true → conforms r) ∧
    (∀ i r b path msg,
       records !! i = Some r → parses_to r b →
       schema_validate (VDict b) = Some (path, msg) →
       entries !! i =
         Some (failed_entry (message_id r) (VDict (to_dict (schema_error path msg))))) ∧
    (EventbridgeHelperFacts.bus_accepts C →
     ∀ i r b,
       records !! i = Some r → parses_to r b → schema_validate (VDict b) = None →
       verdicts !! i = Some true ∧
       entries !! i =
         Some (successful_entry (message_id r) (VStr "evt-1") (dict_get b "migrationId")) ∧
       ∃ cid, published b cid ∈ calls w').
Proof.
  intros Hrecords Hids.
  destruct (process_records_reports records Hids ([], [])
              (add_log ("INFO", "Ingress handler started") w))
    as (verdicts & entries & w' & Hrun & Hlen & Hmsg & Hconf & Hrep).
  exists verdicts, entries. eexists. cbn zeta.
  assert (length entries = length records) as Hlen'.
  { by rewrite <- (length_fmap message_id entries), Hmsg, length_fmap. }
  split_and!; [| done | done | | | done | |].
  - unfold lambda_handler. run. rewrite Hrun. cbn. reflexivity.
  - rewrite picked_lengths; [done | congruence].
  - intros i r Hr Hfail.
    assert (is_Some (verdicts !! i)) as [v Hv].
    { apply lookup_lt_is_Some. rewrite Hlen. by eapply lookup_lt_Some. }
    destruct v; [|done]. exfalso. eapply conforms_not_fails; [|exact Hfail].
    by eapply Hconf.
  - intros i r b path msg Hr Hb Hs. destruct (Hrep i r Hr) as [Hrej _]. by eapply Hrej.
  - intros Hbus i r b Hr Hb Hs.
    destruct (Hrep i r Hr) as [_ Hacc].
    destruct (Hacc Hbus b Hb Hs) as (Hv & He & cid & Hpub).
    split_and!; [done | done |]. exists cid. exact Hpub.
Qed.
End Proofs.

(** Modelled from the spec: the schema file [schemas/migration_payload.json]
    is missing.  The fixed payload schema has the "required fields:
    migrationId, appName, source, target, environment, wave". *)
Definition required_fields : list string :=
  ["migrationId"; "appName"; "source"; "target"; "environment"; "wave"].

Definition payload_schema (v : value) : option (string * string) :=
  match v with
  | VDict d =>
      match List.find (λ f, negb (bool_decide (is_Some (d !! f)))) required_fields with
      | Some f => Some ("deque([])", "'" +:+ f +:+ "' is a required property")
      | None => None
      end
  | _ => Some ("deque([])", "instance is not of type 'object'")
  end.

(** Two raw messages: a complete request, and one without [source]. *)
Definition complete_body : string :=
  "{migrationId: mig-1, appName: x, source: azure, target: aws, environment: prod, wave: w1}".
Definition incomplete_body : string :=
  "{migrationId: mig-2, appName: y, target: aws, environment: prod, wave: w1}".

Definition complete_message : dict :=
  {[ "migrationId" := VStr "mig-1"; "appName" := VStr "x"; "source" := VStr "azure";
     "target" := VStr "aws"; "environment" := VStr "prod"; "wave" := VStr "w1" ]}.
Definition incomplete_message : dict :=
  {[ "migrationId" := VStr "mig-2"; "appName" := VStr "y";
     "target" := VStr "aws"; "environment" := VStr "prod"; "wave" := VStr "w1" ]}.

(** A rendering of JSON-shaped values, for the body of the response. *)
Fixpoint render (v : value) : string :=
  match v with
  | VNone => "null"
  | VBool true => "true"
  | VBool false => "false"
  | VInt z => stdpp.pretty.pretty z
  | VStr s => "'" +:+ s +:+ "'"
  | VList l => "[" +:+ fold_right (λ x acc, render x +:+ "," +:+ acc) "" l +:+ "]"
  | VDict d =>
      "{" +:+ map_fold (λ k x acc, "'" +:+ k +:+ "':" +:+ render x +:+ "," +:+ acc) "" d +:+ "}"
  end.

(** Collaborators for the batch: the parser knows the two messages, the
    schema is the one of the spec, the bus accepts every event. *)
Definition ingress_day : Collaborators := {|
  respond := λ _, healthy_answer 0;
  utcnow_isoformat := λ _, "2024-01-01T00:00:00";
  uuid4_hex8 := λ _, "0a1b2c3d";
  time_time := λ _, 1704067200;
  utcnow_millis := λ _, 1704067200000;
  environ := ∅;
  json_loads := λ s,
    if String.eqb s complete_body then Ok (VDict complete_message)
    else if String.eqb s incomplete_body then Ok (VDict incomplete_message)
    else Raise (PyErr ExceptionC "JSONDecodeError");
  json_dumps := render;
  schema_validate := payload_schema;
  py_repr := render;
|}.

Definition complete_record : dict :=
  {[ "messageId" := VStr "msg-1"; "body" := VStr complete_body ]}.
Definition incomplete_record : dict :=
  {[ "messageId" := VStr "msg-2"; "body" := VStr incomplete_body ]}.

Definition batch : list value := [VDict complete_record; VDict incomplete_record].

Definition batch_event : dict := {[ "Records" := VList batch ]}.

Lemma batch_carries_message_ids : Forall carries_message_id batch.
Proof.
  repeat constructor.
  - by exists complete_record, (VStr "msg-1").
  - by exists incomplete_record, (VStr "msg-2").
Qed.

Lemma ingress_day_bus_accepts : EventbridgeHelperFacts.bus_accepts ingress_day.
Proof. intros h c Hs. cbn. unfold healthy_answer. by rewrite Hs. Qed.

Lemma complete_record_parses :
  parses_to (C := ingress_day) (VDict complete_record) complete_message.
Proof.
  exists complete_record, complete_body.
  split_and!; [reflexivity | reflexivity | reflexivity | by vm_compute | by vm_compute].
Qed.

Lemma incomplete_record_parses :
  parses_to (C := ingress_day) (VDict incomplete_record) incomplete_message.
Proof.
  exists incomplete_record, incomplete_body.
  split_and!; [reflexivity | reflexivity | reflexivity | by vm_compute | by vm_compute].
Qed.

(** The scenario of one complete message and one without [source]: one
    entry under [successful], one under [failed], each tagged with its
    [messageId], and the complete message is on the bus. *)
Lemma ingress_reports_every_message_witness :
  ∃ w' : world,
    lambda_handler (C := ingress_day) batch_event empty_world =
      (Ok (response 200
             (VStr (render
                (VDict {[ "successful" :=
                            VList [successful_entry (VStr "msg-1") (VStr "evt-1")
                                     (VStr "mig-1")];
                          "failed" :=
                            VList [failed_entry (VStr "msg-2")
                                     (VDict (to_dict (schema_error "deque([])"
                                        "'source' is a required property")))] ]})))),
       w') ∧
    ∃ cid, published (C := ingress_day) complete_message cid ∈ calls w'.
Proof.
  destruct (ingress_reports_every_message (C := ingress_day) batch_event batch empty_world)
    as (verdicts & entries & w' & Hrun & Hlen & Hids & _ & Hfail & _ & Hrej & Hacc);
    [reflexivity | exact batch_carries_message_ids |].
  assert (verdicts !! 1%nat = Some false) as Hv1.
  { apply (Hfail 1%nat (VDict incomplete_record)); [reflexivity|].
    exists incomplete_record, incomplete_body, (VDict incomplete_message),
           ("deque([])", "'source' is a required property").
    split_and!; reflexivity. }
  destruct (Hacc ingress_day_bus_accepts 0%nat (VDict complete_record) complete_message
              eq_refl complete_record_parses eq_refl) as (Hv0 & He0 & cid & Hpub).
  pose proof (Hrej 1%nat (VDict incomplete_record) incomplete_message
                "deque([])" "'source' is a required property"
                eq_refl incomplete_record_parses eq_refl) as He1.
  assert (length entries = 2%nat) as Hlen'.
  { by rewrite <- (length_fmap message_id entries), Hids. }
  destruct verdicts as [|v0 [|v1 [|? ?]]]; try discriminate Hlen.
  destruct entries as [|e0 [|e1 [|? ?]]]; try discriminate Hlen'.
  cbn in Hv0, Hv1, He0, He1.
  injection Hv0 as ->. injection Hv1 as ->. injection He0 as ->. injection He1 as ->.
  exists w'. split; [exact Hrun | by exists cid].
Defined.
End IngressSpec.

(** ** Input validation *)
Module ValidateInputSpec.
Import Errors Correlation DynamodbHelper EventbridgeHelper ValidateInput.
Import EventbridgeHelperFacts.

(** The payload holds a string at the field. *)
Definition text_at (d : dict) (field : string) : Prop := ∃ s, d !! field = Some (VStr s).

(** The names of the required fields, in the order they are checked. *)
Definition required_names : list string := required_fields.*1.

(** The error raised for a field that is absent, and for one that holds
    something else than a string. *)
Definition missing (field : string) : exn :=
  ValidationError ("Missing required field: " +:+ field) (Some {[ "field" := VStr field ]}).
Definition mistyped (field : string) : exn :=
  ValidationError ("Invalid type for field " +:+ field)
    (Some (<["field" := VStr field]> (<["expected" := VStr "string"]> ∅))).

(** The check stopped at [field], the fields before it being fine. *)
Definition rejected_at (d : dict) (names : list string) (e : exn) : Prop :=
  ∃ before field after,
    names = (before ++ field :: after)%list ∧
    Forall (text_at d) before ∧
    ((d !! field = None ∧ e = missing field) ∨
     (∃ v, d !! field = Some v ∧ (∀ s, v ≠ VStr s) ∧ e = mistyped field)).

(** The answer to a validated request. *)
Definition validated (mid : string) : value :=
  response 200 (VDict (<["migrationId" := VStr mid]> (<["status" := VStr "VALIDATED"]> ∅))).

Section Proofs.
Context `{C : Collaborators}.

Lemma check_fields_verdict (d : dict) (names : list string) (w : world) :
  (check_fields (VDict d) ((λ n, (n, "string")) <$> names) w).2 = w ∧
  match (check_fields (VDict d) ((λ n, (n, "string")) <$> names) w).1 with
  | Ok _ => Forall (text_at d) names
  | Raise e => rejected_at d names e
  end.
Proof.
  induction names as [|n names IH];
    [unfold check_fields; cbn; split; [done | constructor]|].
  rewrite fmap_cons. unfold check_fields; fold check_fields. cbn.
  destruct (d !! n) as [v|] eqn:Hn.
  - rewrite bool_decide_eq_true_2 by eauto. cbn.
    destruct v as [| | |s| |];
      try (split; [done|]; exists [], n, names; split; [done|]; split; [done|];
           right; eexists; split; [done|]; split; [by intros|done]).
    cbn. destruct IH as [IHw IH]. split; [done|].
    destruct (check_fields _ _ w).1 as [[]|e].
    + constructor; [by eexists | done].
    + destruct IH as (before & field & after & -> & Hb & He).
      exists (n :: before), field, after. split; [done|]. split; [|done].
      constructor; [by eexists | done].
  - rewrite bool_decide_eq_false_2 by (by intros [? ?]). cbn.
    split; [done|]. exists [], n, names. split; [done|]. split; [done|]. by left.
Qed.

Lemma validate_payload_content_run (d : dict) (w : world) :
  (validate_payload_content (VDict d) w).2 = w ∧
  match (validate_payload_content (VDict d) w).1 with
  | Ok _ => Forall (text_at d) required_names
  | Raise e => rejected_at d required_names e
  end.
Proof. exact (check_fields_verdict d required_names w). Qed.

(** X10.  [validate_payload_content] checks the six required fields in the
    order [migrationId], [appName], [source], [target], [environment],
    [wave].  On a dict it returns exactly when each of them holds a
    string; otherwise it raises a [ValidationError] for the first field
    that is absent or holds something else, naming that field.  It
    touches nothing. *)
Theorem validate_payload_content_verdict (d : dict) (w : world) :
  (validate_payload_content (VDict d) w).2 = w ∧
  match (validate_payload_content (VDict d) w).1 with
  | Ok _ => Forall (text_at d) required_names
  | Raise e => rejected_at d required_names e
  end.
Proof. exact (validate_payload_content_run d w). Qed.

(** The error branch for a rejected request, on a detail that is a
    dict. *)
Lemma on_validation_error_run (d : dict) (cid : value) (e : exn) (w : world) :
  ∃ w',
    on_validation_error (VDict d) (Some cid) e w
      = (Ok (response 400 (VDict (to_dict e))), w') ∧
    table w' = table w ∧ aws_calls w' = aws_calls w.
Proof.
  destruct (failure_event_swallowed (dict_get_or d "migrationId" (VStr "unknown")) cid e
              (add_log ("ERROR", "Validation failed") w)) as (w' & Hs & Ht & Ha & _).
  exists w'. unfold on_validation_error. cbn in Hs |- *. rewrite Hs. done.
Qed.

Lemma detail_of_dict (ev d : dict) : detail_of ev = VDict d → dict_if_present ev "detail".
Proof.
  unfold detail_of, dict_get_or, dict_if_present.
  by destruct (ev !! "detail") as [[| | | | |]|].
Qed.

Lemma rejected_at_validation_error (d : dict) (names : list string) (e : exn) :
  rejected_at d names e →
  is_class ValidationErrorC e = true ∧ error_code e = VStr "VALIDATION_ERROR".
Proof. by intros (before & field & after & _ & _ & [[_ ->] | (v & _ & _ & ->)]). Qed.

Lemma accepted_not_rejected (d : dict) (names : list string) (e : exn) :
  Forall (text_at d) names → rejected_at d names e → False.
Proof.
  intros Hok (before & field & after & -> & _ & Hf).
  apply Forall_app in Hok as [_ Hok]. apply Forall_cons in Hok as [[s Hs] _].
  destruct Hf as [[Hf _] | (v & Hf & Hv & _)]; [congruence|].
  rewrite Hs in Hf. injection Hf as <-. by destruct (Hv s).
Qed.

(** X11.  A request whose detail lacks one of the six required fields, or
    holds something else than a string there, is answered with status 400
    and the [ValidationError] of the first such field.  Nothing is saved
    and neither EC2 nor the migration service is called. *)
Theorem invalid_payload_is_rejected (ev d : dict) (w : world) :
  detail_of ev = VDict d →
  dict_if_present ev "headers" →
  ¬ Forall (text_at d) required_names →
  ∃ (e : exn) (w' : world),
    lambda_handler ev w = (Ok (response 400 (VDict (to_dict e))), w') ∧
    rejected_at d required_names e ∧
    error_code e = VStr "VALIDATION_ERROR" ∧
    table w' = table w ∧
    aws_calls w' = aws_calls w.
Proof.
  intros Hd Hh Hbad.
  destruct (CorrelationSpec.extract_total ev w (detail_of_dict _ _ Hd) Hh)
    as (cid & w1 & Hex).
  pose proof (keeps_extract_correlation_id (VDict ev) w) as Ht1.
  pose proof (aws_calls_extract_correlation_id (VDict ev) w) as Ha1.
  rewrite Hex in Ht1, Ha1. cbn in Ht1, Ha1.
  unfold lambda_handler, try_binding. fold (detail_of ev). rewrite Hd, Hex. cbn.
  match goal with
  | |- context [validate_payload_content (VDict d) ?w2] =>
      destruct (validate_payload_content_run d w2) as [Hw Hv];
      destruct (validate_payload_content (VDict d) w2) as [[[]|e] w3]
  end; cbn in Hw, Hv; [done|]. subst w3.
  destruct (rejected_at_validation_error _ _ _ Hv) as [Hc Hcode]. rewrite Hc. cbn [orb].
  match goal with
  | |- context [on_validation_error (VDict d) (Some cid) e ?w2] =>
      destruct (on_validation_error_run d cid e w2) as (w' & -> & Ht & Ha)
  end.
  exists e, w'. split_and!; [done | done | done | rewrite Ht; exact Ht1 | rewrite Ha; exact Ha1].
Qed.

(** A failed prerequisite check raises a [PrerequisiteError]; the checks
    save nothing. *)
Definition prerequisite_error (e : exn) : Prop :=
  is_class ValidationErrorC e || is_class PrerequisiteErrorC e = true ∧
  error_code e = VStr "PREREQUISITE_ERROR".

Lemma check_aws_prerequisites_run (payload : value) (w : world) :
  table (check_aws_prerequisites payload w).2 = table w ∧
  match (check_aws_prerequisites payload w).1 with
  | Ok _ => True
  | Raise e => prerequisite_error e
  end.
Proof.
  split.
  - assert (keeps_table (check_aws_prerequisites payload)) as Hk
      by (unfold check_aws_prerequisites; keeps).
    apply Hk.
  - unfold check_aws_prerequisites, try_except.
    by match goal with |- context [match ?m with _ => _ end] => destruct m as [[a|e] w'] end.
Qed.

Lemma check_mgn_prerequisites_run (w : world) :
  table (check_mgn_prerequisites w).2 = table w ∧
  match (check_mgn_prerequisites w).1 with
  | Ok _ => ∃ v, respond (calls w) (Call "mgn" "describe_source_servers" []) = Ok v
  | Raise e => prerequisite_error e
  end.
Proof.
  split.
  - assert (keeps_table check_mgn_prerequisites) as Hk
      by (unfold check_mgn_prerequisites; keeps).
    apply Hk.
  - unfold check_mgn_prerequisites, ext. cbn.
    destruct (respond _ _) as [v|e]; cbn; by eauto.
Qed.

(** X12.  A request that passes the content check while the migration service
    is unreachable is answered with status 400 and a [PrerequisiteError],
    and nothing is saved. *)
Theorem unmet_prerequisite_is_rejected (ev d : dict) (w : world) :
  detail_of ev = VDict d →
  dict_if_present ev "headers" →
  Forall (text_at d) required_names →
  mgn_is_down C →
  ∃ (e : exn) (w' : world),
    lambda_handler ev w = (Ok (response 400 (VDict (to_dict e))), w') ∧
    error_code e = VStr "PREREQUISITE_ERROR" ∧
    table w' = table w.
Proof.
  intros Hd Hh Hok Hdown.
  destruct (CorrelationSpec.extract_total ev w (detail_of_dict _ _ Hd) Hh)
    as (cid & w1 & Hex).
  pose proof (keeps_extract_correlation_id (VDict ev) w) as Ht1.
  rewrite Hex in Ht1. cbn in Ht1.
  unfold lambda_handler, try_binding. fold (detail_of ev). rewrite Hd, Hex. cbn.
  match goal with
  | |- context [validate_payload_content (VDict d) ?w2] =>
      destruct (validate_payload_content_run d w2) as [Hw Hv];
      destruct (validate_payload_content (VDict d) w2) as [[[]|e] w3]
  end; cbn in Hw, Hv.
  2:{ by destruct (accepted_not_rejected _ _ _ Hok Hv). }
  subst w3.
  match goal with
  | |- context [check_aws_prerequisites (VDict d) ?w2] =>
      destruct (check_aws_prerequisites_run (VDict d) w2) as [Ht2 Hv2];
      destruct (check_aws_prerequisites (VDict d) w2) as [[[]|e] w3]
  end; cbn in Ht2, Hv2.
  2:{ destruct Hv2 as [-> Hcode].
      destruct (on_validation_error_run d cid e w3) as (w' & -> & Ht & _).
      exists e, w'. split_and!; [done | done | congruence]. }
  destruct (check_mgn_prerequisites_run w3) as [Ht3 Hv3].
  destruct (check_mgn_prerequisites w3) as [[[]|e] w4]; cbn in Ht3, Hv3.
  { destruct Hv3 as [v Hv3]. destruct (Hdown (calls w3)) as [e He]. congruence. }
  destruct Hv3 as [-> Hcode].
  destruct (on_validation_error_run d cid e w4) as (w' & -> & Ht & _).
  exists e, w'. split_and!; [done | done | congruence].
Qed.

Lemma contains_dict (d : dict) (k : string) (w : world) :
  contains (VDict d) k w = (Ok (bool_decide (is_Some (d !! k))), w).
Proof. done. Qed.

#[local] Arguments ext : simpl never.

(** Runs the next call to AWS, which returns. *)
Ltac aws_returns Hcoop :=
  match goal with
  | |- context [ext ?s ?o ?a ?w0] =>
      let v := fresh "v" in
      let Hv := fresh "Hv" in
      destruct (Hcoop (calls w0) (Call s o a) eq_refl) as [v Hv];
      replace (ext s o a w0) with (Ok v, add_call (Call s o a) w0)
        by (unfold ext; by rewrite Hv);
      clear Hv
  end.

Lemma check_aws_prerequisites_ok (d : dict) (w : world) :
  aws_cooperates C →
  ∃ w', check_aws_prerequisites (VDict d) w = (Ok tt, w') ∧ table w' = table w.
Proof.
  intros Hcoop. unfold check_aws_prerequisites. cbn.
  destruct (d !! "subnetId") as [subnet|] eqn:Hs;
    [rewrite bool_decide_eq_true_2 by eauto
    |rewrite bool_decide_eq_false_2 by (by intros [? ?])];
    cbn; [aws_returns Hcoop; cbn|];
    (destruct (d !! "securityGroupIds") as [groups|] eqn:Hg;
     [rewrite bool_decide_eq_true_2 by eauto
     |rewrite bool_decide_eq_false_2 by (by intros [? ?])];
     cbn; [aws_returns Hcoop; cbn|]);
    by eexists.
Qed.

Lemma check_mgn_prerequisites_ok (w : world) :
  aws_cooperates C →
  ∃ w', check_mgn_prerequisites w = (Ok tt, w') ∧ table w' = table w.
Proof.
  intros Hcoop. unfold check_mgn_prerequisites. cbn.
  aws_returns Hcoop. cbn. by eexists.
Qed.

(** Up to the publication of the status event: on a request that passes
    the checks the state is saved, and the answer depends on the bus. *)
Lemma saved_before_publication (ev d : dict) (mid : string) (w : world) :
  detail_of ev = VDict d →
  dict_if_present ev "headers" →
  Forall (text_at d) required_names →
  d !! "migrationId" = Some (VStr mid) →
  mid ≠ "" →
  aws_cooperates C →
  ∃ (cid now : value) (w3 : world),
    (extract_correlation_id (VDict ev) w).1 = Ok cid ∧
    table w3 = <[mid := DynamodbHelperFacts.saved_item mid
                          (<["correlationId" := cid]> (<["status" := VStr "VALIDATED"]> d))
                          now]> (table w) ∧
    lambda_handler ev w =
      match publish_status_event (VStr mid) cid "validate_input" "SUCCESS" None w3 with
      | (Ok _, w') => (Ok (validated mid), w')
      | (Raise e, w') =>
          (if is_class ValidationErrorC e || is_class PrerequisiteErrorC e
           then on_validation_error (VDict d) (Some cid) e
           else on_unexpected_error e) w'
      end.
Proof.
  intros Hd Hh Hok Hmid Hne Hcoop.
  destruct (CorrelationSpec.extract_total ev w (detail_of_dict _ _ Hd) Hh)
    as (cid & w1 & Hex).
  pose proof (keeps_extract_correlation_id (VDict ev) w) as Ht1.
  rewrite Hex in Ht1. cbn in Ht1.
  unfold lambda_handler, try_binding. fold (detail_of ev). rewrite Hd, Hex. cbn.
  unfold dict_get. rewrite Hmid. cbn.
  match goal with
  | |- context [validate_payload_content (VDict d) ?w2] =>
      destruct (validate_payload_content_run d w2) as [Hw Hv];
      destruct (validate_payload_content (VDict d) w2) as [[[]|e] w3]
  end; cbn in Hw, Hv.
  2:{ by destruct (accepted_not_rejected _ _ _ Hok Hv). }
  subst w3.
  match goal with
  | |- context [check_aws_prerequisites (VDict d) ?w2] =>
      destruct (check_aws_prerequisites_ok d w2 Hcoop) as (w3 & -> & Ht3)
  end.
  destruct (check_mgn_prerequisites_ok w3 Hcoop) as (w4 & -> & Ht4).
  rewrite DynamodbHelperFacts.save_migration_state_run by done.
  match goal with
  | |- context [publish_status_event _ _ _ _ _ ?wp] =>
      exists cid, (VStr (utcnow_isoformat (calls w4))), wp
  end.
  split; [reflexivity|]. split.
  - cbn [table add_log set_table add_call]. rewrite Ht4, Ht3. cbn [table add_log].
    by rewrite Ht1.
  - by destruct (publish_status_event _ _ _ _ _ _) as [[r|e] w'].
Qed.

(** X13.  A request that passes the checks is saved with status [VALIDATED]
    and the correlation identifier of the event, and answered with status
    200, when the bus takes the status event. *)
Theorem valid_request_is_saved (ev d : dict) (mid : string) (w : world) :
  detail_of ev = VDict d →
  dict_if_present ev "headers" →
  Forall (text_at d) required_names →
  d !! "migrationId" = Some (VStr mid) →
  mid ≠ "" →
  aws_cooperates C →
  bus_accepts C →
  ∃ (cid : value) (w' : world),
    (extract_correlation_id (VDict ev) w).1 = Ok cid ∧
    lambda_handler ev w = (Ok (validated mid), w') ∧
    stored w' mid "status" = Some (VStr "VALIDATED") ∧
    stored w' mid "correlationId" = Some cid ∧
    (∀ k, k ∈ ["wave"; "appName"; "source"; "target"; "environment"] →
       stored w' mid k = d !! k) ∧
    (∀ other, other ≠ mid → table w' !! other = table w !! other).
Proof.
  intros Hd Hh Hok Hmid Hne Hcoop Hbus.
  destruct (saved_before_publication ev d mid w Hd Hh Hok Hmid Hne Hcoop)
    as (cid & now & w3 & Hex & Ht & ->).
  destruct (publish_status_event_accepted (VStr mid) cid "validate_input" "SUCCESS" None w3
              Hbus) as (w' & -> & Ht').
  exists cid, w'. split; [done|]. split; [done|].
  unfold stored. rewrite Ht', Ht. rewrite lookup_insert_eq. cbn [mbind option_bind].
  unfold DynamodbHelperFacts.saved_item, dict_get, dict_get_or.
  split_and!; try by look.
  - intros k Hk.
    assert (text_at d k) as [s Hs].
    { eapply Forall_forall; [exact Hok|]. unfold required_names, required_fields. cbn.
      set_solver. }
    repeat (apply elem_of_cons in Hk as [-> | Hk]; [look; by rewrite Hs|]).
    by apply elem_of_nil in Hk.
  - intros other Ho. by look.
Qed.

(** X14.  When the bus is down the request is answered with status 500 and the
    generic error, yet the state saved just before stays: the record says
    [VALIDATED]. *)
Theorem saved_state_survives_lost_event (ev d : dict) (mid : string) (w : world) :
  detail_of ev = VDict d →
  dict_if_present ev "headers" →
  Forall (text_at d) required_names →
  d !! "migrationId" = Some (VStr mid) →
  mid ≠ "" →
  aws_cooperates C →
  bus_is_down C →
  ∃ w' : world,
    lambda_handler ev w =
      (Ok (response 500 (VDict {[ "error" := VStr "Internal validation error" ]})), w') ∧
    stored w' mid "status" = Some (VStr "VALIDATED").
Proof.
  intros Hd Hh Hok Hmid Hne Hcoop Hbus.
  destruct (saved_before_publication ev d mid w Hd Hh Hok Hmid Hne Hcoop)
    as (cid & now & w3 & Hex & Ht & ->).
  destruct (publish_status_event_down (VStr mid) cid "validate_input" "SUCCESS" None w3
              Hbus) as (e & w' & -> & He & Ht').
  destruct e as [|c m]; [done|]. cbn.
  eexists. split; [reflexivity|].
  unfold stored. cbn [table add_log]. rewrite Ht', Ht. rewrite lookup_insert_eq.
  cbn [mbind option_bind]. unfold DynamodbHelperFacts.saved_item, dict_get, dict_get_or.
  by look.
Qed.

Lemma on_unexpected_error_answers (e : exn) :
  outcome (status_among [200; 400; 500]) nothing (on_unexpected_error e).
Proof. intros w. cbn. apply response_status_among. set_solver. Qed.

Lemma on_validation_error_answers (d : dict) (cid : option value) (e : exn) :
  outcome (status_among [200; 400; 500]) nothing (on_validation_error (VDict d) cid e).
Proof.
  unfold on_validation_error. outcomes.
  all: apply outcome_ret, response_status_among; set_solver.
Qed.

Lemma validate_input_answers (ev : dict) :
  answers (status_among [200; 400; 500]) (lambda_handler ev).
Proof.
  unfold lambda_handler. cbn zeta.
  destruct (dict_get_or ev "detail" (VDict ∅)) as [| | | | |d].
  6:{ apply guarded_handler_answers.
      - intros cid. repeat (apply outcome_seq; [apply outcome_any | intros ?]).
        apply outcome_ret, response_status_among. set_solver.
      - intros cid e. destruct (_ || _);
          [apply on_validation_error_answers | apply on_unexpected_error_answers]. }
  all: apply misrouted_handler_answers;
    [ stops_at_once
    | intros cid [|c m] He; [done|]; apply on_unexpected_error_answers ].
Qed.
End Proofs.
(** A request that names the application only. *)
Definition incomplete_detail : dict := {[ "appName" := VStr "billing-app" ]}.
Definition incomplete_event : dict := {[ "detail" := VDict incomplete_detail ]}.

Lemma request_is_well_formed : Forall (text_at request_detail) required_names.
Proof. repeat constructor; eexists; vm_compute; reflexivity. Qed.

Lemma request_has_detail : detail_of request_event = VDict request_detail.
Proof. vm_compute. reflexivity. Qed.

Lemma request_has_no_headers : dict_if_present request_event "headers".
Proof. vm_compute. exact I. Qed.

Lemma request_names_migration : request_detail !! "migrationId" = Some (VStr "mig-1").
Proof. vm_compute. reflexivity. Qed.

Lemma invalid_payload_is_rejected_witness :
  detail_of incomplete_event = VDict incomplete_detail ∧
  dict_if_present incomplete_event "headers" ∧
  ¬ Forall (text_at incomplete_detail) required_names ∧
  ∃ (e : exn) (w' : world),
    lambda_handler (C := quiet) incomplete_event empty_world
      = (Ok (response 400 (VDict (to_dict e))), w') ∧
    rejected_at incomplete_detail required_names e ∧
    error_code e = VStr "VALIDATION_ERROR" ∧
    table w' = table empty_world ∧
    aws_calls w' = aws_calls empty_world.
Proof.
  assert (detail_of incomplete_event = VDict incomplete_detail) as Hd
    by (vm_compute; reflexivity).
  assert (dict_if_present incomplete_event "headers") as Hh by (vm_compute; exact I).
  assert (¬ Forall (text_at incomplete_detail) required_names) as Hbad.
  { intros H. apply Forall_cons in H as [[s Hs] _]. vm_compute in Hs. discriminate. }
  split; [exact Hd|]. split; [exact Hh|]. split; [exact Hbad|].
  exact (invalid_payload_is_rejected (C := quiet) incomplete_event incomplete_detail
           empty_world Hd Hh Hbad).
Defined.

Lemma unmet_prerequisite_is_rejected_witness :
  detail_of request_event = VDict request_detail ∧
  dict_if_present request_event "headers" ∧
  Forall (text_at request_detail) required_names ∧
  mgn_is_down (outage "mgn") ∧
  ∃ (e : exn) (w' : world),
    lambda_handler (C := outage "mgn") request_event empty_world
      = (Ok (response 400 (VDict (to_dict e))), w') ∧
    error_code e = VStr "PREREQUISITE_ERROR" ∧
    table w' = table empty_world.
Proof.
  split; [exact request_has_detail|]. split; [exact request_has_no_headers|].
  split; [exact request_is_well_formed|]. split; [exact mgn_outage_is_down|].
  exact (unmet_prerequisite_is_rejected (C := outage "mgn") request_event request_detail
           empty_world request_has_detail request_has_no_headers request_is_well_formed
           mgn_outage_is_down).
Defined.

Lemma valid_request_is_saved_witness :
  detail_of request_event = VDict request_detail ∧
  dict_if_present request_event "headers" ∧
  Forall (text_at request_detail) required_names ∧
  request_detail !! "migrationId" = Some (VStr "mig-1") ∧
  "mig-1" ≠ "" ∧
  aws_cooperates (healthy 0) ∧
  bus_accepts (healthy 0) ∧
  ∃ (cid : value) (w' : world),
    (extract_correlation_id (C := healthy 0) (VDict request_event) empty_world).1 = Ok cid ∧
    lambda_handler (C := healthy 0) request_event empty_world = (Ok (validated "mig-1"), w') ∧
    stored w' "mig-1" "status" = Some (VStr "VALIDATED") ∧
    stored w' "mig-1" "correlationId" = Some cid ∧
    (∀ k, k ∈ ["wave"; "appName"; "source"; "target"; "environment"] →
       stored w' "mig-1" k = request_detail !! k) ∧
    (∀ other, other ≠ "mig-1" → table w' !! other = table empty_world !! other).
Proof.
  assert ("mig-1" ≠ "") as Hne by discriminate.
  split; [exact request_has_detail|]. split; [exact request_has_no_headers|].
  split; [exact request_is_well_formed|]. split; [exact request_names_migration|].
  split; [exact Hne|]. split; [exact (healthy_cooperates 0)|].
  split; [exact (healthy_bus_accepts 0)|].
  exact (valid_request_is_saved (C := healthy 0) request_event request_detail "mig-1"
           empty_world request_has_detail request_has_no_headers request_is_well_formed
           request_names_migration Hne (healthy_cooperates 0) (healthy_bus_accepts 0)).
Defined.

Lemma saved_state_survives_lost_event_witness :
  detail_of request_event = VDict request_detail ∧
  dict_if_present request_event "headers" ∧
  Forall (text_at request_detail) required_names ∧
  request_detail !! "migrationId" = Some (VStr "mig-1") ∧
  "mig-1" ≠ "" ∧
  aws_cooperates (outage "events") ∧
  bus_is_down (outage "events") ∧
  ∃ w' : world,
    lambda_handler (C := outage "events") request_event empty_world =
      (Ok (response 500 (VDict {[ "error" := VStr "Internal validation error" ]})), w') ∧
    stored w' "mig-1" "status" = Some (VStr "VALIDATED").
Proof.
  assert ("mig-1" ≠ "") as Hne by discriminate.
  split; [exact request_has_detail|]. split; [exact request_has_no_headers|].
  split; [exact request_is_well_formed|]. split; [exact request_names_migration|].
  split; [exact Hne|]. split; [exact bus_outage_cooperates|].
  split; [exact bus_outage_is_down|].
  exact (saved_state_survives_lost_event (C := outage "events") request_event request_detail
           "mig-1" empty_world request_has_detail request_has_no_headers
           request_is_well_formed request_names_migration Hne bus_outage_cooperates
           bus_outage_is_down).
Defined.
End ValidateInputSpec.

(** ** Triggering the migration *)
Module TriggerMigrationSpec.
Import Errors Correlation DynamodbHelper EventbridgeHelper TriggerMigration.
Import EventbridgeHelperFacts.

(** The launch call for a detail: the source server, [""] when the detail
    names none, and the tags, empty when it has none. *)
Definition launch_call (operation : string) (d : dict) : call :=
  Call "mgn" operation
    [VList [dict_get_or d "sourceVmId" (VStr "")]; dict_get_or d "tags" (VDict ∅)].

(** The steps ask for a cutover: they list [freeze] and are at least
    three. *)
Definition asks_for_cutover (steps : list value) : Prop :=
  VStr "freeze" ∈ steps ∧ (3 ≤ length steps)%nat.

Section Proofs.
Context `{C : Collaborators}.

Lemma contains_list (l : list value) (k : string) (w : world) :
  ∃ b : bool, contains (VList l) k w = (Ok b, w) ∧ (b = true ↔ VStr k ∈ l).
Proof.
  eexists. split; [reflexivity|].
  rewrite existsb_exists. split.
  - intros (v & Hv & Heq). destruct v; try done.
    apply String.eqb_eq in Heq as ->. by apply list_elem_of_In.
  - intros Hin. exists (VStr k). split; [by apply list_elem_of_In | apply String.eqb_refl].
Qed.

Lemma is_test_run (l : list value) (w : world) :
  ∃ b : bool, is_test (VList l) w = (Ok b, w) ∧ (b = false ↔ asks_for_cutover l).
Proof.
  unfold is_test, bind, asks_for_cutover.
  destruct (contains_list l "freeze" w) as (b & -> & Hb).
  destruct b; cbn.
  - eexists. split; [reflexivity|].
    rewrite Z.ltb_ge. split; [intros Hl; split; [by apply Hb | lia] | intros [_ Hl]; lia].
  - eexists. split; [reflexivity|].
    split; [done|]. intros [Hin _]. apply Hb in Hin. done.
Qed.

(** A failed launch raises a [MigrationExecutionError]. *)
Definition execution_error (e : exn) : Prop :=
  is_class MigrationExecutionErrorC e = true ∧
  error_code e = VStr "MIGRATION_EXECUTION_ERROR".

(** The result of a launch that started [job]. *)
Definition launched (job : value) (status : string) (now : value) : dict :=
  <["jobId" := job]> (<["status" := VStr status]> (<["timestamp" := now]> ∅)).

Ltac launch_calls :=
  unfold aws_calls; cbn; rewrite !List.filter_app; cbn; by rewrite ?app_nil_r.

Lemma test_launch_frame (d : dict) (w : world) :
  let run := trigger_mgn_test_launch (VDict d) w in
  table run.2 = table w ∧
  aws_calls run.2 = (aws_calls w ++ [launch_call "start_test_launch" d])%list ∧
  match run.1 with Ok _ => True | Raise e => execution_error e end.
Proof.
  cbn zeta. unfold trigger_mgn_test_launch, launch_call. cbn.
  destruct (respond _ _) as [[| | | | |r]|e]; cbn;
    try (destruct (dict_get_or _ "job" _); cbn);
    (split_and!; [done | launch_calls | done]).
Qed.

Lemma cutover_frame (d : dict) (w : world) :
  let run := trigger_mgn_cutover (VDict d) w in
  table run.2 = table w ∧
  aws_calls run.2 = (aws_calls w ++ [launch_call "start_cutover" d])%list ∧
  match run.1 with Ok _ => True | Raise e => execution_error e end.
Proof.
  cbn zeta. unfold trigger_mgn_cutover, launch_call. cbn.
  destruct (respond _ _) as [[| | | | |r]|e]; cbn;
    try (destruct (dict_get_or _ "job" _); cbn);
    (split_and!; [done | launch_calls | done]).
Qed.

Lemma test_launch_refused (d : dict) (w : world) :
  mgn_refuses C →
  ∃ e w', trigger_mgn_test_launch (VDict d) w = (Raise e, w') ∧
          execution_error e ∧ table w' = table w.
Proof.
  intros Hmgn. unfold trigger_mgn_test_launch. cbn.
  match goal with
  | |- context [respond ?h ?c] => destruct (Hmgn h c eq_refl) as [e ->]
  end.
  by eexists _, _.
Qed.

Lemma cutover_refused (d : dict) (w : world) :
  mgn_refuses C →
  ∃ e w', trigger_mgn_cutover (VDict d) w = (Raise e, w') ∧
          execution_error e ∧ table w' = table w.
Proof.
  intros Hmgn. unfold trigger_mgn_cutover. cbn.
  match goal with
  | |- context [respond ?h ?c] => destruct (Hmgn h c eq_refl) as [e ->]
  end.
  by eexists _, _.
Qed.

Lemma test_launch_started (d : dict) (job : value) (w : world) :
  mgn_launches C job →
  ∃ now w', trigger_mgn_test_launch (VDict d) w
              = (Ok (launched job "TEST_LAUNCH_INITIATED" now), w') ∧
            table w' = table w.
Proof.
  intros Hmgn. unfold trigger_mgn_test_launch. cbn.
  rewrite Hmgn by done. go. by eexists _, _.
Qed.

Lemma cutover_started (d : dict) (job : value) (w : world) :
  mgn_launches C job →
  ∃ now w', trigger_mgn_cutover (VDict d) w
              = (Ok (launched job "CUTOVER_INITIATED" now), w') ∧
            table w' = table w.
Proof.
  intros Hmgn. unfold trigger_mgn_cutover. cbn.
  rewrite Hmgn by done. go. by eexists _, _.
Qed.

Lemma on_execution_error_run (d : dict) (cid : value) (e : exn) (w : world) :
  ∃ w',
    on_execution_error (VDict d) (Some cid) e w
      = (Ok (response 500 (VDict (to_dict e))), w') ∧
    table w' = table w ∧ aws_calls w' = aws_calls w.
Proof.
  destruct (failure_event_swallowed (dict_get_or d "migrationId" (VStr "unknown")) cid e
              (add_log ("ERROR", "Migration trigger failed") w)) as (w' & Hs & Ht & Ha & _).
  exists w'. unfold on_execution_error. cbn in Hs |- *. rewrite Hs. done.
Qed.

Lemma aws_calls_on_execution_error (detail : value) (cid : option value) (e : exn) :
  preserves aws_calls (on_execution_error detail cid e).
Proof. unfold on_execution_error. keeps. Qed.
Lemma aws_calls_on_unexpected_error (e : exn) :
  preserves aws_calls (on_unexpected_error e).
Proof. unfold on_unexpected_error. keeps. Qed.
Lemma aws_calls_update_cmf_wave_status (payload : value) (status : string) :
  preserves aws_calls (update_cmf_wave_status payload status).
Proof. unfold update_cmf_wave_status. keeps. Qed.
Lemma keeps_on_execution_error (detail : value) (cid : option value) (e : exn) :
  keeps_table (on_execution_error detail cid e).
Proof. unfold on_execution_error. keeps. Qed.
Lemma keeps_trigger_unexpected_error (e : exn) : keeps_table (on_unexpected_error e).
Proof. unfold on_unexpected_error. keeps. Qed.
Lemma keeps_update_cmf_wave_status (payload : value) (status : string) :
  keeps_table (update_cmf_wave_status payload status).
Proof. unfold update_cmf_wave_status. keeps. Qed.
#[local] Hint Resolve aws_calls_on_execution_error aws_calls_on_unexpected_error
  aws_calls_update_cmf_wave_status keeps_on_execution_error keeps_trigger_unexpected_error
  keeps_update_cmf_wave_status : frame.

(** X15.  [lambda_handler] issues exactly one call to the migration service,
    for the source server and the tags of the detail: [start_cutover]
    when the steps of the detail list [freeze] and are at least three,
    [start_test_launch] otherwise, also when the detail has no steps. *)
Theorem launch_follows_steps (ev d : dict) (steps : list value) (w : world) :
  detail_of ev = VDict d →
  dict_if_present ev "headers" →
  dict_get_or d "steps" (VList []) = VList steps →
  ∃ operation,
    aws_calls (lambda_handler ev w).2 = (aws_calls w ++ [launch_call operation d])%list ∧
    (operation = "start_cutover" ∧ asks_for_cutover steps ∨
     operation = "start_test_launch" ∧ ¬ asks_for_cutover steps).
Proof.
  intros Hd Hh Hsteps.
  destruct (CorrelationSpec.extract_total ev w (ValidateInputSpec.detail_of_dict _ _ Hd) Hh)
    as (cid & w1 & Hex).
  pose proof (aws_calls_extract_correlation_id (VDict ev) w) as Ha1.
  rewrite Hex in Ha1. cbn [snd] in Ha1.
  unfold lambda_handler. fold (detail_of ev). rewrite Hd. cbn zeta.
  rewrite (try_binding_ok _ _ _ _ _ _ Hex).
  do 3 step. rewrite Hsteps.
  match goal with
  | |- context [try_except _ _ ?w2] =>
      destruct (is_test_run steps w2) as (test & Ht & Htest)
  end.
  step_with Ht.
  destruct test.
  - exists "start_test_launch". split; [|right; split; [done|]; intros Hc; by apply Htest in Hc].
    match goal with
    | |- context [try_except _ _ ?w2] =>
        destruct (test_launch_frame d w2) as (_ & Ha & _);
        destruct (trigger_mgn_test_launch (VDict d) w2) as [[r|e] w3] eqn:Hl
    end; cbn [snd] in Ha.
    + step_with Hl. framed aws_calls. by rewrite Ha, aws_calls_after_log, Ha1.
    + raise_with Hl. framed aws_calls. by rewrite Ha, aws_calls_after_log, Ha1.
  - exists "start_cutover". split; [|left; split; [done | by apply Htest]].
    match goal with
    | |- context [try_except _ _ ?w2] =>
        destruct (cutover_frame d w2) as (_ & Ha & _);
        destruct (trigger_mgn_cutover (VDict d) w2) as [[r|e] w3] eqn:Hl
    end; cbn [snd] in Ha.
    + step_with Hl. framed aws_calls. by rewrite Ha, aws_calls_after_log, Ha1.
    + raise_with Hl. framed aws_calls. by rewrite Ha, aws_calls_after_log, Ha1.
Qed.

(** X16.  When the migration service refuses the launch, the handler answers
    with status 500 and the [MigrationExecutionError], and the record of
    the migration is left as it was: no status is written. *)
Theorem refused_launch_is_reported (ev d : dict) (steps : list value) (w : world) :
  detail_of ev = VDict d →
  dict_if_present ev "headers" →
  dict_get_or d "steps" (VList []) = VList steps →
  mgn_refuses C →
  ∃ (e : exn) (w' : world),
    lambda_handler ev w = (Ok (response 500 (VDict (to_dict e))), w') ∧
    error_code e = VStr "MIGRATION_EXECUTION_ERROR" ∧
    table w' = table w.
Proof.
  intros Hd Hh Hsteps Hmgn.
  destruct (CorrelationSpec.extract_total ev w (ValidateInputSpec.detail_of_dict _ _ Hd) Hh)
    as (cid & w1 & Hex).
  pose proof (keeps_extract_correlation_id (VDict ev) w) as Ht1.
  rewrite Hex in Ht1. cbn [snd] in Ht1.
  unfold lambda_handler. fold (detail_of ev). rewrite Hd. cbn zeta.
  rewrite (try_binding_ok _ _ _ _ _ _ Hex).
  do 3 step. rewrite Hsteps.
  match goal with
  | |- context [try_except _ _ ?w2] =>
      destruct (is_test_run steps w2) as (test & Ht & Htest)
  end.
  step_with Ht.
  assert (∃ e w3, (if test then trigger_mgn_test_launch (VDict d)
                   else trigger_mgn_cutover (VDict d))
                    (add_log ("INFO", "Triggering migration") w1) = (Raise e, w3) ∧
                  execution_error e ∧ table w3 = table w) as (e & w3 & Hl & [Hc Hcode] & Ht3).
  { destruct test;
      [destruct (test_launch_refused d (add_log ("INFO", "Triggering migration") w1) Hmgn)
         as (e & w3 & Hl & He & Ht3)
      |destruct (cutover_refused d (add_log ("INFO", "Triggering migration") w1) Hmgn)
         as (e & w3 & Hl & He & Ht3)];
      exists e, w3; (split_and!; [done | done | by rewrite Ht3]). }
  raise_with Hl. rewrite Hc.
  destruct (on_execution_error_run d cid e w3) as (w' & -> & Ht' & _).
  exists e, w'. split_and!; [done | done | by rewrite Ht'].
Qed.

(** X17.  When the migration service starts a job and the bus takes the event,
    the handler answers with status 200, the job id in the launch result,
    and the record of the migration says [MIGRATION_IN_PROGRESS] with the
    launch result and the wave update as its execution details. *)
Theorem started_launch_is_recorded
    (ev d : dict) (steps : list value) (mid : string) (job : value) (w : world) :
  detail_of ev = VDict d →
  dict_if_present ev "headers" →
  dict_get_or d "steps" (VList []) = VList steps →
  d !! "migrationId" = Some (VStr mid) →
  mid ≠ "" →
  mgn_launches C job →
  bus_accepts C →
  ∃ (mgn cmf : dict) (w' : world),
    lambda_handler ev w =
      (Ok (response 200 (VDict (<["migrationId" := VStr mid]> (
                                <["status" := VStr "MIGRATION_IN_PROGRESS"]> (
                                <["mgn" := VDict mgn]> (
                                <["cmf" := VDict cmf]> ∅)))))), w') ∧
    mgn !! "jobId" = Some job ∧
    cmf !! "status" = Some (VStr "IN_PROGRESS") ∧
    stored w' mid "status" = Some (VStr "MIGRATION_IN_PROGRESS") ∧
    stored w' mid "executionDetails"
      = Some (VDict (<["mgn" := VDict mgn]> (<["cmf" := VDict cmf]> ∅))).
Proof.
  intros Hd Hh Hsteps Hmid Hne Hmgn Hbus.
  destruct (CorrelationSpec.extract_total ev w (ValidateInputSpec.detail_of_dict _ _ Hd) Hh)
    as (cid & w1 & Hex).
  name_run lambda_handler.
  unfold lambda_handler. fold (detail_of ev). rewrite Hd. cbn zeta.
  rewrite (try_binding_ok _ _ _ _ _ _ Hex).
  do 3 step. rewrite Hsteps. unfold dict_get at 1 2 3. rewrite Hmid. cbn [default from_option id].
  match goal with
  | |- context [try_except _ _ ?w2] =>
      destruct (is_test_run steps w2) as (test & Ht & Htest)
  end.
  step_with Ht.
  assert (∃ status now w3, (if test then trigger_mgn_test_launch (VDict d)
                            else trigger_mgn_cutover (VDict d))
                             (add_log ("INFO", "Triggering migration") w1)
                           = (Ok (launched job status now), w3))
    as (status & now & w3 & Hl).
  { destruct test;
      [destruct (test_launch_started d job (add_log ("INFO", "Triggering migration") w1)
                   Hmgn) as (now & w3 & Hl & _)
      |destruct (cutover_started d job (add_log ("INFO", "Triggering migration") w1)
                   Hmgn) as (now & w3 & Hl & _)];
      by eexists _, _, _. }
  step_with Hl. step_into update_cmf_wave_status.
  step_update. rewrite truthy_insert. step.
  match goal with
  | |- context [try_except (bind (publish_status_event ?a ?b ?c ?s ?dt) _) _ ?w5] =>
      destruct (publish_status_event_accepted a b c s dt w5 Hbus) as (w' & Hp & Ht')
  end.
  step_with Hp. intros [= <- <-].
  eexists _, _, w'. split; [reflexivity|].
  unfold stored. rewrite Ht'. settle. rewrite lookup_insert_eq. cbn [mbind option_bind].
  unfold launched. split_and!; by look.
Qed.
Lemma on_execution_error_answers (d : dict) (cid : option value) (e : exn) :
  outcome (status_among [200; 500]) nothing (on_execution_error (VDict d) cid e).
Proof.
  unfold on_execution_error. outcomes.
  all: apply outcome_ret, response_status_among; set_solver.
Qed.

Lemma trigger_unexpected_error_answers (e : exn) :
  outcome (status_among [200; 500]) nothing (on_unexpected_error e).
Proof. intros w. cbn. apply response_status_among. set_solver. Qed.

Lemma trigger_migration_answers (ev : dict) :
  answers (status_among [200; 500]) (lambda_handler ev).
Proof.
  unfold lambda_handler. cbn zeta.
  destruct (dict_get_or ev "detail" (VDict ∅)) as [| | | | |d].
  6:{ apply guarded_handler_answers.
      - intros cid. repeat (apply outcome_seq; [apply outcome_any | intros ?]).
        apply outcome_ret, response_status_among. set_solver.
      - intros cid e. destruct (is_class _ _);
          [apply on_execution_error_answers | apply trigger_unexpected_error_answers]. }
  all: apply misrouted_handler_answers;
    [ stops_at_once
    | intros cid [|c m] He; [done|]; apply trigger_unexpected_error_answers ].
Qed.
End Proofs.
(** A request for the cutover of a virtual machine. *)
Definition cutover_steps : list value := [VStr "freeze"; VStr "replicate"; VStr "switch"].
Definition cutover_detail : dict :=
  <["steps" := VList cutover_steps]> (<["sourceVmId" := VStr "vm-billing-01"]> request_detail).
Definition cutover_event : dict := {[ "detail" := VDict cutover_detail ]}.

Lemma cutover_has_detail : detail_of cutover_event = VDict cutover_detail.
Proof. vm_compute. reflexivity. Qed.
Lemma cutover_has_no_headers : dict_if_present cutover_event "headers".
Proof. vm_compute. exact I. Qed.
Lemma cutover_has_steps : dict_get_or cutover_detail "steps" (VList []) = VList cutover_steps.
Proof. vm_compute. reflexivity. Qed.
Lemma cutover_names_migration : cutover_detail !! "migrationId" = Some (VStr "mig-1").
Proof. vm_compute. reflexivity. Qed.

Lemma launch_follows_steps_witness :
  detail_of cutover_event = VDict cutover_detail ∧
  dict_if_present cutover_event "headers" ∧
  dict_get_or cutover_detail "steps" (VList []) = VList cutover_steps ∧
  ∃ operation,
    aws_calls (lambda_handler (C := quiet) cutover_event empty_world).2
      = (aws_calls empty_world ++ [launch_call operation cutover_detail])%list ∧
    (operation = "start_cutover" ∧ asks_for_cutover cutover_steps ∨
     operation = "start_test_launch" ∧ ¬ asks_for_cutover cutover_steps).
Proof.
  split; [exact cutover_has_detail|]. split; [exact cutover_has_no_headers|].
  split; [exact cutover_has_steps|].
  exact (launch_follows_steps (C := quiet) cutover_event cutover_detail cutover_steps
           empty_world cutover_has_detail cutover_has_no_headers cutover_has_steps).
Defined.

Lemma refused_launch_is_reported_witness :
  detail_of cutover_event = VDict cutover_detail ∧
  dict_if_present cutover_event "headers" ∧
  dict_get_or cutover_detail "steps" (VList []) = VList cutover_steps ∧
  mgn_refuses (outage "mgn") ∧
  ∃ (e : exn) (w' : world),
    lambda_handler (C := outage "mgn") cutover_event empty_world
      = (Ok (response 500 (VDict (to_dict e))), w') ∧
    error_code e = VStr "MIGRATION_EXECUTION_ERROR" ∧
    table w' = table empty_world.
Proof.
  split; [exact cutover_has_detail|]. split; [exact cutover_has_no_headers|].
  split; [exact cutover_has_steps|]. split; [exact mgn_outage_refuses|].
  exact (refused_launch_is_reported (C := outage "mgn") cutover_event cutover_detail
           cutover_steps empty_world cutover_has_detail cutover_has_no_headers
           cutover_has_steps mgn_outage_refuses).
Defined.

Lemma started_launch_is_recorded_witness :
  detail_of cutover_event = VDict cutover_detail ∧
  dict_if_present cutover_event "headers" ∧
  dict_get_or cutover_detail "steps" (VList []) = VList cutover_steps ∧
  cutover_detail !! "migrationId" = Some (VStr "mig-1") ∧
  "mig-1" ≠ "" ∧
  mgn_launches launching (VStr "mgnjob-7") ∧
  bus_accepts launching ∧
  ∃ (mgn cmf : dict) (w' : world),
    lambda_handler (C := launching) cutover_event empty_world =
      (Ok (response 200 (VDict (<["migrationId" := VStr "mig-1"]> (
                                <["status" := VStr "MIGRATION_IN_PROGRESS"]> (
                                <["mgn" := VDict mgn]> (
                                <["cmf" := VDict cmf]> ∅)))))), w') ∧
    mgn !! "jobId" = Some (VStr "mgnjob-7") ∧
    cmf !! "status" = Some (VStr "IN_PROGRESS") ∧
    stored w' "mig-1" "status" = Some (VStr "MIGRATION_IN_PROGRESS") ∧
    stored w' "mig-1" "executionDetails"
      = Some (VDict (<["mgn" := VDict mgn]> (<["cmf" := VDict cmf]> ∅))).
Proof.
  assert ("mig-1" ≠ "") as Hne by discriminate.
  split; [exact cutover_has_detail|]. split; [exact cutover_has_no_headers|].
  split; [exact cutover_has_steps|]. split; [exact cutover_names_migration|].
  split; [exact Hne|]. split; [exact launching_launches|].
  split; [exact launching_bus_accepts|].
  exact (started_launch_is_recorded (C := launching) cutover_event cutover_detail
           cutover_steps "mig-1" (VStr "mgnjob-7") empty_world cutover_has_detail
           cutover_has_no_headers cutover_has_steps cutover_names_migration Hne
           launching_launches launching_bus_accepts).
Defined.
End TriggerMigrationSpec.

(** ** Finalizing the cutover *)
Module FinalizeCutoverSpec.
Import Errors Correlation DynamodbHelper EventbridgeHelper FinalizeCutover.
Import EventbridgeHelperFacts.

(** The steps the loop of [perform_cutover_steps] knows. *)
Definition known_steps : list string := ["freeze"; "replicate"; "validate"; "switch"].
Definition is_known (step : value) : bool := existsb (eq_str step) known_steps.

(** The calls to anything but the clock, the identifier source and the
    event bus. *)
Definition is_simulated_away (c : call) : bool :=
  negb (existsb (String.eqb (service c)) ["datetime"; "uuid"; "events"]).
Definition other_calls (w : world) : list call := List.filter is_simulated_away (calls w).

Lemma other_calls_ignores_log : ignores_log other_calls.
Proof. done. Qed.
Lemma other_calls_ignores_table : ignores_table other_calls.
Proof. done. Qed.

Section Proofs.
Context `{C : Collaborators}.

Lemma other_calls_ext (svc op : string) (a : list value) :
  is_simulated_away (Call svc op a) = false → preserves other_calls (ext svc op a).
Proof.
  intros Hc w. unfold ext, other_calls, add_call. cbn [snd calls].
  by rewrite List.filter_app; cbn; rewrite Hc, app_nil_r.
Qed.
Lemma other_calls_utcnow : preserves other_calls utcnow.
Proof.
  intros w. unfold utcnow, other_calls, add_call. cbn [snd calls].
  by rewrite List.filter_app; cbn; rewrite app_nil_r.
Qed.
Lemma other_calls_uuid4 : preserves other_calls uuid4.
Proof.
  intros w. unfold uuid4, other_calls, add_call. cbn [snd calls].
  by rewrite List.filter_app; cbn; rewrite app_nil_r.
Qed.
#[local] Hint Resolve other_calls_ignores_log other_calls_ignores_table other_calls_utcnow
  other_calls_uuid4 : frame.
#[local] Hint Extern 1 (preserves other_calls (ext _ _ _)) =>
  apply other_calls_ext; reflexivity : frame.

Lemma execute_steps_run (steps performed : list value) (w : world) :
  ∃ w', execute_steps steps performed w
          = (Ok (performed ++ omap step_entry steps)%list, w') ∧
        table w' = table w.
Proof.
  revert performed w. induction steps as [|step steps IH]; intros performed w.
  - exists w. unfold execute_steps. cbn. by rewrite app_nil_r.
  - unfold execute_steps; fold execute_steps. cbn.
    match goal with
    | |- context [execute_steps steps ?p ?w1] => destruct (IH p w1) as (w' & -> & Ht)
    end.
    exists w'. split; [|done].
    destruct (step_entry step); cbn; [by rewrite <- app_assoc | done].
Qed.

Lemma step_entry_spec (step : value) :
  match step_entry step with
  | Some entry =>
      is_known step = true ∧ field (Some entry) "step" = Some step ∧
      field (Some entry) "status" = Some (VStr "COMPLETED")
  | None => is_known step = false
  end.
Proof.
  unfold step_entry, is_known. cbn [existsb known_steps].
  destruct step as [| | |s| |]; cbn [eq_str orb]; try done.
  destruct (String.eqb_spec s "freeze") as [->|];
    [|destruct (String.eqb_spec s "replicate") as [->|];
      [|destruct (String.eqb_spec s "validate") as [->|];
        [|destruct (String.eqb_spec s "switch") as [->|]]]];
    cbn [orb]; try done; unfold completed, field; by look.
Qed.

Lemma step_entry_known (steps : list value) :
  (λ entry, field (Some entry) "step") <$> omap step_entry steps
    = Some <$> List.filter is_known steps ∧
  Forall (λ entry, field (Some entry) "status" = Some (VStr "COMPLETED"))
    (omap step_entry steps).
Proof.
  induction steps as [|step steps [IH1 IH2]]; [by split|].
  pose proof (step_entry_spec step) as Hs.
  change (omap step_entry (step :: steps))
    with (match step_entry step with
          | Some entry => entry :: omap step_entry steps
          | None => omap step_entry steps
          end).
  cbn [List.filter].
  destruct (step_entry step) as [entry|].
  - destruct Hs as (-> & Hn & Hc). rewrite !fmap_cons, IH1, Hn. split; [done|].
    by constructor.
  - rewrite Hs. by split.
Qed.

Lemma perform_cutover_steps_run (d : dict) (steps : list value) (w : world) :
  dict_get_or d "steps" (VList []) = VList steps →
  ∃ (result : dict) (performed : list value) (w' : world),
    perform_cutover_steps (VDict d) w = (Ok result, w') ∧
    result !! "stepsPerformed" = Some (VList performed) ∧
    (λ entry, field (Some entry) "step") <$> performed
      = Some <$> List.filter is_known steps ∧
    Forall (λ entry, field (Some entry) "status" = Some (VStr "COMPLETED")) performed ∧
    table w' = table w.
Proof.
  intros Hsteps. unfold perform_cutover_steps. cbn. rewrite Hsteps. cbn.
  match goal with
  | |- context [execute_steps steps [] ?w1] =>
      destruct (execute_steps_run steps [] w1) as (w' & -> & Ht)
  end.
  cbn. eexists _, _, _. split; [reflexivity|].
  destruct (step_entry_known steps) as [H1 H2].
  split_and!; [by look | exact H1 | exact H2 | exact Ht].
Qed.

(** X18.  [perform_cutover_steps] reports, in the order of the request and as
    [COMPLETED], the steps it knows: [freeze], [replicate], [validate]
    and [switch].  Any other entry of [steps] is passed over without an
    error and without a trace in the result.  Nothing is saved. *)
Theorem cutover_steps_performed (d : dict) (steps : list value) (w : world) :
  dict_get_or d "steps" (VList []) = VList steps →
  ∃ (result : dict) (performed : list value) (w' : world),
    perform_cutover_steps (VDict d) w = (Ok result, w') ∧
    result !! "stepsPerformed" = Some (VList performed) ∧
    (λ entry, field (Some entry) "step") <$> performed
      = Some <$> List.filter is_known steps ∧
    Forall (λ entry, field (Some entry) "status" = Some (VStr "COMPLETED")) performed ∧
    table w' = table w.
Proof. apply perform_cutover_steps_run. Qed.

Lemma other_calls_execute_steps (steps performed : list value) :
  preserves other_calls (execute_steps steps performed).
Proof.
  revert performed. induction steps as [|step steps IH]; intros performed;
    unfold execute_steps; fold execute_steps; keeps.
Qed.
#[local] Hint Resolve other_calls_execute_steps : frame.

Lemma other_calls_publish_event (detail_type : string) (detail : value) (source : string) :
  preserves other_calls (publish_event detail_type detail source).
Proof. unfold publish_event. keeps. Qed.
#[local] Hint Resolve other_calls_publish_event : frame.

(** X19.  The whole of [finalize_cutover.py] is a simulation: whatever the
    event, [lambda_handler] calls nothing but the clock, the identifier
    source and the event bus, and writes to the table.  No DNS record is
    changed, no machine is decommissioned and no CMDB is written, though
    the response and the record say so. *)
Theorem cutover_is_simulated (ev : dict) (w : world) :
  other_calls (lambda_handler ev w).2 = other_calls w.
Proof.
  assert (preserves other_calls (lambda_handler ev)) as Hk; [|apply Hk].
  unfold lambda_handler, extract_correlation_id, generate_correlation_id,
    perform_cutover_steps, update_dns, decommission_source, update_cmdb,
    update_migration_status, publish_success_event, on_cutover_error,
    on_unexpected_error, publish_failure_event.
  keeps.
Qed.

Lemma on_cutover_error_run (d : dict) (cid : value) (e : exn) (w : world) :
  ∃ w',
    on_cutover_error (VDict d) (Some cid) e w
      = (Ok (response 500 (VDict (to_dict e))), w') ∧
    table w' = table w ∧
    logged w' = (logged w ++ [("ERROR", "Cutover finalization failed")])%list.
Proof.
  destruct (failure_event_swallowed (dict_get_or d "migrationId" (VStr "unknown")) cid e
              (add_log ("ERROR", "Cutover finalization failed") w))
    as (w' & Hs & Ht & _ & Hl).
  exists w'. unfold on_cutover_error. cbn in Hs |- *. rewrite Hs. done.
Qed.

(** X20.  A request that names no source machine is answered with status 500
    and a [CutoverError], and no status is written.  The check comes
    after the cutover steps and the DNS update: by then both are logged
    as done. *)
Theorem cutover_without_source_is_rejected
    (ev d : dict) (steps : list value) (w : world) :
  detail_of ev = VDict d →
  dict_if_present ev "headers" →
  dict_get_or d "steps" (VList []) = VList steps →
  truthy (dict_get d "sourceVmId") = false →
  ∃ (e : exn) (w' : world),
    lambda_handler ev w = (Ok (response 500 (VDict (to_dict e))), w') ∧
    error_code e = VStr "CUTOVER_ERROR" ∧
    message e = VStr "Source VM ID not provided for decommission" ∧
    table w' = table w ∧
    ("INFO", "Cutover steps completed") ∈ logged w' ∧
    ("INFO", "DNS records updated") ∈ logged w'.
Proof.
  intros Hd Hh Hsteps Hvm.
  destruct (CorrelationSpec.extract_total ev w (ValidateInputSpec.detail_of_dict _ _ Hd) Hh)
    as (cid & w1 & Hex).
  pose proof (keeps_extract_correlation_id (VDict ev) w) as Ht1.
  rewrite Hex in Ht1. cbn [snd] in Ht1.
  name_run lambda_handler.
  unfold lambda_handler. fold (detail_of ev). rewrite Hd. cbn zeta.
  rewrite (try_binding_ok _ _ _ _ _ _ Hex).
  do 2 step.
  assert (∀ w2, ∃ result w3,
            perform_cutover_steps (VDict d) w2 = (Ok result, w3) ∧ table w3 = table w2 ∧
            ("INFO", "Cutover steps completed") ∈ logged w3) as Hperf.
  { intros w2. unfold perform_cutover_steps. cbn. rewrite Hsteps. cbn.
    match goal with
    | |- context [execute_steps steps [] ?wx] =>
        destruct (execute_steps_run steps [] wx) as (w' & -> & Ht)
    end.
    cbn. eexists _, _. split; [reflexivity|]. split; [exact Ht|]. in_log. }
  match goal with
  | |- context [try_except _ _ ?w2] => destruct (Hperf w2) as (result & w3 & Hp & Ht3 & Hl3)
  end.
  step_with Hp. step_into update_dns.
  erewrite try_except_bind_raise
    by (unfold decommission_source; cbn; rewrite Hvm; cbn; reflexivity).
  cbn [is_class CutoverError].
  match goal with
  | |- context [on_cutover_error _ _ ?e ?w4] =>
      destruct (on_cutover_error_run d cid e w4) as (w' & -> & Ht' & Hl')
  end.
  intros [= <- <-].
  exists (CutoverError "Source VM ID not provided for decommission" None), w'.
  split; [reflexivity|].
  split; [done|]. split; [done|].
  split; [rewrite Ht'; settle; rewrite Ht3; settle; exact Ht1|].
  rewrite Hl'. split; in_log.
Qed.

(** X21.  For a request that names the source machine and a record key, when
    the bus takes the event: the handler answers with status 200 and the
    four results, and the record says [COMPLETED] with those results as
    its execution details. *)
Theorem completed_cutover_is_recorded
    (ev d : dict) (steps : list value) (mid : string) (w : world) :
  detail_of ev = VDict d →
  dict_if_present ev "headers" →
  dict_get_or d "steps" (VList []) = VList steps →
  truthy (dict_get d "sourceVmId") = true →
  d !! "migrationId" = Some (VStr mid) →
  mid ≠ "" →
  bus_accepts C →
  ∃ (details : dict) (w' : world),
    lambda_handler ev w =
      (Ok (response 200 (VDict (<["migrationId" := VStr mid]> (
                                <["status" := VStr "COMPLETED"]> details)))), w') ∧
    dom details = {[ "cutover"; "dns"; "decommission"; "cmdb" ]} ∧
    field (details !! "decommission") "sourceVmId" = Some (dict_get d "sourceVmId") ∧
    field (details !! "dns") "status" = Some (VStr "DNS_UPDATED") ∧
    field (details !! "cmdb") "status" = Some (VStr "MIGRATED_TO_AWS") ∧
    stored w' mid "status" = Some (VStr "COMPLETED") ∧
    stored w' mid "executionDetails" = Some (VDict details).
Proof.
  intros Hd Hh Hsteps Hvm Hmid Hne Hbus.
  destruct (CorrelationSpec.extract_total ev w (ValidateInputSpec.detail_of_dict _ _ Hd) Hh)
    as (cid & w1 & Hex).
  name_run lambda_handler.
  unfold lambda_handler. fold (detail_of ev). rewrite Hd. cbn zeta.
  rewrite (try_binding_ok _ _ _ _ _ _ Hex).
  do 2 step. unfold dict_get at 1 2 3. rewrite Hmid. cbn [default from_option id].
  match goal with
  | |- context [try_except _ _ ?w2] =>
      destruct (perform_cutover_steps_run d steps w2 Hsteps)
        as (result & performed & w3 & Hp & _)
  end.
  step_with Hp. step_into update_dns.
  erewrite try_except_bind_ok
    by (unfold decommission_source; cbn; rewrite Hvm; cbn; reflexivity).
  step_into update_cmdb. step_update. rewrite truthy_insert. step.
  match goal with
  | |- context [try_except (bind (publish_success_event ?a ?b ?dt) _) _ ?w5] =>
      destruct (publish_success_event_accepted a b dt w5 Hbus) as (w' & Hpub & Ht')
  end.
  step_with Hpub. intros [= <- <-].
  eexists _, w'. split; [reflexivity|].
  unfold stored. rewrite Ht'. settle. rewrite lookup_insert_eq. cbn [mbind option_bind].
  split_and!; by (unfold field; look).
Qed.
Lemma on_cutover_error_answers (d : dict) (cid : option value) (e : exn) :
  outcome (status_among [200; 500]) nothing (on_cutover_error (VDict d) cid e).
Proof.
  unfold on_cutover_error. outcomes.
  all: apply outcome_ret, response_status_among; set_solver.
Qed.

Lemma cutover_unexpected_error_answers (e : exn) :
  outcome (status_among [200; 500]) nothing (on_unexpected_error e).
Proof. intros w. cbn. apply response_status_among. set_solver. Qed.

Lemma finalize_cutover_answers (ev : dict) :
  answers (status_among [200; 500]) (lambda_handler ev).
Proof.
  unfold lambda_handler. cbn zeta.
  destruct (dict_get_or ev "detail" (VDict ∅)) as [| | | | |d].
  6:{ apply guarded_handler_answers.
      - intros cid. repeat (apply outcome_seq; [apply outcome_any | intros ?]).
        apply outcome_ret, response_status_among. set_solver.
      - intros cid e. destruct (is_class _ _);
          [apply on_cutover_error_answers | apply cutover_unexpected_error_answers]. }
  all: apply misrouted_handler_answers;
    [ stops_at_once
    | intros cid [|c m] He; [done|]; apply cutover_unexpected_error_answers ].
Qed.
End Proofs.
Import TriggerMigrationSpec.

Lemma cutover_names_source : truthy (dict_get cutover_detail "sourceVmId") = true.
Proof. vm_compute. reflexivity. Qed.

Lemma request_names_no_source : truthy (dict_get request_detail "sourceVmId") = false.
Proof. vm_compute. reflexivity. Qed.

Lemma request_has_no_steps : dict_get_or request_detail "steps" (VList []) = VList [].
Proof. vm_compute. reflexivity. Qed.

Lemma cutover_steps_performed_witness :
  dict_get_or cutover_detail "steps" (VList []) = VList cutover_steps ∧
  ∃ (result : dict) (performed : list value) (w' : world),
    perform_cutover_steps (C := quiet) (VDict cutover_detail) empty_world = (Ok result, w') ∧
    result !! "stepsPerformed" = Some (VList performed) ∧
    (λ entry, field (Some entry) "step") <$> performed
      = Some <$> List.filter is_known cutover_steps ∧
    Forall (λ entry, field (Some entry) "status" = Some (VStr "COMPLETED")) performed ∧
    table w' = table empty_world.
Proof.
  split; [exact cutover_has_steps|].
  exact (cutover_steps_performed (C := quiet) cutover_detail cutover_steps empty_world
           cutover_has_steps).
Defined.

Lemma cutover_without_source_is_rejected_witness :
  detail_of request_event = VDict request_detail ∧
  dict_if_present request_event "headers" ∧
  dict_get_or request_detail "steps" (VList []) = VList [] ∧
  truthy (dict_get request_detail "sourceVmId") = false ∧
  ∃ (e : exn) (w' : world),
    lambda_handler (C := quiet) request_event empty_world
      = (Ok (response 500 (VDict (to_dict e))), w') ∧
    error_code e = VStr "CUTOVER_ERROR" ∧
    message e = VStr "Source VM ID not provided for decommission" ∧
    table w' = table empty_world ∧
    ("INFO", "Cutover steps completed") ∈ logged w' ∧
    ("INFO", "DNS records updated") ∈ logged w'.
Proof.
  split; [exact ValidateInputSpec.request_has_detail|].
  split; [exact ValidateInputSpec.request_has_no_headers|].
  split; [exact request_has_no_steps|]. split; [exact request_names_no_source|].
  exact (cutover_without_source_is_rejected (C := quiet) request_event request_detail []
           empty_world ValidateInputSpec.request_has_detail
           ValidateInputSpec.request_has_no_headers request_has_no_steps
           request_names_no_source).
Defined.

Lemma completed_cutover_is_recorded_witness :
  detail_of cutover_event = VDict cutover_detail ∧
  dict_if_present cutover_event "headers" ∧
  dict_get_or cutover_detail "steps" (VList []) = VList cutover_steps ∧
  truthy (dict_get cutover_detail "sourceVmId") = true ∧
  cutover_detail !! "migrationId" = Some (VStr "mig-1") ∧
  "mig-1" ≠ "" ∧
  bus_accepts (healthy 0) ∧
  ∃ (details : dict) (w' : world),
    lambda_handler (C := healthy 0) cutover_event empty_world =
      (Ok (response 200 (VDict (<["migrationId" := VStr "mig-1"]> (
                                <["status" := VStr "COMPLETED"]> details)))), w') ∧
    dom details = {[ "cutover"; "dns"; "decommission"; "cmdb" ]} ∧
    field (details !! "decommission") "sourceVmId"
      = Some (dict_get cutover_detail "sourceVmId") ∧
    field (details !! "dns") "status" = Some (VStr "DNS_UPDATED") ∧
    field (details !! "cmdb") "status" = Some (VStr "MIGRATED_TO_AWS") ∧
    stored w' "mig-1" "status" = Some (VStr "COMPLETED") ∧
    stored w' "mig-1" "executionDetails" = Some (VDict details).
Proof.
  assert ("mig-1" ≠ "") as Hne by discriminate.
  split; [exact cutover_has_detail|]. split; [exact cutover_has_no_headers|].
  split; [exact cutover_has_steps|]. split; [exact cutover_names_source|].
  split; [exact cutover_names_migration|]. split; [exact Hne|].
  split; [exact (healthy_bus_accepts 0)|].
  exact (completed_cutover_is_recorded (C := healthy 0) cutover_event cutover_detail
           cutover_steps "mig-1" empty_world cutover_has_detail cutover_has_no_headers
           cutover_has_steps cutover_names_source cutover_names_migration Hne
           (healthy_bus_accepts 0)).
Defined.
End FinalizeCutoverSpec.

(** ** Preparing the source *)
Module PrepareSourceFacts.
Import Errors Correlation DynamodbHelper EventbridgeHelper PrepareSource.

(** The listing of the source servers that the MGN integration asks for. *)
Definition listing : call := Call "mgn" "describe_source_servers" [].

(** The error of a request that fails the readiness check. *)
Definition not_ready : exn :=
  SourcePreparationError "Source VM is not ready for migration" None.

Section Proofs.
Context `{C : Collaborators}.

Lemma aws_calls_check_required (payload : value) (fields : list string) :
  preserves aws_calls (check_required payload fields).
Proof. induction fields as [|f fields IH]; cbn [check_required]; keeps. Qed.
#[local] Hint Resolve aws_calls_check_required : frame.
Lemma aws_calls_validate_source_readiness (payload : value) :
  preserves aws_calls (validate_source_readiness payload).
Proof. unfold validate_source_readiness. keeps. Qed.
Lemma aws_calls_prepare_azure_source (payload : value) :
  preserves aws_calls (prepare_azure_source payload).
Proof. unfold prepare_azure_source. keeps. Qed.
Lemma aws_calls_on_preparation_error (detail : value) (cid : option value) (e : exn) :
  preserves aws_calls (on_preparation_error detail cid e).
Proof. unfold on_preparation_error. keeps. Qed.
Lemma aws_calls_prepare_unexpected_error (e : exn) :
  preserves aws_calls (on_unexpected_error e).
Proof. unfold on_unexpected_error. keeps. Qed.
#[local] Hint Resolve aws_calls_validate_source_readiness aws_calls_prepare_azure_source
  aws_calls_on_preparation_error aws_calls_prepare_unexpected_error
  PrepareSourceSpec.keeps_validate_source_readiness
  PrepareSourceSpec.keeps_on_preparation_error
  PrepareSourceSpec.keeps_prepare_unexpected_error : frame.

(** On a dict the readiness check passes exactly when [sourceVmId] and
    [source] are both filled. *)
Lemma validate_source_readiness_run (d : dict) (w : world) :
  ∃ w1,
    validate_source_readiness (VDict d) w
      = (Ok (truthy (dict_get d "sourceVmId") && truthy (dict_get d "source")), w1) ∧
    table w1 = table w ∧ aws_calls w1 = aws_calls w.
Proof.
  unfold validate_source_readiness, check_required, dict_get. cbn.
  destruct (d !! "sourceVmId") as [vm|];
    [rewrite bool_decide_eq_true_2 by eauto
    |rewrite bool_decide_eq_false_2 by (by intros [? ?])]; cbn;
    [destruct (truthy vm); cbn|]; try (by eexists);
    (destruct (d !! "source") as [src|];
     [rewrite bool_decide_eq_true_2 by eauto
     |rewrite bool_decide_eq_false_2 by (by intros [? ?])]; cbn;
     [destruct (truthy src); cbn|]; by eexists).
Qed.

Lemma on_preparation_error_run (d : dict) (cid : value) (e : exn) (w : world) :
  ∃ w',
    on_preparation_error (VDict d) (Some cid) e w
      = (Ok (response 500 (VDict (to_dict e))), w') ∧
    table w' = table w ∧ aws_calls w' = aws_calls w.
Proof.
  destruct (failure_event_swallowed (dict_get_or d "migrationId" (VStr "unknown")) cid e
              (add_log ("ERROR", "Source preparation failed") w)) as (w' & Hs & Ht & Ha & _).
  exists w'. unfold on_preparation_error. cbn in Hs |- *. rewrite Hs. done.
Qed.

(** X22.  A request whose detail leaves [sourceVmId] or [source] out, or empty,
    is answered with status 500 and the error "Source VM is not ready for
    migration".  No status is written and the migration service is not
    called. *)
Theorem unready_source_is_rejected (ev d : dict) (w : world) :
  detail_of ev = VDict d →
  dict_if_present ev "headers" →
  truthy (dict_get d "sourceVmId") = false ∨ truthy (dict_get d "source") = false →
  ∃ w' : world,
    lambda_handler ev w = (Ok (response 500 (VDict (to_dict not_ready))), w') ∧
    table w' = table w ∧
    aws_calls w' = aws_calls w.
Proof.
  intros Hd Hh Hnot.
  destruct (CorrelationSpec.extract_total ev w (ValidateInputSpec.detail_of_dict _ _ Hd) Hh)
    as (cid & w1 & Hex).
  pose proof (keeps_extract_correlation_id (VDict ev) w) as Ht1.
  pose proof (aws_calls_extract_correlation_id (VDict ev) w) as Ha1.
  rewrite Hex in Ht1, Ha1. cbn [snd] in Ht1, Ha1.
  name_run lambda_handler.
  unfold lambda_handler. fold (detail_of ev). rewrite Hd. cbn zeta.
  rewrite (try_binding_ok _ _ _ _ _ _ Hex).
  do 2 step.
  match goal with
  | |- context [try_except _ _ ?w2] =>
      destruct (validate_source_readiness_run d w2) as (w3 & Hv & Ht3 & Ha3)
  end.
  assert (truthy (dict_get d "sourceVmId") && truthy (dict_get d "source") = false) as Hf
    by (destruct Hnot as [-> | ->]; [done | apply andb_false_r]).
  rewrite Hf in Hv. step_with Hv.
  erewrite try_except_bind_raise by reflexivity.
  destruct (on_preparation_error_run d cid not_ready w3) as (w' & Hr & Ht' & Ha').
  match goal with
  | |- ?run = _ → _ => change run with (on_preparation_error (VDict d) (Some cid) not_ready w3)
  end.
  rewrite Hr. intros [= <- <-]. exists w'. split; [reflexivity|].
  split; [rewrite Ht', Ht3; exact Ht1 | rewrite Ha', Ha3; exact Ha1].
Qed.

Lemma prepare_source_with_mgn_calls (payload : value) (w : world) :
  aws_calls (prepare_source_with_mgn payload w).2 = (aws_calls w ++ [listing])%list.
Proof.
  unfold prepare_source_with_mgn, listing. cbn.
  destruct (respond _ _) as [[| | | | |r]|e]; cbn;
    try (destruct (dict_get_or _ "items" _); cbn);
    unfold aws_calls; cbn; rewrite !List.filter_app; cbn; by rewrite ?app_nil_r.
Qed.

(** X23.  For a request that passes the readiness check, the source decides
    whether the migration service is asked: a source equal to ["azure"]
    is prepared without any call to it, every other source, differing be
    it only in case, with exactly one listing of the source servers. *)
Theorem source_decides_listing (ev d : dict) (w : world) :
  detail_of ev = VDict d →
  dict_if_present ev "headers" →
  truthy (dict_get d "sourceVmId") = true →
  truthy (dict_get d "source") = true →
  aws_calls (lambda_handler ev w).2 =
    (aws_calls w ++ if eq_str (dict_get d "source") "azure" then [] else [listing])%list.
Proof.
  intros Hd Hh Hvm Hsrc.
  destruct (CorrelationSpec.extract_total ev w (ValidateInputSpec.detail_of_dict _ _ Hd) Hh)
    as (cid & w1 & Hex).
  pose proof (aws_calls_extract_correlation_id (VDict ev) w) as Ha1.
  rewrite Hex in Ha1. cbn [snd] in Ha1.
  unfold lambda_handler. fold (detail_of ev). rewrite Hd. cbn zeta.
  rewrite (try_binding_ok _ _ _ _ _ _ Hex).
  do 2 step.
  match goal with
  | |- context [try_except _ _ ?w2] =>
      destruct (validate_source_readiness_run d w2) as (w3 & Hv & _ & Ha3)
  end.
  rewrite Hvm, Hsrc in Hv. step_with Hv. do 2 step.
  destruct (eq_str (dict_get d "source") "azure").
  - framed aws_calls. rewrite app_nil_r, Ha3. exact Ha1.
  - pose proof (prepare_source_with_mgn_calls (VDict d) w3) as Ha.
    destruct (prepare_source_with_mgn (VDict d) w3) as [[r|e] w4] eqn:Hl; cbn [snd] in Ha.
    + step_with Hl. framed aws_calls. rewrite Ha, Ha3. f_equal. exact Ha1.
    + raise_with Hl. framed aws_calls. rewrite Ha, Ha3. f_equal. exact Ha1.
Qed.
Lemma on_preparation_error_answers (d : dict) (cid : option value) (e : exn) :
  outcome (status_among [200; 500]) nothing (on_preparation_error (VDict d) cid e).
Proof.
  unfold on_preparation_error. outcomes.
  all: apply outcome_ret, response_status_among; set_solver.
Qed.

Lemma prepare_unexpected_error_answers (e : exn) :
  outcome (status_among [200; 500]) nothing (on_unexpected_error e).
Proof. intros w. cbn. apply response_status_among. set_solver. Qed.

Lemma prepare_source_answers (ev : dict) :
  answers (status_among [200; 500]) (lambda_handler ev).
Proof.
  unfold lambda_handler. cbn zeta.
  destruct (dict_get_or ev "detail" (VDict ∅)) as [| | | | |d].
  6:{ apply guarded_handler_answers.
      - intros cid. repeat (apply outcome_seq; [apply outcome_any | intros ?]).
        apply outcome_ret, response_status_among. set_solver.
      - intros cid e. destruct (is_class _ _);
          [apply on_preparation_error_answers | apply prepare_unexpected_error_answers]. }
  all: apply misrouted_handler_answers;
    [ stops_at_once
    | intros cid [|c m] He; [done|]; apply prepare_unexpected_error_answers ].
Qed.
End Proofs.
Import TriggerMigrationSpec.

Lemma cutover_names_kind : truthy (dict_get cutover_detail "source") = true.
Proof. vm_compute. reflexivity. Qed.

Lemma unready_source_is_rejected_witness :
  detail_of request_event = VDict request_detail ∧
  dict_if_present request_event "headers" ∧
  (truthy (dict_get request_detail "sourceVmId") = false ∨
   truthy (dict_get request_detail "source") = false) ∧
  ∃ w' : world,
    lambda_handler (C := quiet) request_event empty_world
      = (Ok (response 500 (VDict (to_dict not_ready))), w') ∧
    table w' = table empty_world ∧
    aws_calls w' = aws_calls empty_world.
Proof.
  assert (truthy (dict_get request_detail "sourceVmId") = false ∨
          truthy (dict_get request_detail "source") = false) as Hnot
    by (left; exact FinalizeCutoverSpec.request_names_no_source).
  split; [exact ValidateInputSpec.request_has_detail|].
  split; [exact ValidateInputSpec.request_has_no_headers|]. split; [exact Hnot|].
  exact (unready_source_is_rejected (C := quiet) request_event request_detail empty_world
           ValidateInputSpec.request_has_detail ValidateInputSpec.request_has_no_headers Hnot).
Defined.

Lemma source_decides_listing_witness :
  detail_of cutover_event = VDict cutover_detail ∧
  dict_if_present cutover_event "headers" ∧
  truthy (dict_get cutover_detail "sourceVmId") = true ∧
  truthy (dict_get cutover_detail "source") = true ∧
  aws_calls (lambda_handler (C := quiet) cutover_event empty_world).2 =
    (aws_calls empty_world
       ++ if eq_str (dict_get cutover_detail "source") "azure" then [] else [listing])%list.
Proof.
  split; [exact cutover_has_detail|]. split; [exact cutover_has_no_headers|].
  split; [exact FinalizeCutoverSpec.cutover_names_source|]. split; [exact cutover_names_kind|].
  exact (source_decides_listing (C := quiet) cutover_event cutover_detail empty_world
           cutover_has_detail cutover_has_no_headers FinalizeCutoverSpec.cutover_names_source
           cutover_names_kind).
Defined.
End PrepareSourceFacts.

(** ** Verifying the migration *)
Module VerifyMigrationFacts.
Import Errors Correlation DynamodbHelper EventbridgeHelper VerifyMigration.

(** The migration service answers every call with a listing that has no
    server in it. *)
Definition mgn_lists_nothing (C : Collaborators) : Prop :=
  ∀ (h : list call) (c : call), service c = "mgn" →
    ∃ answer : dict, respond h c = Ok (VDict answer) ∧ truthy (dict_get answer "items") = false.

(** The error the handler reports when the listing is empty. *)
Definition lookup_failure : exn :=
  VerificationError "Failed to check MGN replication status: Source server not found in MGN"
    (Some {[ "service" := VStr "mgn" ]}).

Section Proofs.
Context `{C : Collaborators}.

Lemma on_verification_error_run (d : dict) (cid : value) (e : exn) (w : world) :
  ∃ w',
    on_verification_error (VDict d) (Some cid) e w
      = (Ok (response 500 (VDict (to_dict e))), w') ∧
    table w' = table w.
Proof.
  destruct (failure_event_swallowed (dict_get_or d "migrationId" (VStr "unknown")) cid e
              (add_log ("ERROR", "Migration verification failed") w))
    as (w' & Hs & Ht & _ & _).
  exists w'. unfold on_verification_error. cbn in Hs |- *. rewrite Hs. done.
Qed.

Lemma check_mgn_replication_status_empty (vm : value) (w : world) :
  mgn_lists_nothing C →
  ∃ w', check_mgn_replication_status vm w = (Raise lookup_failure, w') ∧
        table w' = table w.
Proof.
  intros Hmgn. unfold check_mgn_replication_status. cbn.
  match goal with
  | |- context [respond ?h ?c] => destruct (Hmgn h c eq_refl) as (answer & -> & Hitems)
  end.
  cbn. rewrite Hitems. cbn. by eexists.
Qed.

(** X24.  When the migration service lists no server for the source machine,
    the [VerificationError] raised for it inside [check_mgn_replication_status]
    is caught by that function's own [except Exception] and replaced:
    the handler answers with status 500 and the message "Failed to check
    MGN replication status: Source server not found in MGN", with the
    service name as the only detail.  No status is written. *)
Theorem missing_server_is_a_lookup_failure (ev d : dict) (w : world) :
  detail_of ev = VDict d →
  dict_if_present ev "headers" →
  mgn_lists_nothing C →
  ∃ w' : world,
    lambda_handler ev w = (Ok (response 500 (VDict (to_dict lookup_failure))), w') ∧
    table w' = table w.
Proof.
  intros Hd Hh Hmgn.
  destruct (CorrelationSpec.extract_total ev w (ValidateInputSpec.detail_of_dict _ _ Hd) Hh)
    as (cid & w1 & Hex).
  pose proof (keeps_extract_correlation_id (VDict ev) w) as Ht1.
  rewrite Hex in Ht1. cbn [snd] in Ht1.
  name_run lambda_handler.
  unfold lambda_handler. fold (detail_of ev). rewrite Hd. cbn zeta.
  rewrite (try_binding_ok _ _ _ _ _ _ Hex).
  do 3 step.
  match goal with
  | |- context [try_except (bind (check_mgn_replication_status ?vm) _) _ ?w2] =>
      destruct (check_mgn_replication_status_empty vm w2 Hmgn) as (w3 & Hc & Ht3)
  end.
  raise_with Hc.
  destruct (on_verification_error_run d cid lookup_failure w3) as (w' & Hr & Ht').
  match goal with
  | |- ?run = _ → _ =>
      change run with (on_verification_error (VDict d) (Some cid) lookup_failure w3)
  end.
  rewrite Hr. intros [= <- <-]. exists w'. split; [reflexivity|].
  rewrite Ht', Ht3. exact Ht1.
Qed.

Lemma on_verification_error_answers (d : dict) (cid : option value) (e : exn) :
  outcome (status_among [200; 500]) nothing (on_verification_error (VDict d) cid e).
Proof.
  unfold on_verification_error. outcomes.
  all: apply outcome_ret, response_status_among; set_solver.
Qed.

Lemma verify_unexpected_error_answers (e : exn) :
  outcome (status_among [200; 500]) nothing (on_unexpected_error e).
Proof. intros w. cbn. apply response_status_among. set_solver. Qed.

Lemma verify_migration_answers (ev : dict) :
  answers (status_among [200; 500]) (lambda_handler ev).
Proof.
  unfold lambda_handler. cbn zeta.
  destruct (dict_get_or ev "detail" (VDict ∅)) as [| | | | |d].
  6:{ apply guarded_handler_answers.
      - intros cid. repeat (apply outcome_seq; [apply outcome_any | intros ?]).
        apply outcome_ret, response_status_among. set_solver.
      - intros cid e. destruct (is_class _ _);
          [apply on_verification_error_answers | apply verify_unexpected_error_answers]. }
  all: apply misrouted_handler_answers;
    [ stops_at_once
    | intros cid [|c m] He; [done|]; apply verify_unexpected_error_answers ].
Qed.
End Proofs.

Lemma quiet_lists_nothing : mgn_lists_nothing quiet.
Proof. intros h c _. exists ∅. by split. Qed.

Lemma missing_server_is_a_lookup_failure_witness :
  detail_of request_event = VDict request_detail ∧
  dict_if_present request_event "headers" ∧
  mgn_lists_nothing quiet ∧
  ∃ w' : world,
    lambda_handler (C := quiet) request_event empty_world
      = (Ok (response 500 (VDict (to_dict lookup_failure))), w') ∧
    table w' = table empty_world.
Proof.
  split; [exact ValidateInputSpec.request_has_detail|].
  split; [exact ValidateInputSpec.request_has_no_headers|].
  split; [exact quiet_lists_nothing|].
  exact (missing_server_is_a_lookup_failure (C := quiet) request_event request_detail
           empty_world ValidateInputSpec.request_has_detail
           ValidateInputSpec.request_has_no_headers quiet_lists_nothing).
Defined.
End VerifyMigrationFacts.

(** ** The five steps of the pipeline as a whole *)
Module PipelineFacts.

(** X25.  Whatever the event, each of the five step handlers returns a response
    and raises nothing: a failure of the checks, of AWS, of the table or of
    the bus, or a malformed event, ends in a response with status 500 (400
    for a rejected request in the validation step), never in an exception
    of the invocation. *)
Theorem step_handlers_always_answer `{C : Collaborators} (ev : dict) :
  answers (status_among [200; 400; 500]) (ValidateInput.lambda_handler ev) ∧
  answers (status_among [200; 500]) (PrepareSource.lambda_handler ev) ∧
  answers (status_among [200; 500]) (TriggerMigration.lambda_handler ev) ∧
  answers (status_among [200; 500]) (VerifyMigration.lambda_handler ev) ∧
  answers (status_among [200; 500]) (FinalizeCutover.lambda_handler ev).
Proof.
  split_and!.
  - apply ValidateInputSpec.validate_input_answers.
  - apply PrepareSourceFacts.prepare_source_answers.
  - apply TriggerMigrationSpec.trigger_migration_answers.
  - apply VerifyMigrationFacts.verify_migration_answers.
  - apply FinalizeCutoverSpec.finalize_cutover_answers.
Qed.
End PipelineFacts.

(** ** The checks of the second verification handler *)
Module VerifyMigrationNewSpec.
Import VerifyMigrationNew.

(** EC2 fails every call. *)
Definition ec2_is_down (C : Collaborators) : Prop :=
  ∀ (h : list call) (c : call), service c = "ec2" → ∃ e, respond h c = Raise e.

Section Proofs.
Context `{C : Collaborators}.

(** X26.  When EC2 cannot be reached, or refuses, the health check of a target
    instance does not fail: it is reported as passed, with the message
    "Health check skipped (instance not available)". *)
Theorem unreachable_instance_counts_as_healthy
    (d : dict) (app mid instance : value) (w : world) :
  d !! "appName" = Some app →
  d !! "migrationId" = Some mid →
  truthy (dict_get d "callbackUrl") = false →
  d !! "targetInstanceId" = Some instance →
  truthy instance = true →
  ec2_is_down C →
  (verify_application_health (VDict d) w).1
    = Ok (true, "Health check skipped (instance not available)").
Proof.
  intros Happ Hmid Hurl Hinst Htruthy Hdown.
  unfold verify_application_health. cbn. rewrite Happ, Hmid. cbn.
  unfold dict_get in *. rewrite Hinst. cbn. rewrite Hurl, Htruthy. cbn.
  match goal with
  | |- context [respond ?h ?c] => destruct (Hdown h c eq_refl) as [e ->]
  end.
  reflexivity.
Qed.

(** X27.  A callback URL in the payload replaces the health check by nothing:
    the check is reported as passed without a request to the URL and
    without a call to EC2, also when a target instance is named. *)
Theorem callback_url_passes_unchecked (d : dict) (app mid : value) (w : world) :
  d !! "appName" = Some app →
  d !! "migrationId" = Some mid →
  truthy (dict_get d "callbackUrl") = true →
  ∃ w',
    verify_application_health (VDict d) w = (Ok (true, "Custom health check passed"), w') ∧
    calls w' = calls w.
Proof.
  intros Happ Hmid Hurl.
  unfold verify_application_health. cbn. rewrite Happ, Hmid. cbn. rewrite Hurl. cbn.
  by eexists.
Qed.

(** X28.  None of the three checks raises: each catches every exception of the
    service it calls and of a malformed payload or answer, and returns. *)
Theorem checks_never_raise (job payload migration_id lag : value) (health : string) :
  answers anything (check_mgn_replication_status job) ∧
  answers anything (verify_application_health payload) ∧
  answers anything (publish_health_metrics migration_id lag health).
Proof.
  split_and!; apply outcome_answers;
    [unfold check_mgn_replication_status
    |unfold verify_application_health
    |unfold publish_health_metrics];
    (apply outcome_try_except with (R := anything); [apply outcome_any|]);
    intros e _; outcomes.
Qed.
End Proofs.
Lemma ec2_outage_is_down : ec2_is_down (outage "ec2").
Proof. intros h c Hs. cbn. rewrite Hs. by eexists. Qed.

(** A migrated application with a target instance, and one that also gives
    a callback URL. *)
Definition launched_payload : dict :=
  <["targetInstanceId" := VStr "i-0abc123"]> request_detail.
Definition called_back_payload : dict :=
  <["callbackUrl" := VStr "https://cmdb.example/health"]> launched_payload.

Lemma unreachable_instance_counts_as_healthy_witness :
  launched_payload !! "appName" = Some (VStr "billing-app") ∧
  launched_payload !! "migrationId" = Some (VStr "mig-1") ∧
  truthy (dict_get launched_payload "callbackUrl") = false ∧
  launched_payload !! "targetInstanceId" = Some (VStr "i-0abc123") ∧
  truthy (VStr "i-0abc123") = true ∧
  ec2_is_down (outage "ec2") ∧
  (verify_application_health (C := outage "ec2") (VDict launched_payload) empty_world).1
    = Ok (true, "Health check skipped (instance not available)").
Proof.
  assert (launched_payload !! "appName" = Some (VStr "billing-app")) as Happ
    by (vm_compute; reflexivity).
  assert (launched_payload !! "migrationId" = Some (VStr "mig-1")) as Hmid
    by (vm_compute; reflexivity).
  assert (truthy (dict_get launched_payload "callbackUrl") = false) as Hurl
    by (vm_compute; reflexivity).
  assert (launched_payload !! "targetInstanceId" = Some (VStr "i-0abc123")) as Hinst
    by (vm_compute; reflexivity).
  assert (truthy (VStr "i-0abc123") = true) as Ht by reflexivity.
  split; [exact Happ|]. split; [exact Hmid|]. split; [exact Hurl|]. split; [exact Hinst|].
  split; [exact Ht|]. split; [exact ec2_outage_is_down|].
  exact (unreachable_instance_counts_as_healthy (C := outage "ec2") launched_payload _ _ _
           empty_world Happ Hmid Hurl Hinst Ht ec2_outage_is_down).
Defined.

Lemma callback_url_passes_unchecked_witness :
  called_back_payload !! "appName" = Some (VStr "billing-app") ∧
  called_back_payload !! "migrationId" = Some (VStr "mig-1") ∧
  truthy (dict_get called_back_payload "callbackUrl") = true ∧
  ∃ w',
    verify_application_health (C := quiet) (VDict called_back_payload) empty_world
      = (Ok (true, "Custom health check passed"), w') ∧
    calls w' = calls empty_world.
Proof.
  assert (called_back_payload !! "appName" = Some (VStr "billing-app")) as Happ
    by (vm_compute; reflexivity).
  assert (called_back_payload !! "migrationId" = Some (VStr "mig-1")) as Hmid
    by (vm_compute; reflexivity).
  assert (truthy (dict_get called_back_payload "callbackUrl") = true) as Hurl
    by (vm_compute; reflexivity).
  split; [exact Happ|]. split; [exact Hmid|]. split; [exact Hurl|].
  exact (callback_url_passes_unchecked (C := quiet) called_back_payload _ _ empty_world
           Happ Hmid Hurl).
Defined.
End VerifyMigrationNewSpec.

(** ** Delivering the callback, second handler *)
Module CallbackHandlerNewFacts.
Import CallbackHandlerNew.

(** The callback target answers every request with the given object. *)
Definition target_answers (C : Collaborators) (answer : dict) : Prop :=
  ∀ (h : list call) (c : call), service c = "requests" → respond h c = Ok (VDict answer).

Section Proofs.
Context `{C : Collaborators}.

Lemma get_auth_header_answers (url : value) : answers anything (get_auth_header url).
Proof.
  apply outcome_answers. unfold get_auth_header.
  apply outcome_try_except with (R := anything); [apply outcome_any|].
  intros e _. outcomes.
Qed.

(** X29.  [send_callback] counts exactly the status codes 200, 201 and 202 as
    a delivery: on any other code, 204 and the other 2xx codes included,
    it returns [False] with the code and the text of the answer. *)
Theorem callback_accepts_three_codes
    (url : value) (payload answer : dict) (code : Z) (text : value) (w : world) :
  truthy url = true →
  target_answers C answer →
  answer !! "status_code" = Some (VInt code) →
  answer !! "text" = Some text →
  (send_callback url payload w).1 =
    Ok (if bool_decide (code ∈ [200; 201; 202])
        then (true, "Callback sent successfully")
        else (false, "Callback failed with status " +:+ py_str (VInt code) +:+ ": "
                     +:+ py_str text)).
Proof.
  intros Hurl Htarget Hcode Htext.
  unfold send_callback. rewrite Hurl. cbn [negb]. cbn zeta.
  step.
  match goal with
  | |- context [try_except _ _ ?w1] =>
      destruct (get_auth_header_answers url w1) as (headers & w2 & Hauth & _)
  end.
  step_with Hauth.
  erewrite try_except_bind_ok by (unfold ext; rewrite Htarget by done; reflexivity).
  erewrite try_except_bind_ok by (cbn; rewrite Hcode; reflexivity).
  unfold accepted.
  destruct (decide (code = 200)) as [->|H200]; [reflexivity|].
  destruct (decide (code = 201)) as [->|H201]; [reflexivity|].
  destruct (decide (code = 202)) as [->|H202]; [reflexivity|].
  rewrite bool_decide_eq_false_2 by set_solver.
  replace (code =? 200) with false by (symmetry; by apply Z.eqb_neq).
  replace (code =? 201) with false by (symmetry; by apply Z.eqb_neq).
  replace (code =? 202) with false by (symmetry; by apply Z.eqb_neq).
  cbn [orb negb].
  erewrite try_except_bind_ok by (cbn; rewrite Htext; reflexivity).
  reflexivity.
Qed.
End Proofs.

(** A target that answers 204 No Content. *)
Definition no_content : dict := {[ "status_code" := VInt 204; "text" := VStr "" ]}.
Definition terse_target : Collaborators := {|
  respond := λ _ c, if String.eqb (service c) "requests" then Ok (VDict no_content)
                    else Ok (VDict ∅);
  utcnow_isoformat := λ _, "2024-01-01T00:00:00";
  uuid4_hex8 := λ _, "0a1b2c3d";
  time_time := λ _, 1704067200;
  utcnow_millis := λ _, 1704067200000;
  environ := ∅;
  json_loads := λ _, Raise (PyErr ExceptionC "JSONDecodeError");
  json_dumps := λ _, "";
  schema_validate := λ _, None;
  py_repr := λ _, "204";
|}.

Lemma terse_target_answers : target_answers terse_target no_content.
Proof. intros h c Hs. cbn. by rewrite Hs. Qed.

Lemma callback_accepts_three_codes_witness :
  truthy (VStr "https://cmdb.example/hook") = true ∧
  target_answers terse_target no_content ∧
  no_content !! "status_code" = Some (VInt 204) ∧
  no_content !! "text" = Some (VStr "") ∧
  (send_callback (C := terse_target) (VStr "https://cmdb.example/hook") ∅ empty_world).1 =
    Ok (if bool_decide (204 ∈ [200; 201; 202])
        then (true, "Callback sent successfully")
        else (false, "Callback failed with status "
                     +:+ py_str (C := terse_target) (VInt 204) +:+ ": "
                     +:+ py_str (C := terse_target) (VStr ""))).
Proof.
  assert (truthy (VStr "https://cmdb.example/hook") = true) as Hurl by reflexivity.
  assert (no_content !! "status_code" = Some (VInt 204)) as Hcode by (vm_compute; reflexivity).
  assert (no_content !! "text" = Some (VStr "")) as Htext by (vm_compute; reflexivity).
  split; [exact Hurl|]. split; [exact terse_target_answers|]. split; [exact Hcode|].
  split; [exact Htext|].
  exact (callback_accepts_three_codes (C := terse_target) (VStr "https://cmdb.example/hook") ∅
           no_content 204 (VStr "") empty_world Hurl terse_target_answers Hcode Htext).
Defined.
End CallbackHandlerNewFacts.

(** ** Cancelling the replication job, second rollback handler *)
Module RollbackHandlerNewFacts.
Import RollbackHandlerNew.

(** The one call [cancel_mgn_job] may issue: a description of the job. *)
Definition describing (job : value) : call :=
  Call "mgn" "describe_jobs" [VDict {[ "jobIDs" := VList [job] ]}].

Section Proofs.
Context `{C : Collaborators}.

(** X30.  [cancel_mgn_job] cancels nothing.  On a payload that names the
    migration it reports success whatever the migration service answers,
    for a job that is still running as for one it cannot find; the only
    call it may issue is a description of the job, and the table is left
    as it was. *)
Theorem cancel_cancels_nothing (d : dict) (mid : value) (w : world) :
  d !! "migrationId" = Some mid →
  ∃ (message : string) (w' : world),
    cancel_mgn_job (VDict d) w = (Ok (true, message), w') ∧
    table w' = table w ∧
    (aws_calls w' = aws_calls w ∨
     aws_calls w' = (aws_calls w ++ [describing (dict_get d "jobId")])%list).
Proof.
  intros Hmid.
  destruct (cancel_mgn_job (VDict d) w) as [r wf] eqn:Hrun. revert Hrun.
  unfold cancel_mgn_job.
  erewrite try_except_bind_ok by (cbn; rewrite Hmid; reflexivity).
  step.
  destruct (truthy (dict_get d "jobId")); cbn [negb];
    [|intros [= <- <-]; eexists _, _; split; [reflexivity|]; split; [done | by left]].
  step.
  match goal with
  | |- try_except ?inner _ ?w2 = _ → _ =>
      assert (answers (λ r : bool * string, r.1 = true) inner) as Hin;
      [|assert (keeps_table inner) as Ht by keeps;
        assert (aws_calls (inner w2).2
                = (aws_calls w ++ [describing (dict_get d "jobId")])%list) as Ha;
        [|destruct (Hin w2) as ([ok message] & w3 & Hr & Hok); specialize (Ht w2);
          rewrite Hr in Ht, Ha; cbn [fst snd] in Ht, Ha, Hok; subst ok;
          erewrite try_except_ok by exact Hr]]
  end.
  - apply outcome_answers. apply outcome_try_except with (R := anything).
    + repeat (apply outcome_seq; [apply outcome_any | intros ?]). by apply outcome_ret.
    + intros e _. apply outcome_seq; [by apply outcome_log_warning | intros _].
      by apply outcome_ret.
  - rewrite observed_after_call by (intros; keeps).
    by rewrite aws_calls_add_call, aws_calls_after_log.
  - intros [= <- <-]. eexists _, _. split; [reflexivity|]. split; [exact Ht | by right].
Qed.
End Proofs.

(** A payload of a migration whose replication job is known. *)
Definition job_payload : dict := <["jobId" := VStr "mgnjob-7"]> request_detail.

Lemma cancel_cancels_nothing_witness :
  job_payload !! "migrationId" = Some (VStr "mig-1") ∧
  ∃ (message : string) (w' : world),
    cancel_mgn_job (C := launching) (VDict job_payload) empty_world
      = (Ok (true, message), w') ∧
    table w' = table empty_world ∧
    (aws_calls w' = aws_calls empty_world ∨
     aws_calls w' = (aws_calls empty_world ++ [describing (dict_get job_payload "jobId")])%list).
Proof.
  assert (job_payload !! "migrationId" = Some (VStr "mig-1")) as Hmid
    by (vm_compute; reflexivity).
  split; [exact Hmid|].
  exact (cancel_cancels_nothing (C := launching) job_payload (VStr "mig-1") empty_world Hmid).
Defined.
End RollbackHandlerNewFacts.
